(** * The trading dashboard front end: a shallow embedding and its properties

    The development embeds the browser side of the analytics platform:
    [frontend/js/charts.js] (the [Charts] object), [frontend/js/app.js] (the
    [TradingApp] class) and the WebSocket client module.

    JavaScript numbers are IEEE 754 binary64 values; they are modelled by the
    primitive [float] type, which is the same format with the same rounding, so
    that [NaN], the infinities and the two zeros behave as in the browser.
    Time stamps read from [Date.now()], retry counters and delays are integral
    and far below 2^53; they are modelled by [Z].  Strings are sequences of
    ASCII characters. *)

From Stdlib Require Import ZArith List String Ascii Bool Lia Floats DecimalString Sorted.
From stdpp Require Import base option list gmap strings.
Import ListNotations.

Local Open Scope Z_scope.

(* ================================================================== *)
(** ** JavaScript values and built-ins used by the sources             *)
(* ================================================================== *)

Module JS.

(** The [Number] type. *)
Abbreviation Number := float.

(** [a < b], [a > b], [a >= b] on numbers: every comparison with [NaN] is
    false. *)
Definition lt (a b : Number) : bool := PrimFloat.ltb a b.
Definition gt (a b : Number) : bool := PrimFloat.ltb b a.
Definition ge (a b : Number) : bool := PrimFloat.leb b a.
Definition le (a b : Number) : bool := PrimFloat.leb a b.

(** [ToBoolean] on a number: [NaN], [+0] and [-0] are falsy. *)
Definition truthy (x : Number) : bool := negb (is_nan x || is_zero x).

(** [arr.length] as a number (array lengths are below 2^32, hence exact). *)
Definition length_number {A} (l : list A) : Number :=
  PrimFloat.of_uint63 (Uint63.of_Z (Z.of_nat (List.length l))).

(** [arr.reduce(f, init)]. *)
Definition reduce {A B} (f : B -> A -> B) (init : B) (arr : list A) : B :=
  fold_left f arr init.

(** [Math.pow(x, 2)]: the engines' [pow] returns [x * x] for the exponent 2. *)
Definition Math_pow2 (x : Number) : Number := PrimFloat.mul x x.

Definition Math_sqrt (x : Number) : Number := PrimFloat.sqrt x.
Definition Math_abs (x : Number) : Number := PrimFloat.abs x.

Definition is_neg_zero (x : Number) : bool := PrimFloat.Leibniz.eqb x neg_zero.
Definition is_pos_zero (x : Number) : bool := PrimFloat.Leibniz.eqb x zero.

(** [Math.min(...arr)]: starts from [+Infinity]; a [NaN] argument makes the
    result [NaN]; [-0] is below [+0]. *)
Fixpoint min_loop (lowest : Number) (args : list Number) : Number :=
  match args with
  | [] => lowest
  | number :: rest =>
      if is_nan number then nan
      else if is_neg_zero number && is_pos_zero lowest then min_loop neg_zero rest
      else if lt number lowest then min_loop number rest
      else min_loop lowest rest
  end.

Definition Math_min (args : list Number) : Number := min_loop infinity args.

(** [Math.max(...arr)]: starts from [-Infinity]; [+0] is above [-0]. *)
Fixpoint max_loop (highest : Number) (args : list Number) : Number :=
  match args with
  | [] => highest
  | number :: rest =>
      if is_nan number then nan
      else if is_pos_zero number && is_neg_zero highest then max_loop zero rest
      else if gt number highest then max_loop number rest
      else max_loop highest rest
  end.

Definition Math_max (args : list Number) : Number := max_loop neg_infinity args.

(** *** [Number.prototype.toFixed] *)

(** The decimal digits of a natural number, ["0"] for zero. *)
Definition digits (n : Z) : string :=
  NilZero.string_of_uint (N.to_uint (Z.to_N n)).

Fixpoint zeros (k : nat) : string :=
  match k with O => EmptyString | S k' => String "0" (zeros k') end.

(** The integer [n] for which [n / 10^f - m * 2^e] is closest to zero, the
    larger one on a tie. *)
Definition nearest_scaled (m e : Z) (f : nat) : Z :=
  let scaled := m * 10 ^ Z.of_nat f in
  if 0 <=? e then scaled * 2 ^ e
  else let d := 2 ^ (- e) in (2 * scaled + d) / (2 * d).

(** Steps 10-12 of [toFixed] on the integer [n]: pad to [f + 1] digits and
    put the point before the last [f] of them. *)
Definition place_point (n : Z) (f : nat) : string :=
  let m := digits n in
  match f with
  | O => m
  | _ =>
      let k := String.length m in
      let m := if (k <=? f)%nat then (zeros (f + 1 - k) ++ m)%string else m in
      let k := String.length m in
      (substring 0 (k - f) m ++ "." ++ substring (k - f) f m)%string
  end.

(** [x.toFixed(f)] for [0 <= f <= 100].  A magnitude of 10^21 or more is
    printed by [Number::toString] in exponent form, which is not modelled:
    the result is [None] there. *)
Definition toFixed (x : Number) (f : nat) : option string :=
  match Prim2SF x with
  | S754_nan => Some "NaN"%string
  | S754_infinity false => Some "Infinity"%string
  | S754_infinity true => Some "-Infinity"%string
  | S754_zero _ => Some (place_point 0 f)
  | S754_finite s m e =>
      if (0 <=? e) && (10 ^ 21 <=? Zpos m * 2 ^ e) then None
      else
        let n := nearest_scaled (Zpos m) e f in
        Some ((if s then "-" else "") ++ place_point n f)%string
  end.

(** *** Strings *)

(** White space and line terminators of the ASCII range. *)
Definition is_white_space (c : ascii) : bool :=
  let n := nat_of_ascii c in
  ((9 <=? n)%nat && (n <=? 13)%nat) || (n =? 32)%nat.

Fixpoint trimStart (s : string) : string :=
  match s with
  | EmptyString => EmptyString
  | String c rest => if is_white_space c then trimStart rest else s
  end.

Fixpoint trimEnd (s : string) : string :=
  match s with
  | EmptyString => EmptyString
  | String c rest =>
      match trimEnd rest with
      | EmptyString => if is_white_space c then EmptyString else String c EmptyString
      | rest' => String c rest'
      end
  end.

Definition trim (s : string) : string := trimEnd (trimStart s).

Definition lower_char (c : ascii) : ascii :=
  let n := nat_of_ascii c in
  if ((65 <=? n)%nat && (n <=? 90)%nat) then ascii_of_nat (n + 32) else c.

Definition upper_char (c : ascii) : ascii :=
  let n := nat_of_ascii c in
  if ((97 <=? n)%nat && (n <=? 122)%nat) then ascii_of_nat (n - 32) else c.

Fixpoint map_chars (f : ascii -> ascii) (s : string) : string :=
  match s with
  | EmptyString => EmptyString
  | String c rest => String (f c) (map_chars f rest)
  end.

Definition toLowerCase : string -> string := map_chars lower_char.
Definition toUpperCase : string -> string := map_chars upper_char.

(** [s.endsWith(searchString)]. *)
Definition endsWith (s searchString : string) : bool :=
  let len := String.length s in
  let searchLength := String.length searchString in
  if (searchLength <=? len)%nat
  then String.eqb (substring (len - searchLength) searchLength s) searchString
  else false.

(** [arr.includes(x)] and [arr.filter(s => s !== x)] on arrays of strings. *)
Definition includes (arr : list string) (x : string) : bool :=
  existsb (String.eqb x) arr.

Definition filter_ne (arr : list string) (x : string) : list string :=
  List.filter (fun s => negb (String.eqb s x)) arr.

(** *** Plain objects used as maps from names to numbers *)

(** What [obj[key]] can evaluate to on such an object: [undefined], a number
    stored under the name, or one of the functions and objects that every
    object inherits. *)
Inductive value :=
| Undefined
| Num (x : Number)
| Inherited.

(** [ToBoolean]: an object is truthy, [undefined] is not. *)
Definition ToBoolean (v : value) : bool :=
  match v with
  | Undefined => false
  | Num x => truthy x
  | Inherited => true
  end.

(** [ToNumber]: [undefined], a function and a plain object all give
    [NaN]. *)
Definition ToNumber (v : value) : Number :=
  match v with
  | Num x => x
  | Undefined | Inherited => nan
  end.

(** [a || b]. *)
Definition or (a b : value) : value := if ToBoolean a then a else b.

(** The names an object literal inherits from [Object.prototype]: its
    methods and the accessor [__proto__]. *)
Definition Object_prototype : list string :=
  [ "constructor"; "__defineGetter__"; "__defineSetter__"; "hasOwnProperty";
    "__lookupGetter__"; "__lookupSetter__"; "isPrototypeOf";
    "propertyIsEnumerable"; "toString"; "valueOf"; "__proto__";
    "toLocaleString" ]%string.

Definition inherits (key : string) : bool :=
  existsb (String.eqb key) Object_prototype.

(** [obj[key]]: the own property, else the inherited one, else
    [undefined]. *)
Definition get (obj : gmap string Number) (key : string) : value :=
  match obj !! key with
  | Some x => Num x
  | None => if inherits key then Inherited else Undefined
  end.

(** [obj[key] = x] for a number [x]: an own property is overwritten; a new
    name becomes an own property, except [__proto__], whose inherited setter
    is called instead and ignores a value that is not an object. *)
Definition set (obj : gmap string Number) (key : string) (x : Number)
    : gmap string Number :=
  match obj !! key with
  | Some _ => <[key := x]> obj
  | None => if String.eqb key "__proto__" then obj else <[key := x]> obj
  end.

End JS.

Import JS.

(* ================================================================== *)
(** ** The page: elements looked up by id                              *)
(* ================================================================== *)

(** What the sources read and write of a DOM element: its text, its
    [style.color], and, for a Plotly container, the number of traces in its
    [data] array ([plotly_data], [None] when the element carries no [data]). *)
Record element := Element {
  textContent : string;
  color : string;
  plotly_data : option nat
}.

(** [document.getElementById] is the lookup of the map. *)
Abbreviation document := (gmap string element).

Definition set_textContent (text : string) (el : element) : element :=
  {| textContent := text; color := color el; plotly_data := plotly_data el |}.

Definition set_color (c : string) (el : element) : element :=
  {| textContent := textContent el; color := c; plotly_data := plotly_data el |}.

(** [const el = document.getElementById(id); if (el) { ... }]: the body runs
    only on an element that exists. *)
Definition with_element (doc : document) (id : string)
    (body : element -> option element) : option document :=
  match doc !! id with
  | None => Some doc
  | Some el => el' ← body el; Some (<[id := el']> doc)
  end.

(** The calls made to the charting library. *)
Inductive plotly_call :=
| Plotly_newPlot (containerId : string) (traces : nat)
| Plotly_update (containerId : string) (y : Number * Number)
    (x : string * string) (trace : nat)
| Plotly_restyle (containerId : string)
    (close high low : list Number) (trace : nat).

(* ================================================================== *)
(** ** charts.js                                                       *)
(* ================================================================== *)

Module Charts.

(** One OHLCV bar of the data array. *)
Record bar := Bar {
  timestamp : string;
  open : Number;
  high : Number;
  low : Number;
  close : Number;
  volume : Number
}.

(** The fields of the [Charts] object. *)
Record t := Make {
  currentSymbol : option string;
  currentData : option (list bar);
  currentPrice : option Number;
  lastUpdateTime : Z;
  updateThrottle : Z
}.

(** The object literal. *)
Definition init : t :=
  {| currentSymbol := None; currentData := None; currentPrice := None;
     lastUpdateTime := 0; updateThrottle := 100 |}.

Definition set_currentSymbol (s : string) (c : t) : t :=
  {| currentSymbol := Some s; currentData := currentData c;
     currentPrice := currentPrice c; lastUpdateTime := lastUpdateTime c;
     updateThrottle := updateThrottle c |}.

Definition set_currentData (d : list bar) (c : t) : t :=
  {| currentSymbol := currentSymbol c; currentData := Some d;
     currentPrice := currentPrice c; lastUpdateTime := lastUpdateTime c;
     updateThrottle := updateThrottle c |}.

Definition set_currentPrice (p : option Number) (c : t) : t :=
  {| currentSymbol := currentSymbol c; currentData := currentData c;
     currentPrice := p; lastUpdateTime := lastUpdateTime c;
     updateThrottle := updateThrottle c |}.

Definition set_lastUpdateTime (now : Z) (c : t) : t :=
  {| currentSymbol := currentSymbol c; currentData := currentData c;
     currentPrice := currentPrice c; lastUpdateTime := now;
     updateThrottle := updateThrottle c |}.

(** [!this.currentData || this.currentData.length === 0]. *)
Definition no_data (c : t) : bool :=
  match currentData c with
  | None => true
  | Some d => (List.length d =? 0)%nat
  end.

(** [renderOHLCV(containerId, data, livePrice)]: candlestick and volume
    traces, and the live price line as a third trace when a price is given. *)
Definition renderOHLCV (c : t) (containerId : string) (data : list bar)
    (livePrice : option Number) : t * list plotly_call :=
  match data with
  | [] => (c, [])
  | _ =>
      let c := set_currentPrice livePrice (set_currentData data c) in
      let traces := match livePrice with Some _ => 3%nat | None => 2%nat end in
      (c, [Plotly_newPlot containerId traces])
  end.

(** [updateLivePrice(containerId, price)]; [now] is the value read from
    [Date.now()]. *)
Definition updateLivePrice (c : t) (doc : document) (now : Z)
    (containerId : string) (price : Number) : t * list plotly_call :=
  match currentData c with
  | None => (c, [])
  | Some data =>
      if (List.length data =? 0)%nat then (c, [])
      else if now - lastUpdateTime c <? updateThrottle c then (c, [])
      else
        let c := set_lastUpdateTime now c in
        let c := set_currentPrice (Some price) c in
        match doc !! containerId with
        | None => (c, [])
        | Some container =>
            match plotly_data container with
            | None => (c, [])
            | Some n =>
                if (n <? 3)%nat then (c, [])
                else
                  let timestamps := map timestamp data in
                  match timestamps, List.last timestamps EmptyString with
                  | first :: _ :: _, last =>
                      (c, [Plotly_update containerId (price, price)
                             (first, last) 2])
                  | _, _ => (c, [])
                  end
            end
        end
  end.

(** The assignments of [updateLastBar] to the last candle: the close is the
    price, the high is raised and the low is lowered to it. *)
Definition update_candle (price : Number) (lastCandle : bar) : bar :=
  let lastCandle :=
    {| timestamp := timestamp lastCandle; open := open lastCandle;
       high := high lastCandle; low := low lastCandle;
       close := price; volume := volume lastCandle |} in
  let lastCandle :=
    if JS.gt price (high lastCandle)
    then {| timestamp := timestamp lastCandle; open := open lastCandle;
            high := price; low := low lastCandle;
            close := close lastCandle; volume := volume lastCandle |}
    else lastCandle in
  if JS.lt price (low lastCandle)
  then {| timestamp := timestamp lastCandle; open := open lastCandle;
          high := high lastCandle; low := price;
          close := close lastCandle; volume := volume lastCandle |}
  else lastCandle.

(** [updateLastBar(containerId, price)].  The candle is an object of the
    array [currentData]: assigning to its fields changes the array in place,
    here the entry at [lastIndex]. *)
Definition updateLastBar (c : t) (doc : document) (containerId : string)
    (price : Number) : t * list plotly_call :=
  match currentData c with
  | None => (c, [])
  | Some data =>
      let lastIndex := (List.length data - 1)%nat in
      match data !! lastIndex with
      | None => (c, [])
      | Some lastCandle =>
          let data := <[lastIndex := update_candle price lastCandle]> data in
          let c := set_currentData data c in
          match doc !! containerId with
          | None => (c, [])
          | Some container =>
              match plotly_data container with
              | None => (c, [])
              | Some _ =>
                  (c, [Plotly_restyle containerId (map close data)
                         (map high data) (map low data) 0])
              end
          end
      end
  end.

(** *** The object over a sequence of calls *)

(** The calls the application makes on the object; each carries what the
    call reads from outside: the clock and the page. *)
Inductive action :=
| RenderOHLCV (containerId : string) (data : list bar) (livePrice : option Number)
| UpdateLivePrice (now : Z) (doc : document) (containerId : string) (price : Number)
| UpdateLastBar (doc : document) (containerId : string) (price : Number).

Definition step (c : t) (a : action) : t * list plotly_call :=
  match a with
  | RenderOHLCV containerId data livePrice => renderOHLCV c containerId data livePrice
  | UpdateLivePrice now doc containerId price =>
      updateLivePrice c doc now containerId price
  | UpdateLastBar doc containerId price => updateLastBar c doc containerId price
  end.

(** The object after a sequence of calls. *)
Definition run (c : t) (actions : list action) : t :=
  fold_left (fun c a => fst (step c a)) actions c.

(** The calls to the charting library made over a sequence of calls, each
    with the clock reading of the call that made it when it has one. *)
Fixpoint plotly_log (c : t) (actions : list action)
    : list (option Z * plotly_call) :=
  match actions with
  | [] => []
  | a :: rest =>
      let (c', calls) := step c a in
      let now := match a with UpdateLivePrice now _ _ _ => Some now | _ => None end in
      (map (fun call => (now, call)) calls ++ plotly_log c' rest)%list
  end.

(** The clock readings of the updates of the live price line in a log. *)
Fixpoint update_times (log : list (option Z * plotly_call)) : list Z :=
  match log with
  | [] => []
  | (Some now, Plotly_update _ _ _ _) :: rest => now :: update_times rest
  | _ :: rest => update_times rest
  end.

(** Every bar has [low <= open, close <= high] and a volume that is not
    negative. *)
Definition bar_ok (b : bar) : bool :=
  JS.le (low b) (open b) && JS.le (open b) (high b) &&
  JS.le (low b) (close b) && JS.le (close b) (high b) &&
  JS.le 0%float (volume b).

End Charts.

(* ================================================================== *)
(** ** The backend as seen through the API client                      *)
(* ================================================================== *)

(** The answer of [GET /stream/status]. *)
Record stream_status := StreamStatus {
  running : bool;
  symbols : list string;
  tick_count : Z;
  buffer_size : Z
}.

(** The stream requests of the API client. *)
Inductive request :=
| GetStreamStatus
| StopStream
| StartStream (symbols : list string).

(** A promise settles with a value or rejects with an error message. *)
Inductive response (A : Type) :=
| Resolved (a : A)
| Rejected (message : string).
Arguments Resolved {A} a.
Arguments Rejected {A} message.

(** How the backend answers, call by call. *)
Record backend := Backend {
  on_getStreamStatus : response stream_status;
  on_stopStream : response unit;
  on_startStream : list string -> response unit
}.

(** The toasts of the symbol management. *)
Inductive toast :=
| PleaseEnterSymbol
| SymbolShouldEndWithUsdt
| SymbolAlreadyTracked
| CannotRemoveLastSymbol
| Added (symbol : string)
| Removed (symbol : string)
| Failed (message : string).

(** What an asynchronous method does, in order. *)
Inductive event :=
| Call (r : request)
| Sleep (ms : Z)
| ShowToast (t : toast)
| ClearInput.

(** An [async] body: the events so far and how the promise settles.  [bind]
    is [await], [try_catch] is [try { ... } catch (error) { ... }]. *)
Definition Async (A : Type) : Type := list event * response A.

Definition ret {A} (a : A) : Async A := ([], Resolved a).

Definition bind {A B} (m : Async A) (k : A -> Async B) : Async B :=
  match m with
  | (tr, Resolved a) => let (tr', r) := k a in (tr ++ tr', r)
  | (tr, Rejected e) => (tr, Rejected e)
  end.

Definition try_catch {A} (m : Async A) (handler : string -> Async A) : Async A :=
  match m with
  | (tr, Rejected e) => let (tr', r) := handler e in (tr ++ tr', r)
  | _ => m
  end.

Definition emit (e : event) : Async unit := ([e], Resolved tt).

Notation "'await' x <~ m 'in' k" := (bind m (fun x => k))
  (at level 10, x name, m at level 100, k at level 200, only parsing).
Notation "'exec' m 'in' k" := (bind m (fun _ => k))
  (at level 10, m at level 100, k at level 200, only parsing).

Module api.

Definition getStreamStatus (b : backend) : Async stream_status :=
  ([Call GetStreamStatus], on_getStreamStatus b).

Definition stopStream (b : backend) : Async unit :=
  ([Call StopStream], on_stopStream b).

Definition startStream (b : backend) (symbols : list string) : Async unit :=
  ([Call (StartStream symbols)], on_startStream b symbols).

End api.

(* ================================================================== *)
(** ** app.js                                                          *)
(* ================================================================== *)

Module TradingApp.

(** *** Price changes of the tick cards *)

(** [this.lastPrices]: absent until the first call, then an object literal
    used as a map from symbol to number; the map holds its own
    properties. *)
Abbreviation lastPrices_t := (option (gmap string Number)).

(** [getPriceChange(symbol, currentPrice)]: the new [this.lastPrices] and
    the returned change. *)
Definition getPriceChange (lastPrices : lastPrices_t) (symbol : string)
    (currentPrice : Number) : lastPrices_t * Number :=
  let lastPrices : gmap string Number :=
    match lastPrices with None => ∅ | Some m => m end in
  let lastPrice := JS.or (JS.get lastPrices symbol) (JS.Num currentPrice) in
  let lastPrices := JS.set lastPrices symbol currentPrice in
  (Some lastPrices, PrimFloat.sub currentPrice (JS.ToNumber lastPrice)).

(** *** Live statistics *)

(** The values [updateLiveStatPrice] computes from the close prices of the
    chart data and the live price. *)
Record live_stats := LiveStats {
  mean : Number;
  variance : Number;
  std : Number;
  min : Number;
  max : Number;
  percentChange : Number;
  zScore : Number;
  distanceMean : Number
}.

Definition recalculate (prices : list Number) (price : Number) : live_stats :=
  let mean :=
    PrimFloat.div (JS.reduce (fun a b => PrimFloat.add a b) 0%float prices)
                  (JS.length_number prices) in
  let variance :=
    PrimFloat.div
      (JS.reduce (fun sum p => PrimFloat.add sum (JS.Math_pow2 (PrimFloat.sub p mean)))
                 0%float prices)
      (JS.length_number prices) in
  let std := JS.Math_sqrt variance in
  let min := JS.Math_min prices in
  let max := JS.Math_max prices in
  let percentChange :=
    PrimFloat.mul (PrimFloat.div (PrimFloat.sub price mean) mean) 100%float in
  let zScore := PrimFloat.div (PrimFloat.sub price mean) std in
  let distanceMean := PrimFloat.sub price mean in
  {| mean := mean; variance := variance; std := std; min := min; max := max;
     percentChange := percentChange; zScore := zScore;
     distanceMean := distanceMean |}.

Definition sign_prefix (x : Number) : string :=
  if JS.ge x 0%float then "+"%string else EmptyString.

Definition gain_color (x : Number) : string :=
  if JS.ge x 0%float then "#26a69a"%string else "#ef5350"%string.

(** The assignments to each element of the statistics block. *)
Definition write_mean (s : live_stats) (el : element) : option element :=
  txt ← JS.toFixed (mean s) 2;
  Some (set_textContent ("$" ++ txt) el).

Definition write_std (s : live_stats) (el : element) : option element :=
  txt ← JS.toFixed (std s) 2;
  Some (set_textContent txt el).

Definition write_min (s : live_stats) (el : element) : option element :=
  txt ← JS.toFixed (min s) 2;
  Some (set_textContent ("$" ++ txt) el).

Definition write_max (s : live_stats) (el : element) : option element :=
  txt ← JS.toFixed (max s) 2;
  Some (set_textContent ("$" ++ txt) el).

Definition write_percentChange (s : live_stats) (el : element) : option element :=
  txt ← JS.toFixed (percentChange s) 2;
  Some (set_color (gain_color (percentChange s))
          (set_textContent (sign_prefix (percentChange s) ++ txt ++ "%") el)).

Definition write_zScore (s : live_stats) (el : element) : option element :=
  txt ← JS.toFixed (zScore s) 3;
  Some (set_color
          (if JS.gt (JS.Math_abs (zScore s)) 2%float
           then "#ef5350" else "#6b7280")
          (set_textContent txt el)).

Definition write_distanceMean (s : live_stats) (el : element) : option element :=
  txt ← JS.toFixed (distanceMean s) 2;
  Some (set_color (gain_color (distanceMean s))
          (set_textContent (sign_prefix (distanceMean s) ++ "$" ++ txt) el)).

(** The writes of the statistics block, in the order of the source. *)
Definition display_stats (s : live_stats) (doc : document) : option document :=
  doc ← with_element doc "liveMeanPrice" (write_mean s);
  doc ← with_element doc "liveStdDev" (write_std s);
  doc ← with_element doc "liveMinPrice" (write_min s);
  doc ← with_element doc "liveMaxPrice" (write_max s);
  doc ← with_element doc "livePercentChange" (write_percentChange s);
  doc ← with_element doc "liveZScore" (write_zScore s);
  with_element doc "liveDistanceMean" (write_distanceMean s).

(** [updateLiveStatPrice(symbol, price)]: the page after the call; [None]
    only where a number to print lies outside the range [toFixed] is
    modelled on. *)
Definition updateLiveStatPrice (charts : Charts.t) (doc : document)
    (symbol : string) (price : Number) : option document :=
  doc ← with_element doc "liveStatPrice" (fun el =>
    txt ← JS.toFixed price 2;
    Some (set_textContent ("$" ++ txt) el));
  match Charts.currentData charts with
  | Some ((_ :: _) as data) =>
      let prices := map Charts.close data in
      display_stats (recalculate prices price) doc
  | _ => Some doc
  end.

(** *** Adding and removing symbols *)

(** The [catch] of both methods: a toast with the error message. *)
Definition show_error (message : string) : Async unit :=
  emit (ShowToast (Failed message)).

(** Stop a running stream, wait, and start it with [allSymbols]. *)
Definition restart (b : backend) (status : stream_status)
    (allSymbols : list string) : Async unit :=
  exec (if running status
        then exec api.stopStream b in emit (Sleep 500)
        else ret tt) in
  api.startStream b allSymbols.

(** [addSymbol()]; [input] is the value of the text box. *)
Definition addSymbol (b : backend) (input : string) : Async unit :=
  let symbol := JS.toLowerCase (JS.trim input) in
  if String.eqb symbol EmptyString then emit (ShowToast PleaseEnterSymbol)
  else if negb (JS.endsWith symbol "usdt") then
    emit (ShowToast SymbolShouldEndWithUsdt)
  else
    try_catch
      (await status <~ api.getStreamStatus b in
       if JS.includes (symbols status) symbol
       then emit (ShowToast SymbolAlreadyTracked)
       else
         let allSymbols := (symbols status ++ [symbol])%list in
         exec restart b status allSymbols in
         exec emit (ShowToast (Added (JS.toUpperCase symbol))) in
         emit ClearInput)
      show_error.

(** [removeSymbol(symbol)]. *)
Definition removeSymbol (b : backend) (symbol : string) : Async unit :=
  try_catch
    (await status <~ api.getStreamStatus b in
     if (List.length (symbols status) <=? 1)%nat
     then emit (ShowToast CannotRemoveLastSymbol)
     else
       let allSymbols := JS.filter_ne (symbols status) symbol in
       exec restart b status allSymbols in
       emit (ShowToast (Removed (JS.toUpperCase symbol))))
    show_error.

(** *** Starting the stream when the page loads *)

Definition defaultSymbols : list string :=
  ["btcusdt"; "ethusdt"; "bnbusdt"; "solusdt"; "adausdt"; "xrpusdt"; "dogeusdt"]%string.

(** [autoStartStream()]: the value is the list handed to
    [updateSymbolDropdowns], if the method got that far; the [catch] only
    writes to the console. *)
Definition autoStartStream (b : backend) : Async (option (list string)) :=
  exec emit (Sleep 1000) in
  try_catch
    (await status <~ api.getStreamStatus b in
     exec (if running status
           then exec api.stopStream b in emit (Sleep 500)
           else ret tt) in
     exec api.startStream b defaultSymbols in
     ret (Some defaultSymbols))
    (fun _ => ret None).

(** *** The symbol dropdowns *)

(** A [select] element: the values of its options and its value. *)
Record select := Select {
  options : list string;
  value : string
}.

(** [this.availableSymbols] and [this.dropdownsInitialized]. *)
Record dropdowns := Dropdowns {
  availableSymbols : list string;
  dropdownsInitialized : bool
}.

(** The rebuilding of one dropdown: the placeholder and an option for each
    symbol; the previous value is restored if it is among the symbols,
    otherwise the placeholder, being first, is the selected option. *)
Definition rebuild_options (symbols : list string) (sel : select) : select :=
  let currentValue := value sel in
  {| options := EmptyString :: symbols;
     value := if JS.includes symbols currentValue then currentValue
              else EmptyString |}.

(** [updateSymbolDropdowns(symbols)] on the two dropdowns, each of which may
    be missing from the page.  Two arrays of strings have the same
    [JSON.stringify] exactly when they are equal. *)
Definition updateSymbolDropdowns (st : dropdowns)
    (dataSymbol alertSymbol : option select) (symbols : list string)
    : dropdowns * option select * option select :=
  let symbolsChanged := negb (bool_decide (availableSymbols st = symbols)) in
  if negb symbolsChanged && dropdownsInitialized st
  then (st, dataSymbol, alertSymbol)
  else ({| availableSymbols := symbols; dropdownsInitialized := true |},
        rebuild_options symbols <$> dataSymbol,
        rebuild_options symbols <$> alertSymbol).

(** *** The tick cards *)

(** The class of a tick card, from the price change. *)
Definition changeClass (priceChange : Number) : string :=
  if JS.gt priceChange 0%float then "price-up"%string
  else if JS.lt priceChange 0%float then "price-down"%string
  else EmptyString.

(** The loop of [updateLatestTicks] over the entries of the ticks object,
    the prices already parsed: the prices recorded and the class of each
    card. *)
Fixpoint tick_cards (lastPrices : lastPrices_t) (entries : list (string * Number))
    : lastPrices_t * list (string * string) :=
  match entries with
  | [] => (lastPrices, [])
  | (symbol, price) :: rest =>
      let (lastPrices, priceChange) := getPriceChange lastPrices symbol price in
      let (lastPrices, cards) := tick_cards lastPrices rest in
      (lastPrices, (symbol, changeClass priceChange) :: cards)
  end.

(** *** Loading the chart *)

(** The answer of [POST /data/summary], as far as [displaySummary] reads
    it. *)
Record summary := Summary {
  summary_mean : Number;
  summary_std : Number;
  summary_min : Number;
  summary_max : Number
}.

(** [displaySummary(data)]: the eight elements of the statistics block are
    created anew by the assignment to [statsGrid.innerHTML], the first four
    with their initial texts and the others with the numbers of the summary.
    The page after the call, and whether the call threw (a [TypeError], when
    [statsGrid] or [summarySection] is not on the page).  [None] only where a
    number to print lies outside the range [toFixed] is modelled on. *)
Definition displaySummary (data : summary) (doc : document)
    : option (document * bool) :=
  match doc !! "statsGrid"%string with
  | None => Some (doc, true)
  | Some _ =>
      mean ← JS.toFixed (summary_mean data) 2;
      std ← JS.toFixed (summary_std data) 2;
      min ← JS.toFixed (summary_min data) 2;
      max ← JS.toFixed (summary_max data) 2;
      let doc :=
        <["liveMaxPrice"%string := Element ("$" ++ max) "" None]>
        (<["liveMinPrice"%string := Element ("$" ++ min) "" None]>
        (<["liveStdDev"%string := Element std "" None]>
        (<["liveMeanPrice"%string := Element ("$" ++ mean) "" None]>
        (<["liveDistanceMean"%string := Element "$0.00" "" None]>
        (<["liveZScore"%string := Element "0.00" "" None]>
        (<["livePercentChange"%string := Element "0.00%" "" None]>
        (<["liveStatPrice"%string := Element "$0.00" "#f59e0b" None]> doc))))))) in
      match doc !! "summarySection"%string with
      | None => Some (doc, true)
      | Some _ => Some (doc, false)
      end
  end.

(** What [loadChartData] shows and draws. *)
Inductive load_event :=
| ToastLoading
| ToastNoData
| ToastError (message : option string)
| Purge (containerId : string)
| Draw (call : plotly_call).

(** [loadChartData()].  [symbol] is the value of the symbol dropdown;
    [ohlcv] and [summary_response] are the answers to the two requests, which
    are awaited together; [latestTicksData] holds, for the symbols of the
    last message, the number [parseFloat] reads from the price of the tick.
    The result is the [Charts] object, the page and the events; an error
    raised by the page itself has no message of its own here, and when both
    requests are rejected the message shown is taken to be that of the first
    one. *)
Definition loadChartData (charts : Charts.t) (doc : document)
    (latestTicksData : option (gmap string Number)) (symbol : string)
    (ohlcv : response (list Charts.bar)) (summary_response : response summary)
    : option (Charts.t * document * list load_event) :=
  if String.eqb symbol EmptyString then Some (charts, doc, [])
  else
    match ohlcv, summary_response with
    | Rejected message, _ | _, Rejected message =>
        Some (charts, doc, [ToastLoading; ToastError (Some message)])
    | Resolved ohlcvData, Resolved summaryData =>
        match last ohlcvData with
        | None =>
            Some (charts, doc,
                  ToastLoading :: ToastNoData ::
                  match doc !! "ohlcvChart"%string with
                  | Some _ => [Purge "ohlcvChart"]
                  | None => []
                  end)
        | Some lastBar =>
            let livePrice :=
              match latestTicksData ≫= (.!! symbol) with
              | Some price => price
              | None => Charts.close lastBar
              end in
            let charts := Charts.set_currentSymbol symbol charts in
            let (charts, calls) :=
              Charts.renderOHLCV charts "ohlcvChart" ohlcvData (Some livePrice) in
            '(doc, threw) ← displaySummary summaryData doc;
            if (threw : bool)
            then Some (charts, doc,
                       ToastLoading :: map Draw calls ++ [ToastError None])
            else
              doc ← updateLiveStatPrice charts doc symbol livePrice;
              Some (charts, doc, ToastLoading :: map Draw calls)
        end
    end.

(** *** Alerts *)

(** The fields of the form of the alert dialog. *)
Record alert_form := AlertForm {
  alertName : string;
  alertSymbol : string;
  alertMetric : string;
  alertOperator : string;
  alertThreshold : string
}.

(** The alert requests of the API client, and how the backend answers them;
    [on_getAlerts n] is the answer to the request for the list that comes
    after [n] earlier ones.  An alert of the list stands as its name. *)
Record alerts_backend := AlertsBackend {
  on_createAlert : response unit;
  on_getAlerts : nat -> response (list string)
}.

Inductive alert_event :=
| CallCreateAlert (name symbol metric operator : string) (threshold : Number)
| CallGetAlerts
| ToastFillAllFields
| ToastAlertCreated
| ToastAlertFailed (message : string)
| RenderAlerts (alerts : list string)
| HideCreateDialog.

(** [this.alerts], the form, and the events so far. *)
Record alerts_state := AlertsState {
  alerts : list string;
  form : alert_form;
  log : list alert_event
}.

Definition emit_alert (e : alert_event) (st : alerts_state) : alerts_state :=
  {| alerts := alerts st; form := form st; log := (log st ++ [e])%list |}.

Definition set_form (f : alert_form) (st : alerts_state) : alerts_state :=
  {| alerts := alerts st; form := f; log := log st |}.

Definition set_alerts (l : list string) (st : alerts_state) : alerts_state :=
  {| alerts := l; form := form st; log := log st |}.

(** How many requests for the list have been sent. *)
Definition getAlerts_sent (st : alerts_state) : nat :=
  List.length (List.filter (fun e => match e with CallGetAlerts => true | _ => false end)
                 (log st)).

(** [loadAlerts()]: a rejection is only written to the console. *)
Definition loadAlerts (b : alerts_backend) (st : alerts_state) : alerts_state :=
  let answer := on_getAlerts b (getAlerts_sent st) in
  let st := emit_alert CallGetAlerts st in
  match answer with
  | Resolved l => emit_alert (RenderAlerts l) (set_alerts l st)
  | Rejected _ => st
  end.

(** [createAlert()]; [parseFloat] is the built-in, applied to the text of
    the threshold field. *)
Definition createAlert (parseFloat : string -> Number) (b : alerts_backend)
    (st : alerts_state) : alerts_state :=
  let name := JS.trim (alertName (form st)) in
  let symbol := alertSymbol (form st) in
  let metric := alertMetric (form st) in
  let operator := alertOperator (form st) in
  let threshold := parseFloat (alertThreshold (form st)) in
  if String.eqb name EmptyString || String.eqb symbol EmptyString || is_nan threshold
  then emit_alert ToastFillAllFields st
  else
    let st := emit_alert (CallCreateAlert name symbol metric operator threshold) st in
    match on_createAlert b with
    | Rejected message => emit_alert (ToastAlertFailed message) st
    | Resolved _ =>
        let st := emit_alert ToastAlertCreated st in
        let st := loadAlerts b st in
        set_form {| alertName := EmptyString; alertSymbol := EmptyString;
                    alertMetric := alertMetric (form st);
                    alertOperator := alertOperator (form st);
                    alertThreshold := EmptyString |} st
    end.

(** [closeCreateAlertDialog()]: the name and the threshold are cleared. *)
Definition closeCreateAlertDialog (st : alerts_state) : alerts_state :=
  let st := emit_alert HideCreateDialog st in
  set_form {| alertName := EmptyString; alertSymbol := alertSymbol (form st);
              alertMetric := alertMetric (form st);
              alertOperator := alertOperator (form st);
              alertThreshold := EmptyString |} st.

(** [saveAlert()]. *)
Definition saveAlert (parseFloat : string -> Number) (b : alerts_backend)
    (st : alerts_state) : alerts_state :=
  loadAlerts b (closeCreateAlertDialog (createAlert parseFloat b st)).

End TradingApp.

(* ================================================================== *)
(** ** The WebSocket client module                                     *)
(* ================================================================== *)

Module WebSocketClient.

(** The retry fields of the client. *)
Record t := Make {
  reconnectDelay : Z;
  maxReconnectDelay : Z;
  reconnectAttempts : Z
}.

Definition constructor : t :=
  {| reconnectDelay := 1000; maxReconnectDelay := 30000;
     reconnectAttempts := 0 |}.

(** [ws.onopen]: the counters start over. *)
Definition onopen (c : t) : t :=
  {| reconnectDelay := 1000; maxReconnectDelay := maxReconnectDelay c;
     reconnectAttempts := 0 |}.

(** [reconnect()]: the delay of the timer it sets, if it sets one. *)
Definition reconnect (c : t) : option Z :=
  if reconnectAttempts c <? 10 then Some (reconnectDelay c) else None.

(** The callback of that timer, before it calls [connect()]. *)
Definition reconnect_timer (c : t) : t :=
  {| reconnectDelay := Z.min (reconnectDelay c * 2) (maxReconnectDelay c);
     maxReconnectDelay := maxReconnectDelay c;
     reconnectAttempts := reconnectAttempts c + 1 |}.

(** What becomes of one [connect()]: the socket opens and closes later, or
    it closes (or the constructor throws) without having opened. *)
Inductive outcome := Opens | Fails.

(** The client driven by the outcomes of its successive [connect()] calls:
    [onopen] when the socket opens, then [onclose] (or the [catch]) calls
    [reconnect()], whose timer makes the next call.  The result is the
    delays of the timers set, in order, and the final fields; the run stops
    when [reconnect()] sets no timer. *)
Fixpoint run (c : t) (outcomes : list outcome) : list Z * t :=
  match outcomes with
  | [] => ([], c)
  | o :: rest =>
      let c := match o with Opens => onopen c | Fails => c end in
      match reconnect c with
      | None => ([], c)
      | Some delay =>
          let (delays, c') := run (reconnect_timer c) rest in
          (delay :: delays, c')
      end
  end.

(** *** Handlers *)

(** The three events of [this.handlers]; the sources register and trigger
    handlers under these names only. *)
Inductive channel := analytics | alerts | connection.

(** The registered handlers, each function standing as a number. *)
Record handlers_t := Handlers {
  on_analytics : list nat;
  on_alerts : list nat;
  on_connection : list nat
}.

Definition no_handlers : handlers_t :=
  {| on_analytics := []; on_alerts := []; on_connection := [] |}.

Definition get_handlers (hs : handlers_t) (event : channel) : list nat :=
  match event with
  | analytics => on_analytics hs
  | alerts => on_alerts hs
  | connection => on_connection hs
  end.

Definition set_handlers (hs : handlers_t) (event : channel) (l : list nat)
    : handlers_t :=
  match event with
  | analytics =>
      {| on_analytics := l; on_alerts := on_alerts hs;
         on_connection := on_connection hs |}
  | alerts =>
      {| on_analytics := on_analytics hs; on_alerts := l;
         on_connection := on_connection hs |}
  | connection =>
      {| on_analytics := on_analytics hs; on_alerts := on_alerts hs;
         on_connection := l |}
  end.

(** [on(event, handler)]: [push]. *)
Definition on (hs : handlers_t) (event : channel) (handler : nat) : handlers_t :=
  set_handlers hs event (get_handlers hs event ++ [handler]).

(** [off(event, handler)]: [filter(h => h !== handler)]. *)
Definition off (hs : handlers_t) (event : channel) (handler : nat) : handlers_t :=
  set_handlers hs event
    (List.filter (fun h => negb (Nat.eqb h handler)) (get_handlers hs event)).

(** [triggerHandlers(event, data)]: the handlers called, in order. *)
Definition triggerHandlers (hs : handlers_t) (event : channel) : list (channel * nat) :=
  map (fun h => (event, h)) (get_handlers hs event).

(** What [handleMessage] reads of a message: its type and how many alerts
    it carries ([None] when it has no [alerts] field). *)
Record message := Message {
  type : string;
  alerts_length : option nat
}.

(** [handleMessage(message)]: the handlers called, in order. *)
Definition handleMessage (hs : handlers_t) (m : message) : list (channel * nat) :=
  if String.eqb (type m) "analytics_update" then
    (triggerHandlers hs analytics ++
     match alerts_length m with
     | Some n => if (0 <? n)%nat then triggerHandlers hs alerts else []
     | None => []
     end)%list
  else if String.eqb (type m) "pong" then []
  else [].

End WebSocketClient.

(* ================================================================== *)
(** ** Notions used in the statements                                  *)
(* ================================================================== *)

(** Two updates of the live price line, the first at least 100 ms (of the
    clock read by the throttle) before the second. *)
Definition apart (t1 t2 : Z) : Prop := t1 + 100 <= t2.


(** What holds of the retry fields whatever has happened to the client. *)
Definition retry_inv (c : WebSocketClient.t) : Prop :=
  WebSocketClient.maxReconnectDelay c = 30000 /\
  0 <= WebSocketClient.reconnectAttempts c <= 10 /\
  1000 <= WebSocketClient.reconnectDelay c <= 30000.


(** The requests among the events of an asynchronous method. *)
Fixpoint requests (tr : list event) : list request :=
  match tr with
  | [] => []
  | Call r :: tr => r :: requests tr
  | _ :: tr => requests tr
  end.

(** The statistics in the words of the specification, in binary64
    arithmetic, the sums taken from left to right. *)
Fixpoint sum_from (acc : Number) (l : list Number) : Number :=
  match l with
  | [] => acc
  | x :: l => sum_from (PrimFloat.add acc x) l
  end.

Definition sum (l : list Number) : Number := sum_from 0%float l.

(** The count [n] as a number: the binary64 value nearest to the integer
    [n], which is [n] itself as long as [n] is below 2^53. *)
Definition number_of_nat (n : nat) : Number :=
  SF2Prim (binary_normalize prec emax (Z.of_nat n) 0 false).

(** The integer that a number stands for, when it stands for one. *)
Definition integer_value (x : Number) : option Z :=
  match Prim2SF x with
  | S754_zero _ => Some 0
  | S754_finite s m e =>
      let m := if s then Z.neg m else Z.pos m in
      if 0 <=? e then Some (m * 2 ^ e)
      else if m mod 2 ^ (- e) =? 0 then Some (m / 2 ^ (- e)) else None
  | _ => None
  end.

(** The sum of the values divided by their number [n]. *)
Definition arithmetic_mean (l : list Number) : Number :=
  PrimFloat.div (sum l) (number_of_nat (length l)).

(** The mean of the squared deviations from the mean: the divisor is the
    number [n] of values. *)
Definition population_variance (l : list Number) : Number :=
  let mu := arithmetic_mean l in
  PrimFloat.div
    (sum (map (fun p => PrimFloat.mul (PrimFloat.sub p mu) (PrimFloat.sub p mu)) l))
    (number_of_nat (length l)).

Definition population_std_dev (l : list Number) : Number :=
  PrimFloat.sqrt (population_variance l).

(** The divisor [n - 1] of the sample variance, for comparison. *)
Definition sample_variance (l : list Number) : Number :=
  let mu := arithmetic_mean l in
  PrimFloat.div
    (sum (map (fun p => PrimFloat.mul (PrimFloat.sub p mu) (PrimFloat.sub p mu)) l))
    (PrimFloat.sub (number_of_nat (length l)) 1%float).

Definition sample_std_dev (l : list Number) : Number :=
  PrimFloat.sqrt (sample_variance l).

(** An extremum of a sequence is one of its values, on the right side of
    every value. *)
Definition is_minimum (m : Number) (l : list Number) : Prop :=
  In m l /\ forall p, In p l -> JS.le m p = true.

Definition is_maximum (m : Number) (l : list Number) : Prop :=
  In m l /\ forall p, In p l -> JS.le p m = true.

(** A number proper: not [NaN]. *)
Definition is_number (x : Number) : Prop := is_nan x = false.

(** The last candle after [updateLastBar] has been called with each price of
    a stream in turn. *)
Definition absorb (prices : list Number) (b : Charts.bar) : Charts.bar :=
  fold_left (fun b price => Charts.update_candle price b) prices b.

(** The calls [updateLastBar] for a stream of prices. *)
Definition live_bar_updates (doc : document) (containerId : string)
    (prices : list Number) : list Charts.action :=
  map (Charts.UpdateLastBar doc containerId) prices.

(** The calls driven by a tick: all but [renderOHLCV]. *)
Definition is_live_update (a : Charts.action) : Prop :=
  match a with
  | Charts.RenderOHLCV _ _ _ => False
  | _ => True
  end.

(** An update of the live price line among the calls to the charting
    library. *)
Definition is_line_update (call : plotly_call) : Prop :=
  match call with
  | Plotly_update _ _ _ _ => True
  | _ => False
  end.

(** The three values that are not finite. *)
Definition not_finite (x : Number) : Prop :=
  x = nan \/ x = infinity \/ x = neg_infinity.

(** The ids of the elements of the statistics block. *)
Definition stat_ids : list string :=
  ["liveStatPrice"; "liveMeanPrice"; "liveStdDev"; "liveMinPrice";
   "liveMaxPrice"; "livePercentChange"; "liveZScore"; "liveDistanceMean"]%string.

(** Two pages with the same elements, which differ at most in the text and
    the colour of the elements of the statistics block. *)
Definition same_page_but_stats (doc doc' : document) : Prop :=
  forall id,
    match doc !! id, doc' !! id with
    | Some el, Some el' =>
        plotly_data el' = plotly_data el /\ (~ In id stat_ids -> el' = el)
    | None, None => True
    | _, _ => False
    end.

(** A string that does not start with white space. *)
Definition starts_black (s : string) : Prop :=
  match s with
  | EmptyString => True
  | String c _ => JS.is_white_space c = false
  end.

(** How many requests to create an alert have been sent. *)
Definition createAlert_sent (st : TradingApp.alerts_state) : nat :=
  List.length
    (List.filter
       (fun e => match e with TradingApp.CallCreateAlert _ _ _ _ _ => true | _ => false end)
       (TradingApp.log st)).

(** The form of the alert dialog is complete: a name that is not blank, a
    symbol, and a threshold that reads as a number. *)
Definition form_complete (parseFloat : string -> Number)
    (f : TradingApp.alert_form) : bool :=
  negb (String.eqb (JS.trim (TradingApp.alertName f)) EmptyString
        || String.eqb (TradingApp.alertSymbol f) EmptyString
        || is_nan (parseFloat (TradingApp.alertThreshold f))).

(** *** Examples the statements are tried on *)

(** A chart with one bar, on an empty page: the example the statements on
    the live bar are tried on. *)
Definition example_bar : Charts.bar :=
  {| Charts.timestamp := "2025-01-01T00:00:00"; Charts.open := 100%float;
     Charts.high := 110%float; Charts.low := 90%float;
     Charts.close := 105%float; Charts.volume := 1%float |}.

Definition example_chart : Charts.t :=
  fst (Charts.renderOHLCV Charts.init "ohlcvChart" [example_bar] (Some 105%float)).

Definition example_page : document :=
  {[ "ohlcvChart"%string := Element "" "" (Some 3%nat) ]}.

Definition example_history : list Charts.action :=
  [ Charts.RenderOHLCV "ohlcvChart" [example_bar; example_bar] (Some 105%float);
    Charts.UpdateLivePrice 1700000000000 example_page "ohlcvChart" 106%float ].


(** A backend that streams two symbols and answers every request. *)
Definition example_backend : backend :=
  {| on_getStreamStatus :=
       Resolved {| running := true; symbols := ["btcusdt"; "ethusdt"]%string;
                   tick_count := 1200; buffer_size := 40 |};
     on_stopStream := Resolved tt;
     on_startStream := fun _ => Resolved tt |}.

(** A backend that streams a single symbol. *)
Definition single_symbol_backend : backend :=
  {| on_getStreamStatus :=
       Resolved {| running := true; symbols := ["btcusdt"]%string;
                   tick_count := 1200; buffer_size := 40 |};
     on_stopStream := Resolved tt;
     on_startStream := fun _ => Resolved tt |}.

(** The statistics block of the page, as [displaySummary] lays it out. *)
Definition stats_page : document :=
  list_to_map
    (map (fun id => (id, Element "" "" None))
       ["liveStatPrice"; "livePercentChange"; "liveZScore"; "liveDistanceMean";
        "liveMeanPrice"; "liveStdDev"; "liveMinPrice"; "liveMaxPrice"]%string).

(** A chart whose bars close at the given prices. *)
Definition chart_closing_at (closes : list Number) : Charts.t :=
  Charts.set_currentData
    (map (fun c => {| Charts.timestamp := "2025-01-01T00:00:00";
                      Charts.open := c; Charts.high := c; Charts.low := c;
                      Charts.close := c; Charts.volume := 1%float |}) closes)
    Charts.init.

(** The text of an element of the page after a call that may have written
    it. *)
Definition text_of (id : string) (doc : option document) : option string :=
  d ← doc; el ← d !! id; Some (textContent el).

(** The chart element and the statistics block on one page. *)
Definition full_page : document :=
  <["ohlcvChart"%string := Element "" "" (Some 3%nat)]> stats_page.

(** The price of the latest tick of a symbol among the entries processed. *)
Definition latest_price (symbol : string) (entries : list (string * Number))
    : option Number :=
  snd <$> last (List.filter (fun e => String.eqb (fst e) symbol) entries).

(** A page with the chart, the statistics grid and its section. *)
Definition load_page : document :=
  <["summarySection"%string := Element "" "" None]>
  (<["statsGrid"%string := Element "" "" None]>
  (<["ohlcvChart"%string := Element "" "" None]> ∅)).

(** Two bars closing at 90 and 110, and a summary that says otherwise. *)
Definition load_bars : list Charts.bar :=
  [ {| Charts.timestamp := "2025-01-01T00:00:00"; Charts.open := 95%float;
       Charts.high := 96%float; Charts.low := 89%float;
       Charts.close := 90%float; Charts.volume := 2%float |};
    {| Charts.timestamp := "2025-01-01T00:01:00"; Charts.open := 90%float;
       Charts.high := 111%float; Charts.low := 90%float;
       Charts.close := 110%float; Charts.volume := 3%float |} ].

Definition load_summary : TradingApp.summary :=
  {| TradingApp.summary_mean := 1%float; TradingApp.summary_std := 2%float;
     TradingApp.summary_min := 3%float; TradingApp.summary_max := 4%float |}.

Definition load_result : Charts.t * document * list TradingApp.load_event :=
  default (Charts.init, ∅, [])
    (TradingApp.loadChartData Charts.init load_page None "btcusdt"
       (Resolved load_bars) (Resolved load_summary)).

(* ================================================================== *)
(** * Properties                                                       *)
(* ================================================================== *)

(** ** The order of binary64 numbers

    The comparisons of the primitive floats are specified on their
    decompositions into sign, mantissa and exponent; the order facts below are
    read off that specification. *)

Section SpecOrder.

Ltac cmp_cases :=
  repeat match goal with
  | |- context [Pos.compare_cont Eq ?a ?b] =>
      change (Pos.compare_cont Eq a b) with (Pos.compare a b)
  | H : context [Pos.compare_cont Eq ?a ?b] |- _ =>
      change (Pos.compare_cont Eq a b) with (Pos.compare a b) in H
  end;
  repeat match goal with
  | H : context [Z.compare ?a ?b] |- _ =>
      destruct (Z.compare_spec a b); simpl in H; try discriminate H
  | H : context [Pos.compare ?a ?b] |- _ =>
      destruct (Pos.compare_spec a b); simpl in H; try discriminate H
  end;
  repeat match goal with
  | |- context [Z.compare ?a ?b] =>
      destruct (Z.compare_spec a b); simpl; try lia
  | |- context [Pos.compare ?a ?b] =>
      destruct (Pos.compare_spec a b); simpl; try lia
  end;
  try reflexivity; try discriminate; try lia.

Ltac sf_cases :=
  unfold SFleb, SFltb, SFeqb;
  repeat match goal with
  | f : spec_float |- _ => destruct f as [[]|[]| |[] ? ?]
  end; simpl; intros; try reflexivity; try discriminate; try congruence.

Lemma SFeqb_refl f :
  SFeqb f f = negb (match f with S754_nan => true | _ => false end).
Proof. sf_cases; cmp_cases. Qed.

Lemma SFleb_refl f : f <> S754_nan -> SFleb f f = true.
Proof. sf_cases; cmp_cases. Qed.

Lemma SFleb_not_nan a b : SFleb a b = true -> a <> S754_nan /\ b <> S754_nan.
Proof. sf_cases. all: split; discriminate. Qed.

Lemma SFltb_leb a b : SFltb a b = true -> SFleb a b = true.
Proof. sf_cases; cmp_cases. Qed.

Lemma SFleb_total a b :
  a <> S754_nan -> b <> S754_nan -> SFltb a b = false -> SFleb b a = true.
Proof. sf_cases; cmp_cases. Qed.

Lemma SFleb_trans a b c :
  SFleb a b = true -> SFleb b c = true -> SFleb a c = true.
Proof. sf_cases; cmp_cases. Qed.

Lemma SFltb_irrefl f : SFltb f f = false.
Proof. sf_cases; cmp_cases. Qed.

Lemma SFltb_not_leb a b : SFltb a b = true -> SFleb b a = false.
Proof. sf_cases; cmp_cases. Qed.

End SpecOrder.

Section NumberOrder.
Implicit Types x y z : Number.

Lemma is_nan_false x : is_nan x = false <-> Prim2SF x <> S754_nan.
Proof.
  unfold is_nan. rewrite FloatAxioms.eqb_spec, SFeqb_refl.
  destruct (Prim2SF x); simpl; split; congruence.
Qed.

Lemma le_refl x : is_nan x = false -> JS.le x x = true.
Proof.
  intros H. unfold JS.le. rewrite FloatAxioms.leb_spec.
  apply SFleb_refl, is_nan_false, H.
Qed.

Lemma le_is_number x y :
  JS.le x y = true -> is_nan x = false /\ is_nan y = false.
Proof.
  unfold JS.le. rewrite FloatAxioms.leb_spec. intros H.
  destruct (SFleb_not_nan _ _ H). split; apply is_nan_false; assumption.
Qed.

Lemma lt_le x y : JS.lt x y = true -> JS.le x y = true.
Proof.
  unfold JS.lt, JS.le.
  rewrite FloatAxioms.ltb_spec, FloatAxioms.leb_spec. apply SFltb_leb.
Qed.

Lemma not_lt_le x y :
  is_nan x = false -> is_nan y = false ->
  JS.lt x y = false -> JS.le y x = true.
Proof.
  intros Hx Hy. unfold JS.lt, JS.le.
  rewrite FloatAxioms.ltb_spec, FloatAxioms.leb_spec.
  apply SFleb_total; apply is_nan_false; assumption.
Qed.

Lemma le_trans x y z : JS.le x y = true -> JS.le y z = true -> JS.le x z = true.
Proof. unfold JS.le. rewrite !FloatAxioms.leb_spec. apply SFleb_trans. Qed.

Lemma lt_irrefl x : JS.lt x x = false.
Proof. unfold JS.lt. rewrite FloatAxioms.ltb_spec. apply SFltb_irrefl. Qed.

Lemma lt_not_le x y : JS.lt x y = true -> JS.le y x = false.
Proof.
unfold JS.lt, JS.le.
rewrite FloatAxioms.ltb_spec, FloatAxioms.leb_spec. apply SFltb_not_leb.
Qed.

End NumberOrder.

Create HintDb number.
#[local] Hint Resolve le_refl lt_le not_lt_le : number.

(* ================================================================== *)
(** ** The live bar                                                    *)
(* ================================================================== *)

Section LiveBar.
Import Charts.

(** The state after [updateLastBar], whatever the page is. *)
Lemma updateLastBar_data c doc containerId price data lastCandle :
  currentData c = Some data ->
  data !! (List.length data - 1)%nat = Some lastCandle ->
  fst (updateLastBar c doc containerId price) =
  set_currentData
    (<[(List.length data - 1)%nat := update_candle price lastCandle]> data) c.
Proof.
  intros Hd Hl. unfold updateLastBar. rewrite Hd, Hl.
  destruct (doc !! containerId) as [container|]; [|reflexivity].
  destruct (plotly_data container); reflexivity.
Qed.

Lemma lookup_lastIndex (data : list bar) :
  data <> [] -> exists lastCandle,
    data !! (List.length data - 1)%nat = Some lastCandle.
Proof.
  intros Hne. apply lookup_lt_is_Some_2.
  destruct data; [congruence | simpl; lia].
Qed.

(** The three assignments at once. *)
Lemma update_candle_fields price b :
  update_candle price b =
  {| timestamp := timestamp b; open := open b;
     high := if JS.gt price (high b) then price else high b;
     low := if JS.lt price (low b) then price else low b;
     close := price; volume := volume b |}.
Proof.
  unfold update_candle. cbn [high low close open timestamp volume].
  destruct (JS.gt price (high b)); cbn [high low close open timestamp volume];
    destruct (JS.lt price (low b)); reflexivity.
Qed.

Lemma update_candle_ok price b :
  is_nan price = false -> bar_ok b = true ->
  bar_ok (update_candle price b) = true.
Proof.
  rewrite update_candle_fields. unfold bar_ok. intros Hp Hb.
  cbn [high low close open timestamp volume].
  rewrite !andb_true_iff in Hb.
  destruct Hb as [[[[Hlo Hoh] Hlc] Hch] Hv].
  destruct (le_is_number _ _ Hlo) as [Hlow _].
  destruct (le_is_number _ _ Hoh) as [_ Hhigh].
  change (JS.gt price (high b)) with (JS.lt (high b) price).
  destruct (JS.lt (high b) price) eqn:Hgt;
    destruct (JS.lt price (low b)) eqn:Hlt;
    rewrite !andb_true_iff; repeat split;
    first
      [ assumption
      | apply le_refl; assumption
      | apply not_lt_le; assumption
      | eapply le_trans; [eassumption | apply lt_le; assumption]
      | eapply le_trans; [apply lt_le; eassumption | assumption] ].
Qed.

End LiveBar.

(** C4: when every bar of a non-empty chart data array has
    [low <= open, close <= high] and a volume that is not negative, then after
    [updateLastBar] with a live price (a number, that is, not [NaN]) the
    updated last bar has them too, and so has every bar of the array. *)
Theorem updateLastBar_keeps_bar_invariant
    (c : Charts.t) (doc : document) (containerId : string) (price : Number)
    (data : list Charts.bar) :
  Charts.currentData c = Some data ->
  data <> [] ->
  Forall (fun b => Charts.bar_ok b = true) data ->
  is_nan price = false ->
  exists data' lastCandle',
    Charts.currentData (fst (Charts.updateLastBar c doc containerId price))
      = Some data' /\
    last data' = Some lastCandle' /\
    Charts.close lastCandle' = price /\
    Charts.bar_ok lastCandle' = true /\
    Forall (fun b => Charts.bar_ok b = true) data'.
Proof.
  intros Hd Hne Hok Hp.
  destruct (lookup_lastIndex data Hne) as [lastCandle Hl].
  rewrite (updateLastBar_data _ _ _ _ _ _ Hd Hl). simpl.
  assert (Hb : Charts.bar_ok lastCandle = true).
  { rewrite Forall_lookup in Hok. exact (Hok _ _ Hl). }
  exists (<[(List.length data - 1)%nat := Charts.update_candle price lastCandle]> data),
         (Charts.update_candle price lastCandle).
  split; [reflexivity|]. split; [|split; [|split]].
  - rewrite last_lookup, length_insert.
    replace (Init.Nat.pred (List.length data)) with (List.length data - 1)%nat by lia.
    apply list_lookup_insert_eq. eapply lookup_lt_Some; eassumption.
  - rewrite update_candle_fields. reflexivity.
  - apply update_candle_ok; assumption.
  - apply Forall_insert; [assumption|]. apply update_candle_ok; assumption.
Qed.

Lemma updateLastBar_keeps_bar_invariant_witness :
  exists data' lastCandle',
    Charts.currentData
      (fst (Charts.updateLastBar example_chart ∅ "ohlcvChart" 120%float))
      = Some data' /\
    last data' = Some lastCandle' /\
    Charts.close lastCandle' = 120%float /\
    Charts.bar_ok lastCandle' = true /\
    Forall (fun b => Charts.bar_ok b = true) data'.
Proof.
  apply (updateLastBar_keeps_bar_invariant example_chart ∅ "ohlcvChart"
           120%float [example_bar]).
  - reflexivity.
  - discriminate.
  - repeat constructor.
  - reflexivity.
Defined.

(** C5: on a non-empty chart data array, [updateLastBar] keeps the length of
    the array and every bar but the last one; of the last bar it keeps the
    time stamp, the open and the volume (so only its close, high and low can
    differ); the other fields of the [Charts] object are kept as well. *)
Theorem updateLastBar_changes_only_live_bar
    (c : Charts.t) (doc : document) (containerId : string) (price : Number)
    (data : list Charts.bar) :
  Charts.currentData c = Some data ->
  data <> [] ->
  let c' := fst (Charts.updateLastBar c doc containerId price) in
  exists data' lastCandle lastCandle',
    Charts.currentData c' = Some data' /\
    List.length data' = List.length data /\
    (forall i, i <> (List.length data - 1)%nat -> data' !! i = data !! i) /\
    last data = Some lastCandle /\
    last data' = Some lastCandle' /\
    Charts.timestamp lastCandle' = Charts.timestamp lastCandle /\
    Charts.open lastCandle' = Charts.open lastCandle /\
    Charts.volume lastCandle' = Charts.volume lastCandle /\
    Charts.currentSymbol c' = Charts.currentSymbol c /\
    Charts.currentPrice c' = Charts.currentPrice c /\
    Charts.lastUpdateTime c' = Charts.lastUpdateTime c /\
    Charts.updateThrottle c' = Charts.updateThrottle c.
Proof.
  intros Hd Hne c'. subst c'.
  destruct (lookup_lastIndex data Hne) as [lastCandle Hl].
  rewrite (updateLastBar_data _ _ _ _ _ _ Hd Hl). simpl.
  assert (Hlast : forall l : list Charts.bar,
             last l = l !! (List.length l - 1)%nat).
  { intros l. rewrite last_lookup. f_equal. lia. }
  eexists _, lastCandle, (Charts.update_candle price lastCandle).
  split; [reflexivity|].
  split; [apply length_insert|].
  split; [intros i Hi; apply list_lookup_insert_ne; congruence|].
  split; [rewrite Hlast; exact Hl|].
  split.
  { rewrite Hlast, length_insert. apply list_lookup_insert_eq.
    eapply lookup_lt_Some; eassumption. }
  rewrite update_candle_fields. repeat split; reflexivity.
Qed.

Lemma updateLastBar_changes_only_live_bar_witness :
  exists data' lastCandle lastCandle',
    Charts.currentData
      (fst (Charts.updateLastBar example_chart ∅ "ohlcvChart" 120%float))
      = Some data' /\
    List.length data' = List.length [example_bar] /\
    (forall i, i <> (List.length [example_bar] - 1)%nat ->
               data' !! i = [example_bar] !! i) /\
    last [example_bar] = Some lastCandle /\
    last data' = Some lastCandle' /\
    Charts.timestamp lastCandle' = Charts.timestamp lastCandle /\
    Charts.open lastCandle' = Charts.open lastCandle /\
    Charts.volume lastCandle' = Charts.volume lastCandle /\
    Charts.currentSymbol
      (fst (Charts.updateLastBar example_chart ∅ "ohlcvChart" 120%float))
      = Charts.currentSymbol example_chart /\
    Charts.currentPrice
      (fst (Charts.updateLastBar example_chart ∅ "ohlcvChart" 120%float))
      = Charts.currentPrice example_chart /\
    Charts.lastUpdateTime
      (fst (Charts.updateLastBar example_chart ∅ "ohlcvChart" 120%float))
      = Charts.lastUpdateTime example_chart /\
    Charts.updateThrottle
      (fst (Charts.updateLastBar example_chart ∅ "ohlcvChart" 120%float))
      = Charts.updateThrottle example_chart.
Proof.
  apply (updateLastBar_changes_only_live_bar example_chart ∅ "ohlcvChart"
           120%float [example_bar]).
  - reflexivity.
  - discriminate.
Defined.

(* ================================================================== *)
(** ** The throttle of the live price line                             *)
(* ================================================================== *)

Section Throttle.
Import Charts.

Lemma updateLivePrice_throttled c doc now containerId price :
  now - lastUpdateTime c < updateThrottle c ->
  updateLivePrice c doc now containerId price = (c, []).
Proof.
  intros H. unfold updateLivePrice.
  destruct (currentData c) as [data|]; [|reflexivity].
  destruct (List.length data =? 0)%nat; [reflexivity|].
  apply Z.ltb_lt in H. rewrite H. reflexivity.
Qed.

(** What one call of [updateLivePrice] does to the throttle: nothing at
    all, or it records a reading at least [updateThrottle] after the one
    recorded before and makes at most the one update of the line. *)
Lemma updateLivePrice_cases c doc now containerId price :
  updateLivePrice c doc now containerId price = (c, []) \/
  (lastUpdateTime c + updateThrottle c <= now /\
   exists calls,
     updateLivePrice c doc now containerId price =
       (set_currentPrice (Some price) (set_lastUpdateTime now c), calls) /\
     (calls = [] \/ exists y x, calls = [Plotly_update containerId y x 2])).
Proof.
  unfold updateLivePrice.
  destruct (currentData c) as [data|]; [|left; reflexivity].
  destruct (List.length data =? 0)%nat; [left; reflexivity|].
  destruct (now - lastUpdateTime c <? updateThrottle c) eqn:Hthr;
    [left; reflexivity|].
  right. apply Z.ltb_ge in Hthr. split; [lia|].
  destruct (doc !! containerId) as [container|]; [|eauto].
  destruct (plotly_data container) as [n|]; [|eauto].
  destruct (n <? 3)%nat; [eauto|].
  destruct (map timestamp data) as [|first [|second rest]]; eauto 7.
Qed.

Lemma update_times_app l1 l2 :
  update_times (l1 ++ l2) = (update_times l1 ++ update_times l2)%list.
Proof.
  induction l1 as [|[[now|] call] l1 IH]; simpl; [reflexivity| |assumption].
  destruct call; simpl; congruence.
Qed.

Lemma update_times_untimed calls :
  update_times (map (fun call => (None, call)) calls) = [].
Proof. induction calls; simpl; assumption || reflexivity. Qed.

Lemma update_times_restyle now calls :
  (forall call, In call calls -> forall id y x k, call <> Plotly_update id y x k) ->
  update_times (map (fun call => (now, call)) calls) = [].
Proof.
  induction calls as [|call calls IH]; intros H; [reflexivity|].
  simpl. rewrite IH by (intros; apply H; right; assumption).
  destruct now; [|reflexivity].
  destruct call; try reflexivity.
  exfalso. eapply H; [left; reflexivity|reflexivity].
Qed.

(** The other two methods leave the throttle alone and do not touch the
    live price line. *)
Lemma renderOHLCV_throttle c containerId data livePrice :
  lastUpdateTime (fst (renderOHLCV c containerId data livePrice)) = lastUpdateTime c /\
  updateThrottle (fst (renderOHLCV c containerId data livePrice)) = updateThrottle c /\
  forall now,
    update_times (map (fun call => (now, call))
                    (snd (renderOHLCV c containerId data livePrice))) = [].
Proof.
  unfold renderOHLCV. destruct data; simpl; repeat split; try reflexivity.
  intros []; reflexivity.
Qed.

Lemma updateLastBar_throttle c doc containerId price :
  lastUpdateTime (fst (updateLastBar c doc containerId price)) = lastUpdateTime c /\
  updateThrottle (fst (updateLastBar c doc containerId price)) = updateThrottle c /\
  forall now,
    update_times (map (fun call => (now, call))
                    (snd (updateLastBar c doc containerId price))) = [].
Proof.
  unfold updateLastBar.
  destruct (currentData c) as [data|]; [|simpl; auto].
  destruct (data !! _); [|simpl; auto].
  destruct (doc !! containerId) as [container|]; [|simpl; auto].
  destruct (plotly_data container); simpl; repeat split; try reflexivity.
  intros []; reflexivity.
Qed.

(** From a state whose throttle is 100 ms, every update of the line comes
    at least 100 ms after the recorded reading, and the updates are
    pairwise at least 100 ms apart. *)
Lemma update_times_apart actions : forall c,
  updateThrottle c = 100 ->
  Forall (apart (lastUpdateTime c)) (update_times (plotly_log c actions)) /\
  StronglySorted apart (update_times (plotly_log c actions)).
Proof.
  induction actions as [|a actions IH]; intros c Hthr; simpl.
  - split; constructor.
  - destruct (step c a) as [c' calls] eqn:Hstep.
    rewrite update_times_app.
    destruct a as [id data livePrice | now doc id price | doc id price]; simpl in Hstep.
    + destruct (renderOHLCV_throttle c id data livePrice) as (Hl & Ht & Hc).
      rewrite Hstep in Hl, Ht, Hc. simpl in Hl, Ht, Hc.
      rewrite Hc. simpl. rewrite <- Hl. apply IH. congruence.
    + destruct (updateLivePrice_cases c doc now id price) as [Hsame | (Hnow & calls' & Hupd & Hcalls)].
      * rewrite Hsame in Hstep. injection Hstep as <- <-. simpl. apply IH, Hthr.
      * rewrite Hupd in Hstep. injection Hstep as <- <-.
        destruct (IH (set_currentPrice (Some price) (set_lastUpdateTime now c)) Hthr)
          as [Hall Hsorted].
        simpl in Hall.
        assert (Hweak : Forall (apart (lastUpdateTime c))
                          (update_times
                             (plotly_log
                                (set_currentPrice (Some price) (set_lastUpdateTime now c))
                                actions))).
        { eapply Forall_impl; [exact Hall|]. unfold apart. intros t Ht. simpl in Ht. lia. }
        destruct Hcalls as [-> | (y & x & ->)]; simpl.
        -- split; assumption.
        -- split.
           ++ constructor; [unfold apart; lia | assumption].
           ++ constructor; assumption.
    + destruct (updateLastBar_throttle c doc id price) as (Hl & Ht & Hc).
      rewrite Hstep in Hl, Ht, Hc. simpl in Hl, Ht, Hc.
      rewrite Hc. simpl. rewrite <- Hl. apply IH. congruence.
Qed.

Lemma step_updateThrottle c a : updateThrottle (fst (step c a)) = updateThrottle c.
Proof.
  destruct a as [id data livePrice | now doc id price | doc id price]; simpl.
  - apply renderOHLCV_throttle.
  - destruct (updateLivePrice_cases c doc now id price)
      as [-> | (_ & calls & -> & _)]; reflexivity.
  - apply updateLastBar_throttle.
Qed.

Lemma run_updateThrottle actions : forall c,
  updateThrottle (run c actions) = updateThrottle c.
Proof.
  induction actions as [|a actions IH]; intros c; [reflexivity|].
  unfold run in *. simpl. rewrite IH. apply step_updateThrottle.
Qed.

End Throttle.

(** C7: after any sequence of calls on the [Charts] object, a call of
    [updateLivePrice] whose clock reading is less than 100 ms after the
    recorded last update time makes no call to the charting library and
    leaves the object, with its last update time, as it is; and in every
    sequence of calls the updates of the live price line are pairwise at
    least 100 ms apart, however many calls there are. *)
Theorem updateLivePrice_at_most_once_per_100ms
    (history : list Charts.action) (doc : document) (now : Z)
    (containerId : string) (price : Number) :
  now - Charts.lastUpdateTime (Charts.run Charts.init history) < 100 ->
  Charts.updateLivePrice (Charts.run Charts.init history) doc now containerId price
    = (Charts.run Charts.init history, []) /\
  StronglySorted apart
    (Charts.update_times
       (Charts.plotly_log Charts.init
          (history ++ [Charts.UpdateLivePrice now doc containerId price]))).
Proof.
  intros H. split.
  - apply updateLivePrice_throttled. rewrite run_updateThrottle. exact H.
  - apply update_times_apart. reflexivity.
Qed.

Lemma updateLivePrice_at_most_once_per_100ms_witness :
  Charts.updateLivePrice (Charts.run Charts.init example_history) example_page
      1700000000050 "ohlcvChart" 107%float
    = (Charts.run Charts.init example_history, []) /\
  StronglySorted apart
    (Charts.update_times
       (Charts.plotly_log Charts.init
          (example_history ++
           [Charts.UpdateLivePrice 1700000000050 example_page "ohlcvChart"
              107%float]))).
Proof.
  apply (updateLivePrice_at_most_once_per_100ms example_history example_page
           1700000000050 "ohlcvChart" 107%float).
  vm_compute. reflexivity.
Defined.

(* ================================================================== *)
(** ** Reconnecting                                                    *)
(* ================================================================== *)

Section Reconnect.
Import WebSocketClient.

Lemma retry_inv_constructor : retry_inv constructor.
Proof. unfold retry_inv; simpl; lia. Qed.

Lemma retry_inv_onopen c : retry_inv c -> retry_inv (onopen c).
Proof. unfold retry_inv; simpl; lia. Qed.

Lemma retry_inv_timer c delay :
  retry_inv c -> reconnect c = Some delay -> retry_inv (reconnect_timer c).
Proof.
  unfold retry_inv, reconnect. intros (Hm & Ha & Hd).
  destruct (reconnectAttempts c <? 10) eqn:Hlt; [|discriminate].
  apply Z.ltb_lt in Hlt. intros _. simpl. lia.
Qed.

Lemma retry_inv_run outcomes : forall c,
  retry_inv c -> retry_inv (snd (run c outcomes)).
Proof.
  induction outcomes as [|o outcomes IH]; intros c Hc; simpl; [assumption|].
  set (c1 := match o with Opens => onopen c | Fails => c end).
  assert (Hc1 : retry_inv c1) by (destruct o; [apply retry_inv_onopen|]; assumption).
  destruct (reconnect c1) as [delay|] eqn:Hr; [|assumption].
  specialize (IH (reconnect_timer c1) (retry_inv_timer _ _ Hc1 Hr)).
  destruct (run (reconnect_timer c1) outcomes); assumption.
Qed.

(** Failures in a row set at most as many timers as are left of the ten. *)
Lemma run_failures_bound n : forall c,
  0 <= reconnectAttempts c ->
  Z.of_nat (List.length (fst (run c (repeat Fails n)))) <= Z.max 0 (10 - reconnectAttempts c).
Proof.
  induction n as [|n IH]; intros c Hc; simpl; [lia|].
  unfold reconnect.
  destruct (reconnectAttempts c <? 10) eqn:Hlt; simpl; [|lia].
  apply Z.ltb_lt in Hlt.
  specialize (IH (reconnect_timer c)). simpl in IH.
  destruct (run (reconnect_timer c) (repeat Fails n)) as [delays c'].
  simpl in *. lia.
Qed.

End Reconnect.

(** C8: whatever the outcomes of the earlier connections, a timer set by
    [reconnect()] has a delay of at most 30000 ms and its callback doubles the
    delay up to that cap; connections failing in a row set at most ten timers;
    starting from a fresh client they set them with the delays 1000, 2000,
    4000, 8000, 16000 and five times 30000; and after the tenth failure in a
    row [reconnect()] sets no timer. *)
Theorem reconnect_backoff_is_bounded
    (history : list WebSocketClient.outcome) (n : nat) :
  (forall delay,
     WebSocketClient.reconnect (snd (WebSocketClient.run WebSocketClient.constructor history))
       = Some delay ->
     delay <= 30000 /\
     WebSocketClient.reconnectDelay
       (WebSocketClient.reconnect_timer
          (snd (WebSocketClient.run WebSocketClient.constructor history)))
       = Z.min (2 * delay) 30000) /\
  (List.length
     (fst (WebSocketClient.run
             (snd (WebSocketClient.run WebSocketClient.constructor history))
             (repeat WebSocketClient.Fails n))) <= 10)%nat /\
  fst (WebSocketClient.run WebSocketClient.constructor (repeat WebSocketClient.Fails n))
    = firstn n [1000; 2000; 4000; 8000; 16000; 30000; 30000; 30000; 30000; 30000] /\
  WebSocketClient.reconnect
    (snd (WebSocketClient.run WebSocketClient.constructor
            (repeat WebSocketClient.Fails (10 + n)))) = None.
Proof.
  pose proof (retry_inv_run history _ retry_inv_constructor) as (Hm & Ha & Hd).
  split; [|split; [|split]].
  - intros delay Hr. unfold WebSocketClient.reconnect in Hr.
    destruct (_ <? 10); [|discriminate]. injection Hr as <-.
    simpl. rewrite Hm. split; [lia|]. f_equal. lia.
  - pose proof (run_failures_bound n _ (proj1 Ha)). lia.
  - do 11 (destruct n as [|n]; [reflexivity|]). reflexivity.
  - destruct n; reflexivity.
Qed.

(* ================================================================== *)
(** ** Zero, subtraction and division of binary64 numbers              *)
(* ================================================================== *)

Section NumberArith.
Implicit Types x y : Number.

Lemma is_zero_spec x : is_zero x = true -> exists s, Prim2SF x = S754_zero s.
Proof.
  unfold is_zero. rewrite FloatAxioms.eqb_spec.
  change (Prim2SF zero) with (S754_zero false).
  destruct (Prim2SF x) as [s|[]| |[] m e]; try discriminate; eauto.
Qed.

Lemma is_finite_spec x :
  is_finite x = true ->
  (exists s, Prim2SF x = S754_zero s) \/
  (exists s m e, Prim2SF x = S754_finite s m e).
Proof.
  unfold is_finite, is_infinity. intros H.
  apply negb_true_iff, orb_false_iff in H. destruct H as [Hnan Hinf].
  apply is_nan_false in Hnan.
  rewrite FloatAxioms.eqb_spec, abs_spec in Hinf.
  change (Prim2SF infinity) with (S754_infinity false) in Hinf.
  destruct (Prim2SF x) as [s|s| |s m e]; eauto; [discriminate | congruence].
Qed.

(** [x - x] is [+0] for every finite [x]. *)
Lemma sub_diag x : is_finite x = true -> PrimFloat.sub x x = zero.
Proof.
  intros H. apply Prim2SF_inj. rewrite sub_spec.
  change (Prim2SF zero) with (S754_zero false).
  destruct (is_finite_spec x H) as [[s ->] | (s & m & e & ->)].
  - destruct s; reflexivity.
  - unfold SF64sub, SFsub. rewrite Z.sub_diag. reflexivity.
Qed.

(** A division by a zero gives [NaN] or an infinity, whatever is divided. *)
Lemma div_by_zero x y :
  is_zero y = true ->
  Prim2SF (PrimFloat.div x y) = S754_nan \/
  exists s, Prim2SF (PrimFloat.div x y) = S754_infinity s.
Proof.
  intros H. destruct (is_zero_spec y H) as [sy Hy].
  rewrite div_spec, Hy. unfold SF64div.
  destruct (Prim2SF x) as [s|s| |s m e]; simpl; eauto.
Qed.

End NumberArith.

(* ================================================================== *)
(** ** Price changes of the tick cards                                 *)
(* ================================================================== *)

Section PlainObject.

Lemma inherits___proto__ symbol : JS.inherits symbol = false -> symbol <> "__proto__"%string.
Proof. intros H ->. discriminate H. Qed.

Lemma get_own (obj : gmap string Number) key x :
  obj !! key = Some x -> JS.get obj key = JS.Num x.
Proof. unfold JS.get. intros ->. reflexivity. Qed.

Lemma get_missing (obj : gmap string Number) key :
  obj !! key = None -> JS.inherits key = false -> JS.get obj key = JS.Undefined.
Proof. unfold JS.get. intros -> ->. reflexivity. Qed.

Lemma get_inherited (obj : gmap string Number) key :
  obj !! key = None -> JS.inherits key = true -> JS.get obj key = JS.Inherited.
Proof. unfold JS.get. intros -> ->. reflexivity. Qed.

Lemma set_insert (obj : gmap string Number) key x :
  key <> "__proto__"%string -> JS.set obj key x = <[key := x]> obj.
Proof.
  intros Hkey. unfold JS.set. destruct (obj !! key); [reflexivity|].
  destruct (String.eqb key "__proto__") eqn:Heq; [|reflexivity].
  apply String.eqb_eq in Heq. contradiction.
Qed.

Lemma lookup_set_ne (obj : gmap string Number) key x key' :
  key <> key' -> JS.set obj key x !! key' = obj !! key'.
Proof.
  intros Hne. unfold JS.set.
  destruct (obj !! key); [apply lookup_insert_ne, Hne|].
  destruct (String.eqb key "__proto__"); [reflexivity|].
  apply lookup_insert_ne, Hne.
Qed.

Lemma set___proto__ (obj : gmap string Number) x :
  obj !! "__proto__"%string = None -> JS.set obj "__proto__" x = obj.
Proof. unfold JS.set. intros ->. reflexivity. Qed.

(** A name that ends in [usdt], in either case, is not an inherited one. *)
Lemma usdt_symbol_is_not_inherited symbol :
  JS.endsWith (JS.toLowerCase symbol) "usdt" = true -> JS.inherits symbol = false.
Proof.
  intros Hends. destruct (JS.inherits symbol) eqn:Hin; [|reflexivity].
  unfold JS.inherits in Hin. apply existsb_exists in Hin.
  destruct Hin as [name [Hname Heq]]. apply String.eqb_eq in Heq. subst name.
  unfold JS.Object_prototype in Hname. simpl in Hname.
  repeat (destruct Hname as [<- | Hname]; [vm_compute in Hends; discriminate Hends|]).
  destruct Hname.
Qed.

End PlainObject.

(** The fallback [||] takes a recorded 0 for a missing record: after a tick
    at 0 the next tick shows no change.  Prices are positive, so that no 0 is
    ever recorded. *)
Remark getPriceChange_after_a_recorded_zero :
  snd (TradingApp.getPriceChange
         (fst (TradingApp.getPriceChange None "BTCUSDT" 0%float))
         "BTCUSDT" 5%float) = 0%float.
Proof. reflexivity. Qed.

(** [lastPrices] is an object literal: for a name it inherits, the first
    change is [NaN], and nothing is ever recorded under [__proto__]. *)
Remark getPriceChange_of_an_inherited_name :
  snd (TradingApp.getPriceChange None "constructor" 5%float) = nan /\
  TradingApp.getPriceChange None "__proto__" 5%float = (Some ∅, nan).
Proof. split; reflexivity. Qed.

(** C9: for a symbol never observed (no price is recorded for it, and its
    name is not one that every object inherits, as no trading pair is) and a
    finite current price, [getPriceChange] returns 0, so that the tick card
    gets neither the up nor the down class; for a symbol whose recorded price
    is a number other than zero, as every price is, it returns the current
    price minus the recorded one; in both cases the current price is recorded
    for the symbol and the records of the other symbols are kept. *)
Theorem getPriceChange_first_tick_and_difference
    (lastPrices : TradingApp.lastPrices_t) (symbol : string) (currentPrice : Number) :
  (default ∅ lastPrices !! symbol = None ->
   JS.inherits symbol = false ->
   is_finite currentPrice = true ->
   snd (TradingApp.getPriceChange lastPrices symbol currentPrice) = 0%float /\
   TradingApp.changeClass
     (snd (TradingApp.getPriceChange lastPrices symbol currentPrice)) = EmptyString) /\
  (forall lastPrice,
     default ∅ lastPrices !! symbol = Some lastPrice ->
     JS.truthy lastPrice = true ->
     snd (TradingApp.getPriceChange lastPrices symbol currentPrice)
       = PrimFloat.sub currentPrice lastPrice) /\
  (symbol <> "__proto__"%string ->
   fst (TradingApp.getPriceChange lastPrices symbol currentPrice)
     = Some (<[symbol := currentPrice]> (default ∅ lastPrices))).
Proof.
  unfold TradingApp.getPriceChange.
  replace (match lastPrices with Some m => m | None => ∅ end)
    with (default (∅ : gmap string Number) lastPrices)
    by (destruct lastPrices; reflexivity).
  cbn [fst snd]. split; [|split].
  - intros Hnone Hown Hfin. rewrite (get_missing _ _ Hnone Hown).
    unfold JS.or. cbn [JS.ToBoolean JS.ToNumber].
    rewrite (sub_diag _ Hfin). split; reflexivity.
  - intros lastPrice Hsome Htruthy. rewrite (get_own _ _ _ Hsome).
    unfold JS.or. cbn [JS.ToBoolean]. rewrite Htruthy. reflexivity.
  - intros Hkey. rewrite (set_insert _ _ _ Hkey). reflexivity.
Qed.

Lemma getPriceChange_first_tick_and_difference_witness :
  (snd (TradingApp.getPriceChange None "BTCUSDT" 50000%float) = 0%float /\
   TradingApp.changeClass
     (snd (TradingApp.getPriceChange None "BTCUSDT" 50000%float)) = EmptyString) /\
  snd (TradingApp.getPriceChange
         (Some {[ "BTCUSDT"%string := 50000%float ]}) "BTCUSDT" 50010.5%float)
    = PrimFloat.sub 50010.5%float 50000%float /\
  fst (TradingApp.getPriceChange
         (Some {[ "BTCUSDT"%string := 50000%float ]}) "BTCUSDT" 50010.5%float)
    = Some (<[ "BTCUSDT"%string := 50010.5%float ]>
              {[ "BTCUSDT"%string := 50000%float ]}).
Proof.
  split; [|split].
  - apply (proj1 (getPriceChange_first_tick_and_difference
                    None "BTCUSDT" 50000%float)); reflexivity.
  - apply (proj1 (proj2 (getPriceChange_first_tick_and_difference
                    (Some {[ "BTCUSDT"%string := 50000%float ]}) "BTCUSDT"
                    50010.5%float))); reflexivity.
  - exact (proj2 (proj2 (getPriceChange_first_tick_and_difference
                    (Some {[ "BTCUSDT"%string := 50000%float ]}) "BTCUSDT"
                    50010.5%float)) ltac:(discriminate)).
Defined.

(* ================================================================== *)
(** ** Adding and removing symbols                                     *)
(* ================================================================== *)

Section Symbols.
Import TradingApp.

Lemma includes_In arr x : JS.includes arr x = true <-> In x arr.
Proof.
  unfold JS.includes. rewrite existsb_exists. split.
  - intros (y & Hy & Heq). apply String.eqb_eq in Heq. congruence.
  - intros H. exists x. split; [assumption | apply String.eqb_refl].
Qed.

Lemma includes_not_In arr x : JS.includes arr x = false <-> ~ In x arr.
Proof.
  rewrite <- includes_In. destruct (JS.includes arr x); split; congruence.
Qed.

Lemma filter_ne_In arr x s : In s (JS.filter_ne arr x) <-> In s arr /\ s <> x.
Proof.
  unfold JS.filter_ne. rewrite filter_In, negb_true_iff, String.eqb_neq.
  reflexivity.
Qed.

(** The requests of [restart] when the backend lets the stream stop. *)
Lemma restart_requests b status allSymbols :
  (running status = true -> on_stopStream b = Resolved tt) ->
  exists tr,
    restart b status allSymbols = (tr, on_startStream b allSymbols) /\
    requests tr =
      ((if running status then [StopStream] else []) ++ [StartStream allSymbols])%list.
Proof.
  intros Hstop. unfold restart, api.stopStream, api.startStream.
  destruct (running status).
  - rewrite Hstop by reflexivity. simpl. eauto.
  - simpl. eauto.
Qed.

Lemma requests_app tr1 tr2 :
  requests (tr1 ++ tr2) = (requests tr1 ++ requests tr2)%list.
Proof.
  induction tr1 as [|[] tr1 IH]; simpl; congruence.
Qed.

End Symbols.

(** C10: when the symbol entered, trimmed and in lower case, is empty, or
    does not end in "usdt", or is among the symbols the backend reports as
    tracked, [addSymbol] sends no request but the reading of the status: it
    neither stops nor starts the stream, and it does not clear the input. *)
Theorem addSymbol_rejected_input_leaves_stream_alone
    (b : backend) (input : string) :
  JS.toLowerCase (JS.trim input) = EmptyString \/
  JS.endsWith (JS.toLowerCase (JS.trim input)) "usdt" = false \/
  (exists status,
     on_getStreamStatus b = Resolved status /\
     In (JS.toLowerCase (JS.trim input)) (symbols status)) ->
  (forall r, In r (requests (fst (TradingApp.addSymbol b input))) ->
             r = GetStreamStatus) /\
  ~ In ClearInput (fst (TradingApp.addSymbol b input)).
Proof.
  unfold TradingApp.addSymbol.
  intros [Hempty | [Hsuffix | (status & Hstatus & Hin)]].
  - rewrite Hempty. simpl. split; [intros r [] | intros [H|[]]; discriminate H].
  - destruct (String.eqb _ EmptyString);
      [simpl; split; [intros r [] | intros [H|[]]; discriminate H]|].
    rewrite Hsuffix. simpl. split; [intros r [] | intros [H|[]]; discriminate H].
  - destruct (String.eqb _ EmptyString);
      [simpl; split; [intros r [] | intros [H|[]]; discriminate H]|].
    destruct (JS.endsWith _ _);
      [|simpl; split; [intros r [] | intros [H|[]]; discriminate H]].
    apply includes_In in Hin.
    unfold api.getStreamStatus. rewrite Hstatus. simpl. rewrite Hin. simpl.
    split.
    + intros r [<-|[]]. reflexivity.
    + intros [H|[H|[]]]; discriminate H.
Qed.

Lemma addSymbol_rejected_input_leaves_stream_alone_witness :
  (forall r, In r (requests (fst (TradingApp.addSymbol example_backend " BTCusdt "))) ->
             r = GetStreamStatus) /\
  ~ In ClearInput (fst (TradingApp.addSymbol example_backend " BTCusdt ")).
Proof.
  apply (addSymbol_rejected_input_leaves_stream_alone example_backend " BTCusdt ").
  right. right. eexists. split; [reflexivity|]. left. reflexivity.
Defined.

(** C6, as stated, fails: removing the only tracked symbol is refused, and
    the stream is not restarted with the empty set. *)
Lemma removeSymbol_last_symbol_counterexample :
  In "btcusdt"%string ["btcusdt"%string] /\
  ~ In (StartStream (JS.filter_ne ["btcusdt"%string] "btcusdt"))
       (requests (fst (TradingApp.removeSymbol single_symbol_backend "btcusdt"))).
Proof.
  split; [left; reflexivity|].
  vm_compute. intros [H|[]]. discriminate H.
Qed.

(** C6, amended: when the backend answers the requests, adding a symbol that
    (trimmed and in lower case) is not empty, ends in "usdt" and is not
    tracked reads the status, stops the stream if it runs, and starts it with
    the tracked symbols followed by the new one; removing a symbol while more
    than one is tracked does the same with the tracked symbols other than the
    removed one.  The start request always carries the whole list. *)
Theorem add_and_remove_resubmit_whole_set
    (b : backend) (status : stream_status) :
  on_getStreamStatus b = Resolved status ->
  (running status = true -> on_stopStream b = Resolved tt) ->
  (forall input,
     JS.toLowerCase (JS.trim input) <> EmptyString ->
     JS.endsWith (JS.toLowerCase (JS.trim input)) "usdt" = true ->
     ~ In (JS.toLowerCase (JS.trim input)) (symbols status) ->
     requests (fst (TradingApp.addSymbol b input)) =
       (GetStreamStatus :: (if running status then [StopStream] else []) ++
        [StartStream (symbols status ++ [JS.toLowerCase (JS.trim input)])])%list) /\
  (forall symbol,
     (1 < List.length (symbols status))%nat ->
     requests (fst (TradingApp.removeSymbol b symbol)) =
       (GetStreamStatus :: (if running status then [StopStream] else []) ++
        [StartStream (JS.filter_ne (symbols status) symbol)])%list /\
     forall s, In s (JS.filter_ne (symbols status) symbol) <->
               In s (symbols status) /\ s <> symbol).
Proof.
  intros Hstatus Hstop. split.
  - intros input Hne Hsuffix Hnew.
    unfold TradingApp.addSymbol.
    apply String.eqb_neq in Hne. rewrite Hne, Hsuffix. simpl.
    apply includes_not_In in Hnew.
    unfold api.getStreamStatus. rewrite Hstatus. simpl. rewrite Hnew.
    destruct (restart_requests b status
                (symbols status ++ [JS.toLowerCase (JS.trim input)]) Hstop)
      as (tr & -> & Htr).
    destruct (on_startStream b _) as [[]|e]; simpl;
      rewrite ?requests_app, ?Htr, ?app_nil_r; simpl;
      rewrite ?app_nil_r; reflexivity.
  - intros symbol Hlen. split; [|intros s; apply filter_ne_In].
    unfold TradingApp.removeSymbol.
    unfold api.getStreamStatus. rewrite Hstatus. simpl.
    destruct (List.length (symbols status) <=? 1)%nat eqn:Hle;
      [apply Nat.leb_le in Hle; lia|].
    destruct (restart_requests b status
                (JS.filter_ne (symbols status) symbol) Hstop)
      as (tr & -> & Htr).
    destruct (on_startStream b _) as [[]|e]; simpl;
      rewrite ?requests_app, ?Htr, ?app_nil_r; simpl;
      rewrite ?app_nil_r; reflexivity.
Qed.

(* ================================================================== *)
(** ** Live statistics                                                 *)
(* ================================================================== *)

(** *** The length of an array as a number *)

Section Counting.

Lemma digits2_pos_bounds m :
  2 ^ (Z.pos (digits2_pos m) - 1) <= Z.pos m < 2 ^ Z.pos (digits2_pos m).
Proof.
  induction m as [m IH | m IH |]; cbn [digits2_pos]; [| |simpl; lia];
    rewrite Pos2Z.inj_succ; [rewrite (Pos2Z.inj_xI m) | rewrite (Pos2Z.inj_xO m)];
    replace (Z.succ (Z.pos (digits2_pos m)) - 1)
      with (Z.succ (Z.pos (digits2_pos m) - 1)) by lia;
    rewrite !Z.pow_succ_r by lia;
    set (lo := 2 ^ (Z.pos (digits2_pos m) - 1)) in *;
    set (hi := 2 ^ Z.pos (digits2_pos m)) in *; lia.
Qed.

Lemma digits2_pos_le m k : 0 <= k -> Z.pos m < 2 ^ k -> Z.pos (digits2_pos m) <= k.
Proof.
  intros Hk Hm. destruct (Z_le_gt_dec (Z.pos (digits2_pos m)) k) as [H|H]; [exact H|].
  exfalso. pose proof (digits2_pos_bounds m) as [Hlow _].
  assert (2 ^ k <= 2 ^ (Z.pos (digits2_pos m) - 1)) by (apply Z.pow_le_mono_r; lia).
  lia.
Qed.

Lemma iter_xO_value m k : Z.pos (Pos.iter xO m k) = Z.pos m * 2 ^ Z.pos k.
Proof.
  induction k as [|k IH] using Pos.peano_ind.
  - simpl. lia.
  - rewrite Pos.iter_succ, Pos2Z.inj_xO, IH, Pos2Z.inj_succ, Z.pow_succ_r by lia. lia.
Qed.

Lemma iter_xO_digits m k :
  digits2_pos (Pos.iter xO m k) = (digits2_pos m + k)%positive.
Proof.
  induction k as [|k IH] using Pos.peano_ind.
  - simpl. lia.
  - rewrite Pos.iter_succ. cbn [digits2_pos]. rewrite IH. lia.
Qed.

(** A mantissa of 53 digits with an exponent that needs no rounding. *)
Lemma binary_round_aux_canonical mz ez :
  Z.pos (digits2_pos mz) = 53 -> -52 <= ez <= 0 ->
  binary_round_aux prec emax false (Z.pos mz) ez loc_Exact = S754_finite false mz ez.
Proof.
  intros Hd He.
  assert (Hfexp : fexp prec emax (Zdigits2 (Z.pos mz) + ez) - ez = 0).
  { unfold fexp, emin, prec, emax, Zdigits2. rewrite Hd. lia. }
  unfold binary_round_aux, shr_fexp. rewrite Hfexp. cbn [shr shr_record_of_loc].
  cbn [shr_m loc_of_shr_record round_nearest_even]. rewrite Hfexp. cbn [shr shr_m shr_record_of_loc].
  replace (ez <=? emax - prec) with true; [reflexivity|].
  symmetry. apply Z.leb_le. unfold emax, prec. lia.
Qed.

Lemma binary_round_integer m :
  Z.pos m < 2 ^ 53 ->
  exists mz ez,
    binary_round prec emax false m 0 = S754_finite false mz ez /\
    -52 <= ez <= 0 /\ Z.pos mz = Z.pos m * 2 ^ (- ez).
Proof.
  intros Hm.
  pose proof (digits2_pos_le m 53 ltac:(lia) Hm) as Hd.
  assert (Hfexp : fexp prec emax (Z.pos (digits2_pos m) + 0) = Z.pos (digits2_pos m) - 53).
  { unfold fexp, emin, prec, emax. lia. }
  unfold binary_round, shl_align. rewrite Hfexp.
  destruct (Z.pos (digits2_pos m) - 53 - 0) as [|d|d] eqn:Hdiff; [|lia|].
  - exists m, 0. split; [|split; [lia|simpl; lia]].
    apply binary_round_aux_canonical; lia.
  - exists (Pos.iter xO m d), (Z.pos (digits2_pos m) - 53).
    split; [|split; [lia|]].
    + apply binary_round_aux_canonical; [|lia].
      rewrite iter_xO_digits, Pos2Z.inj_add. lia.
    + rewrite iter_xO_value. f_equal. f_equal. lia.
Qed.

Lemma to_Z_of_Z n : 0 <= n < 2 ^ 63 -> Uint63.to_Z (Uint63.of_Z n) = n.
Proof.
  intros Hn. rewrite Uint63.of_Z_spec. apply Z.mod_small.
  change Uint63.wB with (2 ^ 63). exact Hn.
Qed.

Lemma length_number_number_of_nat {A} (l : list A) :
  Z.of_nat (length l) < 2 ^ 63 -> JS.length_number l = number_of_nat (length l).
Proof.
  intros Hn. unfold JS.length_number, number_of_nat.
  rewrite <- (SF2Prim_Prim2SF (of_uint63 _)), of_uint63_spec, to_Z_of_Z by lia.
  reflexivity.
Qed.

Lemma Prim2SF_number_of_nat n :
  Z.of_nat n < 2 ^ 63 ->
  Prim2SF (number_of_nat n) = binary_normalize prec emax (Z.of_nat n) 0 false.
Proof.
  intros Hn. unfold number_of_nat. apply Prim2SF_SF2Prim.
  rewrite <- (to_Z_of_Z (Z.of_nat n)) by lia.
  rewrite <- of_uint63_spec. apply Prim2SF_valid.
Qed.

Lemma number_of_nat_exact n :
  Z.of_nat n < 2 ^ 53 -> integer_value (number_of_nat n) = Some (Z.of_nat n).
Proof.
  intros Hn. unfold integer_value.
  rewrite Prim2SF_number_of_nat by (assert (2 ^ 53 < 2 ^ 63) by reflexivity; lia).
  destruct (Z.of_nat n) as [|m|m] eqn:Hm; [reflexivity| |lia].
  cbn [binary_normalize].
  destruct (binary_round_integer m Hn) as (mz & ez & -> & Hez & Hmz).
  destruct (0 <=? ez) eqn:Hsign.
  - apply Z.leb_le in Hsign. assert (ez = 0) by lia. subst ez.
    f_equal. rewrite Hmz. simpl. lia.
  - rewrite Hmz, Z.mod_mul, Z.div_mul by (apply Z.pow_nonzero; lia).
    reflexivity.
Qed.

End Counting.

Section LiveStats.
Import TradingApp.

(** The formulas of [updateLiveStatPrice], field by field. *)
Lemma percentChange_eq prices price :
  percentChange (recalculate prices price) =
  PrimFloat.mul
    (PrimFloat.div (PrimFloat.sub price (mean (recalculate prices price)))
                   (mean (recalculate prices price))) 100%float.
Proof. reflexivity. Qed.

Lemma zScore_eq prices price :
  zScore (recalculate prices price) =
  PrimFloat.div (PrimFloat.sub price (mean (recalculate prices price)))
                (std (recalculate prices price)).
Proof. reflexivity. Qed.

Lemma distanceMean_eq prices price :
  distanceMean (recalculate prices price) =
  PrimFloat.sub price (mean (recalculate prices price)).
Proof. reflexivity. Qed.

Lemma reduce_sum l : forall acc,
  JS.reduce (fun a b => PrimFloat.add a b) acc l = sum_from acc l.
Proof. unfold JS.reduce. induction l; intros acc; simpl; auto. Qed.

Lemma reduce_squares mu l : forall acc,
  JS.reduce (fun s p => PrimFloat.add s (JS.Math_pow2 (PrimFloat.sub p mu))) acc l =
  sum_from acc (map (fun p => PrimFloat.mul (PrimFloat.sub p mu) (PrimFloat.sub p mu)) l).
Proof. unfold JS.reduce. induction l; intros acc; simpl; auto. Qed.

Lemma mean_sum prices price :
  mean (recalculate prices price) =
  PrimFloat.div (sum prices) (JS.length_number prices).
Proof. unfold recalculate, sum. simpl. rewrite reduce_sum. reflexivity. Qed.

Lemma std_sum prices price :
  std (recalculate prices price) =
  PrimFloat.sqrt
    (PrimFloat.div
       (sum (map (fun p =>
                    PrimFloat.mul (PrimFloat.sub p (mean (recalculate prices price)))
                                  (PrimFloat.sub p (mean (recalculate prices price))))
                 prices))
       (JS.length_number prices)).
Proof.
  unfold recalculate, sum, JS.Math_sqrt. simpl. rewrite reduce_squares. reflexivity.
Qed.

(** [prices.length] is the number [n] the formulas divide by. *)
Lemma mean_eq prices price :
  Z.of_nat (length prices) < 2 ^ 63 ->
  mean (recalculate prices price) = arithmetic_mean prices.
Proof.
  intros Hn. rewrite mean_sum, (length_number_number_of_nat _ Hn). reflexivity.
Qed.

Lemma std_eq prices price :
  Z.of_nat (length prices) < 2 ^ 63 ->
  std (recalculate prices price) = population_std_dev prices.
Proof.
  intros Hn. rewrite std_sum, (mean_eq _ _ Hn), (length_number_number_of_nat _ Hn).
  reflexivity.
Qed.

End LiveStats.

Section Extrema.

Lemma infinity_le x : JS.le infinity x = true -> x = infinity.
Proof.
  unfold JS.le. rewrite FloatAxioms.leb_spec.
  change (Prim2SF infinity) with (S754_infinity false).
  intros H. apply Prim2SF_inj.
  change (Prim2SF infinity) with (S754_infinity false).
  destruct (Prim2SF x) as [s|[]| |s m e]; try discriminate; reflexivity.
Qed.

Lemma le_neg_infinity x : JS.le x neg_infinity = true -> x = neg_infinity.
Proof.
  unfold JS.le. rewrite FloatAxioms.leb_spec.
  change (Prim2SF neg_infinity) with (S754_infinity true).
  intros H. apply Prim2SF_inj.
  change (Prim2SF neg_infinity) with (S754_infinity true).
  destruct (Prim2SF x) as [s|[]| |[] m e]; try discriminate; reflexivity.
Qed.

(** The loop of [Math.min] returns its start value or an argument, below
    the start value and below every argument. *)
Lemma min_loop_spec args : forall lowest,
  is_number lowest -> Forall is_number args ->
  (JS.min_loop lowest args = lowest \/ In (JS.min_loop lowest args) args) /\
  JS.le (JS.min_loop lowest args) lowest = true /\
  forall p, In p args -> JS.le (JS.min_loop lowest args) p = true.
Proof.
  unfold is_number.
  induction args as [|number rest IH]; intros lowest Hlo Hargs; simpl.
  - split; [left; reflexivity|]. split; [apply le_refl, Hlo | intros p []].
  - apply Forall_cons in Hargs. destruct Hargs as [Hn Hrest]. rewrite Hn.
    destruct (JS.is_neg_zero number && JS.is_pos_zero lowest) eqn:Hz.
    + apply andb_prop in Hz. destruct Hz as [Hnz Hpz].
      apply FloatAxioms.Leibniz.eqb_spec in Hnz, Hpz. subst number lowest.
      destruct (IH neg_zero eq_refl Hrest) as (Hin & Hle & Hall).
      split; [|split].
      * right. destruct Hin as [-> | Hin]; [left; reflexivity | right; exact Hin].
      * eapply le_trans; [exact Hle | reflexivity].
      * intros p [<- | Hp]; [exact Hle | apply Hall, Hp].
    + destruct (JS.lt number lowest) eqn:Hlt.
      * destruct (IH number Hn Hrest) as (Hin & Hle & Hall).
        split; [|split].
        -- right. destruct Hin as [-> | Hin]; [left; reflexivity | right; exact Hin].
        -- eapply le_trans; [exact Hle | apply lt_le, Hlt].
        -- intros p [<- | Hp]; [exact Hle | apply Hall, Hp].
      * destruct (IH lowest Hlo Hrest) as (Hin & Hle & Hall).
        split; [|split].
        -- destruct Hin as [-> | Hin]; [left; reflexivity | right; right; exact Hin].
        -- exact Hle.
        -- intros p [<- | Hp]; [|apply Hall, Hp].
           apply (le_trans _ lowest); [exact Hle | apply not_lt_le; assumption].
Qed.

Lemma max_loop_spec args : forall highest,
  is_number highest -> Forall is_number args ->
  (JS.max_loop highest args = highest \/ In (JS.max_loop highest args) args) /\
  JS.le highest (JS.max_loop highest args) = true /\
  forall p, In p args -> JS.le p (JS.max_loop highest args) = true.
Proof.
  unfold is_number.
  induction args as [|number rest IH]; intros highest Hhi Hargs; simpl.
  - split; [left; reflexivity|]. split; [apply le_refl, Hhi | intros p []].
  - apply Forall_cons in Hargs. destruct Hargs as [Hn Hrest]. rewrite Hn.
    destruct (JS.is_pos_zero number && JS.is_neg_zero highest) eqn:Hz.
    + apply andb_prop in Hz. destruct Hz as [Hpz Hnz].
      apply FloatAxioms.Leibniz.eqb_spec in Hnz, Hpz. subst number highest.
      destruct (IH zero eq_refl Hrest) as (Hin & Hle & Hall).
      split; [|split].
      * right. destruct Hin as [-> | Hin]; [left; reflexivity | right; exact Hin].
      * eapply le_trans; [|exact Hle]. reflexivity.
      * intros p [<- | Hp]; [exact Hle | apply Hall, Hp].
    + change (JS.gt number highest) with (JS.lt highest number).
      destruct (JS.lt highest number) eqn:Hlt.
      * destruct (IH number Hn Hrest) as (Hin & Hle & Hall).
        split; [|split].
        -- right. destruct Hin as [-> | Hin]; [left; reflexivity | right; exact Hin].
        -- eapply le_trans; [apply lt_le, Hlt | exact Hle].
        -- intros p [<- | Hp]; [exact Hle | apply Hall, Hp].
      * destruct (IH highest Hhi Hrest) as (Hin & Hle & Hall).
        split; [|split].
        -- destruct Hin as [-> | Hin]; [left; reflexivity | right; right; exact Hin].
        -- exact Hle.
        -- intros p [<- | Hp]; [|apply Hall, Hp].
           apply (le_trans _ highest); [apply not_lt_le; assumption | exact Hle].
Qed.

Lemma Math_min_is_minimum args :
  args <> [] -> Forall is_number args -> is_minimum (JS.Math_min args) args.
Proof.
  intros Hne Hargs. unfold JS.Math_min.
  destruct (min_loop_spec args infinity eq_refl Hargs) as (Hin & _ & Hall).
  split; [|exact Hall].
  destruct Hin as [Heq | Hin]; [|exact Hin].
  destruct args as [|p rest]; [congruence|].
  pose proof (Hall p (or_introl eq_refl)) as Hp.
  rewrite Heq in Hp |- *. apply infinity_le in Hp. left. exact Hp.
Qed.

Lemma Math_max_is_maximum args :
  args <> [] -> Forall is_number args -> is_maximum (JS.Math_max args) args.
Proof.
  intros Hne Hargs. unfold JS.Math_max.
  destruct (max_loop_spec args neg_infinity eq_refl Hargs) as (Hin & _ & Hall).
  split; [|exact Hall].
  destruct Hin as [Heq | Hin]; [|exact Hin].
  destruct args as [|p rest]; [congruence|].
  pose proof (Hall p (or_introl eq_refl)) as Hp.
  rewrite Heq in Hp |- *. apply le_neg_infinity in Hp. left. exact Hp.
Qed.

End Extrema.

(** C1 fails on the code, which divides by the standard deviation without
    looking at it: for the window of one bar closing at 100, whose standard
    deviation is 0, the z-score of the live price 100 is [NaN] and is shown as
    "NaN", and the z-score of the live price 101 is [Infinity] and is shown as
    "Infinity". *)
Theorem zScore_of_constant_window_is_not_zero :
  TradingApp.std (TradingApp.recalculate [100%float] 100%float) = 0%float /\
  TradingApp.zScore (TradingApp.recalculate [100%float] 100%float) = nan /\
  text_of "liveZScore"
    (TradingApp.updateLiveStatPrice (chart_closing_at [100%float]) stats_page
       "btcusdt" 100%float) = Some "NaN"%string /\
  TradingApp.zScore (TradingApp.recalculate [100%float] 101%float) = infinity /\
  text_of "liveZScore"
    (TradingApp.updateLiveStatPrice (chart_closing_at [100%float]) stats_page
       "btcusdt" 101%float) = Some "Infinity"%string.
Proof. vm_compute. repeat split. Qed.

(** The window 2, 4, 4, 4, 5, 5, 7, 9 has the mean 5 and the population
    standard deviation 2; the divisor [n - 1] gives another number. *)
Example recalculate_divides_by_n :
  TradingApp.mean (TradingApp.recalculate [2; 4; 4; 4; 5; 5; 7; 9]%float 6%float)
    = 5%float /\
  TradingApp.std (TradingApp.recalculate [2; 4; 4; 4; 5; 5; 7; 9]%float 6%float)
    = 2%float /\
  PrimFloat.eqb (sample_std_dev [2; 4; 4; 4; 5; 5; 7; 9]%float) 2%float = false.
Proof. vm_compute. repeat split. Qed.

(** C2: for every non-empty sequence of [n] close prices (numbers, none of
    them [NaN]; an array holds fewer than 2^32 elements), the recomputation
    returns their arithmetic mean, the sum divided by [n]; their population
    standard deviation, the square root of the squared deviations from that
    mean summed and divided by [n], where the divisor is the number whose
    value is the integer [n] itself; and as min and max a least and a
    greatest price of the sequence. *)
Theorem recalculate_mean_std_min_max (prices : list Number) (price : Number) :
  prices <> [] ->
  Z.of_nat (length prices) < 2 ^ 32 ->
  Forall is_number prices ->
  integer_value (number_of_nat (length prices)) = Some (Z.of_nat (length prices)) /\
  TradingApp.mean (TradingApp.recalculate prices price) = arithmetic_mean prices /\
  TradingApp.std (TradingApp.recalculate prices price) = population_std_dev prices /\
  is_minimum (TradingApp.min (TradingApp.recalculate prices price)) prices /\
  is_maximum (TradingApp.max (TradingApp.recalculate prices price)) prices.
Proof.
  intros Hne Hlen Hnum.
  assert (H53 : Z.of_nat (length prices) < 2 ^ 53)
    by (assert (2 ^ 32 < 2 ^ 53) by reflexivity; lia).
  assert (H63 : Z.of_nat (length prices) < 2 ^ 63)
    by (assert (2 ^ 32 < 2 ^ 63) by reflexivity; lia).
  split; [apply number_of_nat_exact, H53|].
  split; [apply mean_eq, H63|]. split; [apply std_eq, H63|]. split.
  - apply Math_min_is_minimum; assumption.
  - apply Math_max_is_maximum; assumption.
Qed.

Lemma recalculate_mean_std_min_max_witness :
  integer_value (number_of_nat (length [2; 4; 4; 4; 5; 5; 7; 9]%float))
    = Some (Z.of_nat (length [2; 4; 4; 4; 5; 5; 7; 9]%float)) /\
  TradingApp.mean (TradingApp.recalculate [2; 4; 4; 4; 5; 5; 7; 9]%float 6%float)
    = arithmetic_mean [2; 4; 4; 4; 5; 5; 7; 9]%float /\
  TradingApp.std (TradingApp.recalculate [2; 4; 4; 4; 5; 5; 7; 9]%float 6%float)
    = population_std_dev [2; 4; 4; 4; 5; 5; 7; 9]%float /\
  is_minimum (TradingApp.min (TradingApp.recalculate [2; 4; 4; 4; 5; 5; 7; 9]%float 6%float))
    [2; 4; 4; 4; 5; 5; 7; 9]%float /\
  is_maximum (TradingApp.max (TradingApp.recalculate [2; 4; 4; 4; 5; 5; 7; 9]%float 6%float))
    [2; 4; 4; 4; 5; 5; 7; 9]%float.
Proof.
  apply (recalculate_mean_std_min_max [2; 4; 4; 4; 5; 5; 7; 9]%float 6%float).
  - discriminate.
  - reflexivity.
  - repeat constructor.
Defined.

(** C3: for a window whose mean is 100 and whose standard deviation is 10,
    the live price 125 has the z-score 2.5, shown as "2.500"; the percent
    change 25, taken from the mean of the window and shown as "+25.00%"; and
    the distance from the mean 25, shown as "+$25.00". *)
Theorem live_price_125_against_mean_100_std_10 (prices : list Number) :
  TradingApp.mean (TradingApp.recalculate prices 125%float) = 100%float ->
  TradingApp.std (TradingApp.recalculate prices 125%float) = 10%float ->
  TradingApp.zScore (TradingApp.recalculate prices 125%float) = 2.5%float /\
  TradingApp.percentChange (TradingApp.recalculate prices 125%float) = 25%float /\
  TradingApp.distanceMean (TradingApp.recalculate prices 125%float) = 25%float /\
  (forall el,
     textContent <$> TradingApp.write_zScore (TradingApp.recalculate prices 125%float) el
       = Some "2.500"%string) /\
  (forall el,
     textContent <$> TradingApp.write_percentChange (TradingApp.recalculate prices 125%float) el
       = Some "+25.00%"%string) /\
  (forall el,
     textContent <$> TradingApp.write_distanceMean (TradingApp.recalculate prices 125%float) el
       = Some "+$25.00"%string).
Proof.
  intros Hmean Hstd.
  assert (Hz : TradingApp.zScore (TradingApp.recalculate prices 125%float) = 2.5%float)
    by (rewrite zScore_eq, Hmean, Hstd; reflexivity).
  assert (Hp : TradingApp.percentChange (TradingApp.recalculate prices 125%float) = 25%float)
    by (rewrite percentChange_eq, Hmean; reflexivity).
  assert (Hd : TradingApp.distanceMean (TradingApp.recalculate prices 125%float) = 25%float)
    by (rewrite distanceMean_eq, Hmean; reflexivity).
  repeat split; try assumption; intros el.
  - unfold TradingApp.write_zScore. rewrite Hz. reflexivity.
  - unfold TradingApp.write_percentChange. rewrite Hp. reflexivity.
  - unfold TradingApp.write_distanceMean. rewrite Hd. reflexivity.
Qed.

Lemma live_price_125_against_mean_100_std_10_witness :
  TradingApp.zScore (TradingApp.recalculate [90; 110]%float 125%float) = 2.5%float /\
  TradingApp.percentChange (TradingApp.recalculate [90; 110]%float 125%float) = 25%float /\
  TradingApp.distanceMean (TradingApp.recalculate [90; 110]%float 125%float) = 25%float /\
  (forall el,
     textContent <$> TradingApp.write_zScore (TradingApp.recalculate [90; 110]%float 125%float) el
       = Some "2.500"%string) /\
  (forall el,
     textContent <$> TradingApp.write_percentChange (TradingApp.recalculate [90; 110]%float 125%float) el
       = Some "+25.00%"%string) /\
  (forall el,
     textContent <$> TradingApp.write_distanceMean (TradingApp.recalculate [90; 110]%float 125%float) el
       = Some "+$25.00"%string).
Proof.
  apply (live_price_125_against_mean_100_std_10 [90; 110]%float); reflexivity.
Defined.

Lemma add_and_remove_resubmit_whole_set_witness :
  requests (fst (TradingApp.addSymbol example_backend " SolUSDT ")) =
    [GetStreamStatus; StopStream;
     StartStream ["btcusdt"; "ethusdt"; "solusdt"]%string] /\
  requests (fst (TradingApp.removeSymbol example_backend "btcusdt")) =
    [GetStreamStatus; StopStream; StartStream ["ethusdt"]%string].
Proof.
  destruct (add_and_remove_resubmit_whole_set example_backend _ eq_refl
              (fun _ => eq_refl)) as [Hadd Hremove].
  split.
  - apply (Hadd " SolUSDT ").
    + discriminate.
    + reflexivity.
    + vm_compute. intros [H|[H|[]]]; discriminate H.
  - apply (Hremove "btcusdt"). simpl. lia.
Defined.

(* ================================================================== *)
(** * Further properties of the sources                                *)
(* ================================================================== *)

(** ** The live bar over a stream of prices *)

Section LiveBarStream.
Import Charts.

Lemma update_candle_idempotent price b :
  update_candle price (update_candle price b) = update_candle price b.
Proof.
  rewrite !update_candle_fields. cbn [high low close open timestamp volume].
  change JS.gt with (fun a b => JS.lt b a). cbv beta.
  f_equal.
  - destruct (JS.lt (high b) price) eqn:H; rewrite ?lt_irrefl, ?H; reflexivity.
  - destruct (JS.lt price (low b)) eqn:H; rewrite ?lt_irrefl, ?H; reflexivity.
Qed.

(** The range of the candle after an update: it holds the price and the
    range before. *)
Lemma update_candle_range price b :
  is_number price -> is_number (high b) -> is_number (low b) ->
  JS.le (low (update_candle price b)) price = true /\
  JS.le price (high (update_candle price b)) = true /\
  JS.le (low (update_candle price b)) (low b) = true /\
  JS.le (high b) (high (update_candle price b)) = true.
Proof.
  unfold is_number. intros Hp Hh Hl.
  rewrite update_candle_fields. cbn [high low close open timestamp volume].
  change (JS.gt price (high b)) with (JS.lt (high b) price).
  destruct (JS.lt (high b) price) eqn:Hgt;
    destruct (JS.lt price (low b)) eqn:Hlt;
    repeat split;
    first [ apply le_refl; assumption
          | apply lt_le; assumption
          | apply not_lt_le; assumption ].
Qed.

Lemma update_candle_is_number price b :
  is_number price -> is_number (high b) -> is_number (low b) ->
  is_number (high (update_candle price b)) /\
  is_number (low (update_candle price b)).
Proof.
  intros Hp Hh Hl. rewrite update_candle_fields.
  cbn [high low close open timestamp volume].
  destruct (JS.gt price (high b)); destruct (JS.lt price (low b)); auto.
Qed.

Lemma run_live_bar_updates doc containerId prices : forall c data lastCandle,
  currentData c = Some data ->
  data !! (List.length data - 1)%nat = Some lastCandle ->
  run c (live_bar_updates doc containerId prices) =
  set_currentData
    (<[(List.length data - 1)%nat := absorb prices lastCandle]> data) c.
Proof.
  induction prices as [|price prices IH]; intros c data lastCandle Hd Hl.
  - simpl. rewrite list_insert_id by assumption.
    destruct c; simpl in *; subst; reflexivity.
  - unfold run, live_bar_updates in *. simpl.
    rewrite (updateLastBar_data _ _ _ _ _ _ Hd Hl).
    erewrite IH.
    + rewrite length_insert, list_insert_insert_eq. reflexivity.
    + reflexivity.
    + rewrite length_insert. apply list_lookup_insert_eq.
      eapply lookup_lt_Some; eassumption.
Qed.

Lemma absorb_frame prices : forall b,
  timestamp (absorb prices b) = timestamp b /\
  open (absorb prices b) = open b /\
  volume (absorb prices b) = volume b.
Proof.
  induction prices as [|price prices IH]; intros b; [simpl; auto|].
  simpl. destruct (IH (update_candle price b)) as (-> & -> & ->).
  rewrite update_candle_fields. auto.
Qed.

Lemma absorb_range prices : forall b,
  Forall is_number prices -> is_number (high b) -> is_number (low b) ->
  JS.le (low (absorb prices b)) (low b) = true /\
  JS.le (high b) (high (absorb prices b)) = true /\
  forall p, In p prices ->
    JS.le (low (absorb prices b)) p = true /\
    JS.le p (high (absorb prices b)) = true.
Proof.
  induction prices as [|price prices IH]; intros b Hps Hh Hl.
  - simpl. split; [|split]; [apply le_refl, Hl | apply le_refl, Hh | intros p []].
  - apply Forall_cons in Hps. destruct Hps as [Hp Hps].
    destruct (update_candle_range price b Hp Hh Hl) as (H1 & H2 & H3 & H4).
    destruct (update_candle_is_number price b Hp Hh Hl) as (Hh' & Hl').
    destruct (IH (update_candle price b) Hps Hh' Hl') as (I1 & I2 & I3).
    simpl. split; [|split].
    + apply (le_trans _ (low (update_candle price b))); assumption.
    + apply (le_trans _ (high (update_candle price b))); assumption.
    + intros p [<- | Hin]; [|apply I3, Hin]. split.
      * apply (le_trans _ (low (update_candle price b))); assumption.
      * apply (le_trans _ (high (update_candle price b))); assumption.
Qed.

Lemma last_cons_default {A} (x : A) l d1 d2 :
  List.last (x :: l) d1 = List.last (x :: l) d2.
Proof.
  revert x. induction l as [|y l IH]; intros x; [reflexivity|].
  change (List.last (y :: l) d1 = List.last (y :: l) d2). apply IH.
Qed.

Lemma absorb_close prices b :
  close (absorb prices b) = List.last prices (close b).
Proof.
  revert b. induction prices as [|price prices IH]; intros b; [reflexivity|].
  change (absorb (price :: prices) b) with (absorb prices (update_candle price b)).
  rewrite IH. destruct prices as [|p prices].
  - simpl. rewrite update_candle_fields. reflexivity.
  - change (List.last (price :: p :: prices) (close b))
      with (List.last (p :: prices) (close b)).
    apply last_cons_default.
Qed.

Lemma updateLastBar_no_data c doc containerId price :
  (forall data lastCandle,
     currentData c = Some data ->
     data !! (List.length data - 1)%nat = Some lastCandle -> False) ->
  updateLastBar c doc containerId price = (c, []).
Proof.
  intros H. unfold updateLastBar.
  destruct (currentData c) as [data|] eqn:Hd; [|reflexivity].
  destruct (data !! _) as [lastCandle|] eqn:Hl; [|reflexivity].
  exfalso. eapply H; [reflexivity | exact Hl].
Qed.

(** What a live update does to the data array: nothing, or it replaces the
    last bar by its update. *)
Lemma live_update_data c a :
  is_live_update a ->
  currentData (fst (step c a)) = currentData c \/
  exists data lastCandle price,
    currentData c = Some data /\
    data !! (List.length data - 1)%nat = Some lastCandle /\
    currentData (fst (step c a)) =
      Some (<[(List.length data - 1)%nat := update_candle price lastCandle]> data).
Proof.
  destruct a as [id data livePrice | now doc id price | doc id price];
    intros Hlive; [destruct Hlive | |]; simpl.
  - left. destruct (updateLivePrice_cases c doc now id price)
      as [-> | (_ & calls & -> & _)]; reflexivity.
  - destruct (currentData c) as [data|] eqn:Hd.
    + destruct (data !! (List.length data - 1)%nat) as [lastCandle|] eqn:Hl.
      * right. exists data, lastCandle, price.
        rewrite (updateLastBar_data _ _ _ _ _ _ Hd Hl). auto.
      * left. rewrite updateLastBar_no_data; [assumption|].
        intros data' b Hd' Hl'. congruence.
    + left. rewrite updateLastBar_no_data; [assumption|].
      intros data' b Hd'. congruence.
Qed.

End LiveBarStream.

Section LiveBarProperties.
Import Charts.

(** [updateLastBar] on a chart with data, in full. *)
Lemma updateLastBar_eq c doc containerId price data lastCandle :
  currentData c = Some data ->
  data !! (List.length data - 1)%nat = Some lastCandle ->
  updateLastBar c doc containerId price =
  (let data' := <[(List.length data - 1)%nat := update_candle price lastCandle]> data in
   (set_currentData data' c,
    match doc !! containerId ≫= plotly_data with
    | Some _ => [Plotly_restyle containerId (map close data') (map high data')
                   (map low data') 0]
    | None => []
    end)).
Proof.
  intros Hd Hl. unfold updateLastBar. rewrite Hd, Hl.
  destruct (doc !! containerId) as [container|]; [|reflexivity]. simpl.
  destruct (plotly_data container); reflexivity.
Qed.

End LiveBarProperties.

(** X1: calling [updateLastBar] a second time with the same price changes
    nothing more: the object and the call to the charting library are those
    of the first call.  This holds for every price, [NaN] included. *)
Theorem updateLastBar_twice_is_once
    (c : Charts.t) (doc : document) (containerId : string) (price : Number) :
  Charts.updateLastBar (fst (Charts.updateLastBar c doc containerId price))
    doc containerId price
  = Charts.updateLastBar c doc containerId price.
Proof.
  destruct (Charts.currentData c) as [data|] eqn:Hd.
  - destruct (data !! (List.length data - 1)%nat) as [lastCandle|] eqn:Hl.
    + rewrite (updateLastBar_eq c _ _ _ _ _ Hd Hl). cbv zeta. cbn [fst].
      assert (Hlen : (List.length data - 1 < List.length data)%nat)
        by (eapply lookup_lt_Some; eassumption).
      erewrite updateLastBar_eq; [|reflexivity|].
      2:{ rewrite length_insert. apply list_lookup_insert_eq, Hlen. }
      cbv zeta. rewrite length_insert, list_insert_insert_eq,
        update_candle_idempotent.
      reflexivity.
    + rewrite (updateLastBar_no_data c); [|intros; congruence].
      cbn [fst]. apply updateLastBar_no_data. intros; congruence.
  - rewrite (updateLastBar_no_data c); [|intros; congruence].
    cbn [fst]. apply updateLastBar_no_data. intros; congruence.
Qed.

(** X2: after [updateLastBar] has been called for each price of a stream of
    numbers, the bars before the last are as they were; the last bar closes
    at the last price of the stream, keeps its time stamp, open and volume,
    its low is below and its high is above every price of the stream, and
    its range holds the range it had. *)
Theorem live_bar_holds_every_price_of_the_stream
    (c : Charts.t) (doc : document) (containerId : string)
    (data : list Charts.bar) (lastCandle : Charts.bar) (prices : list Number) :
  Charts.currentData c = Some data ->
  last data = Some lastCandle ->
  is_number (Charts.high lastCandle) ->
  is_number (Charts.low lastCandle) ->
  Forall is_number prices ->
  exists lastCandle',
    Charts.currentData (Charts.run c (live_bar_updates doc containerId prices))
      = Some (<[(List.length data - 1)%nat := lastCandle']> data) /\
    Charts.close lastCandle' = List.last prices (Charts.close lastCandle) /\
    Charts.timestamp lastCandle' = Charts.timestamp lastCandle /\
    Charts.open lastCandle' = Charts.open lastCandle /\
    Charts.volume lastCandle' = Charts.volume lastCandle /\
    JS.le (Charts.low lastCandle') (Charts.low lastCandle) = true /\
    JS.le (Charts.high lastCandle) (Charts.high lastCandle') = true /\
    forall p, In p prices ->
      JS.le (Charts.low lastCandle') p = true /\
      JS.le p (Charts.high lastCandle') = true.
Proof.
  intros Hd Hlast Hh Hl Hps.
  assert (Hl' : data !! (List.length data - 1)%nat = Some lastCandle).
  { rewrite last_lookup in Hlast. rewrite <- Hlast. f_equal. lia. }
  exists (absorb prices lastCandle).
  rewrite (run_live_bar_updates _ _ _ _ _ _ Hd Hl'). simpl.
  destruct (absorb_frame prices lastCandle) as (Ht & Ho & Hv).
  destruct (absorb_range prices lastCandle Hps Hh Hl) as (R1 & R2 & R3).
  repeat split; try assumption; try apply absorb_close; apply R3; assumption.
Qed.

Lemma live_bar_holds_every_price_of_the_stream_witness :
  exists lastCandle',
    Charts.currentData
      (Charts.run example_chart
         (live_bar_updates ∅ "ohlcvChart" [120; 80; 101]%float))
      = Some (<[(List.length [example_bar] - 1)%nat := lastCandle']> [example_bar]) /\
    Charts.close lastCandle' = List.last [120; 80; 101]%float (Charts.close example_bar) /\
    Charts.timestamp lastCandle' = Charts.timestamp example_bar /\
    Charts.open lastCandle' = Charts.open example_bar /\
    Charts.volume lastCandle' = Charts.volume example_bar /\
    JS.le (Charts.low lastCandle') (Charts.low example_bar) = true /\
    JS.le (Charts.high example_bar) (Charts.high lastCandle') = true /\
    forall p, In p [120; 80; 101]%float ->
      JS.le (Charts.low lastCandle') p = true /\
      JS.le p (Charts.high lastCandle') = true.
Proof.
  apply (live_bar_holds_every_price_of_the_stream example_chart ∅ "ohlcvChart"
           [example_bar] example_bar [120; 80; 101]%float);
    try reflexivity.
  repeat constructor.
Defined.

Section ClosedBars.
Import Charts.

Lemma map_insert_same {A B} (f : A -> B) (l : list A) : forall i x y,
  l !! i = Some y -> f x = f y -> map f (<[i := x]> l) = map f l.
Proof.
  induction l as [|a l IH]; intros [|i] x y Hl Hf; simpl in *;
    try discriminate.
  - injection Hl as ->. congruence.
  - f_equal. eapply IH; eassumption.
Qed.

Lemma live_updates_keep_closed_bars actions : forall c data,
  Forall is_live_update actions ->
  currentData c = Some data ->
  exists data',
    currentData (run c actions) = Some data' /\
    List.length data' = List.length data /\
    (forall i, i <> (List.length data - 1)%nat -> data' !! i = data !! i) /\
    map timestamp data' = map timestamp data /\
    map open data' = map open data /\
    map volume data' = map volume data.
Proof.
  induction actions as [|a actions IH]; intros c data Hlive Hd.
  - exists data. unfold run. simpl. repeat split; auto.
  - apply Forall_cons in Hlive. destruct Hlive as [Ha Hlive].
    change (run c (a :: actions)) with (run (fst (step c a)) actions).
    destruct (live_update_data c a Ha)
      as [Hsame | (data0 & lastCandle & price & Hd0 & Hl & Hnew)].
    + apply IH; [assumption | congruence].
    + assert (data0 = data) by congruence. subst data0.
      destruct (IH _ _ Hlive Hnew) as (data' & Hrun & Hlen & Hrest & Ht & Ho & Hv).
      rewrite length_insert in Hlen, Hrest.
      assert (Hlt : (List.length data - 1 < List.length data)%nat)
        by (eapply lookup_lt_Some; eassumption).
      assert (Hcol : forall (A : Type) (f : bar -> A),
                 f (update_candle price lastCandle) = f lastCandle ->
                 map f (<[(List.length data - 1)%nat :=
                            update_candle price lastCandle]> data) = map f data).
      { intros A f Hf. eapply map_insert_same; eassumption. }
      exists data'. split; [assumption|]. split; [assumption|].
      split.
      { intros i Hi. rewrite Hrest by assumption.
        apply list_lookup_insert_ne. congruence. }
      rewrite Ht, Ho, Hv.
      rewrite !Hcol; [auto | | |]; rewrite update_candle_fields; reflexivity.
Qed.

(** The chart data keeps its length under live updates, whatever it is. *)
Lemma live_updates_keep_length actions : forall c,
  Forall is_live_update actions ->
  (List.length <$> currentData (run c actions)) = (List.length <$> currentData c).
Proof.
  intros c Hlive. destruct (currentData c) as [data|] eqn:Hd.
  - destruct (live_updates_keep_closed_bars actions c data Hlive Hd)
      as (data' & -> & Hlen & _). simpl. congruence.
  - revert c Hd. induction actions as [|a actions IH]; intros c Hd.
    + simpl. rewrite Hd. reflexivity.
    + apply Forall_cons in Hlive. destruct Hlive as [Ha Hlive].
      change (run c (a :: actions)) with (run (fst (step c a)) actions).
      destruct (live_update_data c a Ha) as [Hsame | (data0 & _ & _ & Hd0 & _)];
        [|congruence].
      apply IH; [assumption | congruence].
Qed.

End ClosedBars.

(** X3: under any sequence of calls of [updateLivePrice] and [updateLastBar]
    the chart data keeps its number of bars, every bar but the last is kept
    as it is, and no bar changes its time stamp, open or volume: a tick never
    opens a new bar and never touches a closed one. *)
Theorem live_updates_never_touch_closed_bars
    (c : Charts.t) (data : list Charts.bar) (actions : list Charts.action) :
  Forall is_live_update actions ->
  Charts.currentData c = Some data ->
  exists data',
    Charts.currentData (Charts.run c actions) = Some data' /\
    List.length data' = List.length data /\
    (forall i, i <> (List.length data - 1)%nat -> data' !! i = data !! i) /\
    map Charts.timestamp data' = map Charts.timestamp data /\
    map Charts.open data' = map Charts.open data /\
    map Charts.volume data' = map Charts.volume data.
Proof. intros. apply live_updates_keep_closed_bars; assumption. Qed.

Lemma live_updates_never_touch_closed_bars_witness :
  exists data',
    Charts.currentData
      (Charts.run (Charts.run Charts.init example_history)
         [Charts.UpdateLastBar example_page "ohlcvChart" 120%float;
          Charts.UpdateLivePrice 1700000000500 example_page "ohlcvChart" 120%float])
      = Some data' /\
    List.length data' = List.length [example_bar; example_bar] /\
    (forall i, i <> (List.length [example_bar; example_bar] - 1)%nat ->
               data' !! i = [example_bar; example_bar] !! i) /\
    map Charts.timestamp data' = map Charts.timestamp [example_bar; example_bar] /\
    map Charts.open data' = map Charts.open [example_bar; example_bar] /\
    map Charts.volume data' = map Charts.volume [example_bar; example_bar].
Proof.
  apply (live_updates_never_touch_closed_bars
           (Charts.run Charts.init example_history) [example_bar; example_bar]).
  - repeat constructor.
  - reflexivity.
Defined.

Section PriceLine.
Import Charts.

Lemma updateLivePrice_short_data c doc now containerId price data :
  currentData c = Some data -> (List.length data < 2)%nat ->
  snd (updateLivePrice c doc now containerId price) = [].
Proof.
  intros Hd Hlen. unfold updateLivePrice. rewrite Hd.
  destruct (List.length data =? 0)%nat; [reflexivity|].
  destruct (now - lastUpdateTime c <? updateThrottle c); [reflexivity|].
  destruct (doc !! containerId) as [container|]; [|reflexivity].
  destruct (plotly_data container) as [n|]; [|reflexivity].
  destruct (n <? 3)%nat; [reflexivity|].
  destruct data as [|b1 [|b2 data]]; simpl in *; try reflexivity. lia.
Qed.

Lemma updateLastBar_no_line_update c doc containerId price :
  Forall (fun call => ~ is_line_update call)
    (snd (updateLastBar c doc containerId price)).
Proof.
  unfold updateLastBar.
  destruct (currentData c) as [data|]; [|constructor].
  destruct (data !! _); [|constructor].
  destruct (doc !! containerId) as [container|]; [|constructor].
  destruct (plotly_data container); simpl; repeat constructor. intros [].
Qed.

Lemma short_data_no_line_update actions : forall c data,
  Forall is_live_update actions ->
  currentData c = Some data -> (List.length data < 2)%nat ->
  Forall (fun entry => ~ is_line_update (snd entry)) (plotly_log c actions).
Proof.
  induction actions as [|a actions IH]; intros c data Hlive Hd Hlen; simpl.
  - constructor.
  - apply Forall_cons in Hlive. destruct Hlive as [Ha Hlive].
    destruct (step c a) as [c' calls] eqn:Hstep.
    assert (Hc' : c' = fst (step c a)) by (rewrite Hstep; reflexivity).
    apply Forall_app. split.
    + apply Forall_fmap.
      destruct a as [id d lp | now doc id price | doc id price];
        [destruct Ha | |]; simpl in Hstep.
      * pose proof (updateLivePrice_short_data c doc now id price data Hd Hlen) as H.
        rewrite Hstep in H. simpl in H. subst calls. constructor.
      * pose proof (updateLastBar_no_line_update c doc id price) as H.
        rewrite Hstep in H. exact H.
    + destruct (live_updates_keep_closed_bars [a] c data) as (data' & Hd' & Hl' & _);
        [repeat constructor; assumption | assumption |].
      change (run c [a]) with (fst (step c a)) in Hd'. rewrite <- Hc' in Hd'.
      eapply IH; [assumption | exact Hd' | lia].
Qed.

End PriceLine.

(** X4: while the chart has fewer than two bars, no sequence of calls of
    [updateLivePrice] and [updateLastBar] updates the live price line. *)
Theorem price_line_is_never_updated_on_a_single_bar
    (c : Charts.t) (data : list Charts.bar) (actions : list Charts.action) :
  Forall is_live_update actions ->
  Charts.currentData c = Some data ->
  (List.length data < 2)%nat ->
  Forall (fun entry => ~ is_line_update (snd entry)) (Charts.plotly_log c actions).
Proof. intros. eapply short_data_no_line_update; eassumption. Qed.

Lemma price_line_is_never_updated_on_a_single_bar_witness :
  Forall (fun entry => ~ is_line_update (snd entry))
    (Charts.plotly_log example_chart
       [Charts.UpdateLivePrice 1700000000000 example_page "ohlcvChart" 106%float;
        Charts.UpdateLastBar example_page "ohlcvChart" 106%float;
        Charts.UpdateLivePrice 1700000000200 example_page "ohlcvChart" 107%float]).
Proof.
  apply (price_line_is_never_updated_on_a_single_bar example_chart [example_bar]).
  - repeat constructor.
  - reflexivity.
  - simpl. lia.
Defined.

(** X5: a call of [updateLivePrice] that gets past the throttle records its
    clock reading even when the chart element is not on the page; a call less
    than [updateThrottle] later then draws nothing either, whatever the page
    is by then. *)
Theorem updateLivePrice_spends_the_slot_without_drawing
    (c : Charts.t) (doc doc' : document) (now now' : Z) (containerId : string)
    (price price' : Number) (data : list Charts.bar) :
  Charts.currentData c = Some data ->
  data <> [] ->
  Charts.updateThrottle c <= now - Charts.lastUpdateTime c ->
  doc !! containerId = None ->
  now' - now < Charts.updateThrottle c ->
  snd (Charts.updateLivePrice c doc now containerId price) = [] /\
  Charts.lastUpdateTime (fst (Charts.updateLivePrice c doc now containerId price))
    = now /\
  Charts.updateLivePrice
    (fst (Charts.updateLivePrice c doc now containerId price))
    doc' now' containerId price'
  = (fst (Charts.updateLivePrice c doc now containerId price), []).
Proof.
  intros Hd Hne Hpass Hdoc Hsoon.
  assert (Hfirst : Charts.updateLivePrice c doc now containerId price =
            (Charts.set_currentPrice (Some price) (Charts.set_lastUpdateTime now c), [])).
  { unfold Charts.updateLivePrice. rewrite Hd.
    destruct data; [congruence|]. simpl.
    destruct (now - Charts.lastUpdateTime c <? Charts.updateThrottle c) eqn:Hthr;
      [apply Z.ltb_lt in Hthr; lia|].
    rewrite Hdoc. reflexivity. }
  rewrite Hfirst. simpl. split; [reflexivity|]. split; [reflexivity|].
  apply updateLivePrice_throttled. simpl. exact Hsoon.
Qed.

Lemma updateLivePrice_spends_the_slot_without_drawing_witness :
  snd (Charts.updateLivePrice (Charts.run Charts.init example_history) ∅
         1700000000200 "ohlcvChart" 107%float) = [] /\
  Charts.lastUpdateTime
    (fst (Charts.updateLivePrice (Charts.run Charts.init example_history) ∅
            1700000000200 "ohlcvChart" 107%float)) = 1700000000200 /\
  Charts.updateLivePrice
    (fst (Charts.updateLivePrice (Charts.run Charts.init example_history) ∅
            1700000000200 "ohlcvChart" 107%float))
    example_page 1700000000250 "ohlcvChart" 108%float
  = (fst (Charts.updateLivePrice (Charts.run Charts.init example_history) ∅
            1700000000200 "ohlcvChart" 107%float), []).
Proof.
  apply (updateLivePrice_spends_the_slot_without_drawing
           (Charts.run Charts.init example_history) ∅ example_page
           1700000000200 1700000000250 "ohlcvChart" 107%float 108%float
           [example_bar; example_bar]).
  - reflexivity.
  - discriminate.
  - vm_compute. discriminate.
  - reflexivity.
  - vm_compute. reflexivity.
Defined.

(* ================================================================== *)
(** ** Live statistics at the edges                                    *)
(* ================================================================== *)

Section NotANumber.
Implicit Types x y : Number.

Lemma nan_spec x : Prim2SF x = S754_nan -> x = nan.
Proof. intros H. apply Prim2SF_inj. rewrite H. reflexivity. Qed.

Lemma infinity_spec x s :
  Prim2SF x = S754_infinity s -> x = if s then neg_infinity else infinity.
Proof. intros H. apply Prim2SF_inj. rewrite H. destruct s; reflexivity. Qed.

Lemma div_by_zero_not_finite x y : is_zero y = true -> not_finite (PrimFloat.div x y).
Proof.
  intros H. unfold not_finite.
  destruct (div_by_zero x y H) as [Hn | [s Hs]].
  - left. apply nan_spec, Hn.
  - right. apply infinity_spec in Hs. destruct s; auto.
Qed.

Lemma mul_100_not_finite x : not_finite x -> not_finite (PrimFloat.mul x 100%float).
Proof. intros [-> | [-> | ->]]; unfold not_finite; vm_compute; auto. Qed.

Lemma is_nan_true x : is_nan x = true -> x = nan.
Proof.
  intros H. apply nan_spec.
  destruct (Prim2SF x) eqn:E; try reflexivity;
    assert (Hf : is_nan x = false) by (apply is_nan_false; congruence);
    congruence.
Qed.

(** [NaN] absorbs the arithmetic of the statistics. *)
Lemma add_nan_l x : PrimFloat.add nan x = nan.
Proof. apply nan_spec. rewrite add_spec. reflexivity. Qed.

Lemma add_nan_r x : PrimFloat.add x nan = nan.
Proof.
  apply nan_spec. rewrite add_spec.
  change (Prim2SF nan) with S754_nan. destruct (Prim2SF x); reflexivity.
Qed.

Lemma sub_nan_l x : PrimFloat.sub nan x = nan.
Proof. apply nan_spec. rewrite sub_spec. reflexivity. Qed.

Lemma sub_nan_r x : PrimFloat.sub x nan = nan.
Proof.
  apply nan_spec. rewrite sub_spec.
  change (Prim2SF nan) with S754_nan. destruct (Prim2SF x); reflexivity.
Qed.

Lemma mul_nan_r x : PrimFloat.mul x nan = nan.
Proof.
  apply nan_spec. rewrite mul_spec.
  change (Prim2SF nan) with S754_nan. destruct (Prim2SF x); reflexivity.
Qed.

Lemma div_nan_l x : PrimFloat.div nan x = nan.
Proof. apply nan_spec. rewrite div_spec. reflexivity. Qed.

Lemma div_nan_r x : PrimFloat.div x nan = nan.
Proof.
  apply nan_spec. rewrite div_spec.
  change (Prim2SF nan) with S754_nan. destruct (Prim2SF x); reflexivity.
Qed.

Lemma sum_from_nan l : sum_from nan l = nan.
Proof. induction l as [|x l IH]; simpl; [reflexivity|]. rewrite add_nan_l. exact IH. Qed.

Lemma sum_from_In_nan l : forall acc, In nan l -> sum_from acc l = nan.
Proof.
  induction l as [|x l IH]; intros acc Hin; [destruct Hin|];
    destruct Hin as [Hx | Hin]; simpl.
  - subst x. rewrite add_nan_r. apply sum_from_nan.
  - apply IH, Hin.
Qed.

Lemma min_loop_In_nan l : forall lowest, In nan l -> JS.min_loop lowest l = nan.
Proof.
  induction l as [|x l IH]; intros lowest Hin; [destruct Hin|];
    destruct Hin as [Hx | Hin]; simpl.
  - subst x. reflexivity.
  - destruct (is_nan x); [reflexivity|].
    destruct (_ && _); [apply IH, Hin|].
    destruct (JS.lt x lowest); apply IH, Hin.
Qed.

Lemma max_loop_In_nan l : forall highest, In nan l -> JS.max_loop highest l = nan.
Proof.
  induction l as [|x l IH]; intros highest Hin; [destruct Hin|];
    destruct Hin as [Hx | Hin]; simpl.
  - subst x. reflexivity.
  - destruct (is_nan x); [reflexivity|].
    destruct (_ && _); [apply IH, Hin|].
    destruct (JS.gt x highest); apply IH, Hin.
Qed.

End NotANumber.

Section StatsAtTheEdges.
Import TradingApp.

Lemma not_finite_toFixed x f :
  not_finite x ->
  JS.toFixed x f = Some "NaN"%string \/
  JS.toFixed x f = Some "Infinity"%string \/
  JS.toFixed x f = Some "-Infinity"%string.
Proof. intros [-> | [-> | ->]]; vm_compute; auto. Qed.

End StatsAtTheEdges.

(** X6: whenever the standard deviation of the window is zero, the z-score
    [updateLiveStatPrice] computes is [NaN] or an infinity, whatever the
    prices are, and the text it writes is "NaN", "Infinity" or "-Infinity". *)
Theorem zScore_is_never_finite_when_std_is_zero
    (prices : list Number) (price : Number) (el : element) :
  is_zero (TradingApp.std (TradingApp.recalculate prices price)) = true ->
  not_finite (TradingApp.zScore (TradingApp.recalculate prices price)) /\
  (textContent <$> TradingApp.write_zScore (TradingApp.recalculate prices price) el
     = Some "NaN"%string \/
   textContent <$> TradingApp.write_zScore (TradingApp.recalculate prices price) el
     = Some "Infinity"%string \/
   textContent <$> TradingApp.write_zScore (TradingApp.recalculate prices price) el
     = Some "-Infinity"%string).
Proof.
  intros Hstd.
  assert (Hz : not_finite (TradingApp.zScore (TradingApp.recalculate prices price)))
    by (rewrite zScore_eq; apply div_by_zero_not_finite, Hstd).
  split; [exact Hz|].
  unfold TradingApp.write_zScore.
  destruct Hz as [-> | [-> | ->]]; vm_compute; auto.
Qed.

Lemma zScore_is_never_finite_when_std_is_zero_witness :
  not_finite (TradingApp.zScore
                (TradingApp.recalculate [100; 100; 100]%float 99.5%float)) /\
  (textContent <$> TradingApp.write_zScore
       (TradingApp.recalculate [100; 100; 100]%float 99.5%float) (Element "" "" None)
     = Some "NaN"%string \/
   textContent <$> TradingApp.write_zScore
       (TradingApp.recalculate [100; 100; 100]%float 99.5%float) (Element "" "" None)
     = Some "Infinity"%string \/
   textContent <$> TradingApp.write_zScore
       (TradingApp.recalculate [100; 100; 100]%float 99.5%float) (Element "" "" None)
     = Some "-Infinity"%string).
Proof.
  apply (zScore_is_never_finite_when_std_is_zero [100; 100; 100]%float 99.5%float).
  reflexivity.
Defined.

(** X7: whenever the mean of the window is zero, the percent change is [NaN]
    or an infinity, and the text written is "NaN%", "+Infinity%" or
    "-Infinity%". *)
Theorem percentChange_is_never_finite_when_mean_is_zero
    (prices : list Number) (price : Number) (el : element) :
  is_zero (TradingApp.mean (TradingApp.recalculate prices price)) = true ->
  not_finite (TradingApp.percentChange (TradingApp.recalculate prices price)) /\
  (textContent <$> TradingApp.write_percentChange (TradingApp.recalculate prices price) el
     = Some "NaN%"%string \/
   textContent <$> TradingApp.write_percentChange (TradingApp.recalculate prices price) el
     = Some "+Infinity%"%string \/
   textContent <$> TradingApp.write_percentChange (TradingApp.recalculate prices price) el
     = Some "-Infinity%"%string).
Proof.
  intros Hmean.
  assert (Hp : not_finite (TradingApp.percentChange (TradingApp.recalculate prices price)))
    by (rewrite percentChange_eq; apply mul_100_not_finite,
          div_by_zero_not_finite, Hmean).
  split; [exact Hp|].
  unfold TradingApp.write_percentChange.
  destruct Hp as [-> | [-> | ->]]; vm_compute; auto.
Qed.

Lemma percentChange_is_never_finite_when_mean_is_zero_witness :
  not_finite (TradingApp.percentChange
                (TradingApp.recalculate [-5; 5]%float 1%float)) /\
  (textContent <$> TradingApp.write_percentChange
       (TradingApp.recalculate [-5; 5]%float 1%float) (Element "" "" None)
     = Some "NaN%"%string \/
   textContent <$> TradingApp.write_percentChange
       (TradingApp.recalculate [-5; 5]%float 1%float) (Element "" "" None)
     = Some "+Infinity%"%string \/
   textContent <$> TradingApp.write_percentChange
       (TradingApp.recalculate [-5; 5]%float 1%float) (Element "" "" None)
     = Some "-Infinity%"%string).
Proof.
  apply (percentChange_is_never_finite_when_mean_is_zero [-5; 5]%float 1%float).
  reflexivity.
Defined.

Section NaNClose.
Import TradingApp.

Lemma recalculate_In_nan prices price :
  In nan prices ->
  mean (recalculate prices price) = nan /\
  std (recalculate prices price) = nan /\
  min (recalculate prices price) = nan /\
  max (recalculate prices price) = nan /\
  percentChange (recalculate prices price) = nan /\
  zScore (recalculate prices price) = nan /\
  distanceMean (recalculate prices price) = nan.
Proof.
  intros Hin.
  assert (Hmean : mean (recalculate prices price) = nan).
  { rewrite mean_sum. unfold sum.
    rewrite sum_from_In_nan by assumption. apply div_nan_l. }
  assert (Hstd : std (recalculate prices price) = nan).
  { rewrite std_sum, Hmean. unfold sum.
    rewrite sum_from_In_nan; [rewrite div_nan_l; reflexivity|].
    apply in_map_iff. exists nan. split; [reflexivity | assumption]. }
  split; [exact Hmean|]. split; [exact Hstd|].
  split; [apply min_loop_In_nan, Hin|].
  split; [apply max_loop_In_nan, Hin|].
  rewrite percentChange_eq, zScore_eq, distanceMean_eq, Hmean, Hstd.
  rewrite !sub_nan_r. repeat split; reflexivity.
Qed.

End NaNClose.

(** X8: a tick whose price is [NaN] leaves [NaN] as the close of the live
    bar, and the statistics recomputed from the chart data then are all [NaN]
    (mean, standard deviation, min, max, percent change, z-score and distance
    from the mean), whatever the live price of that recomputation is. *)
Theorem nan_tick_turns_every_statistic_into_nan
    (c : Charts.t) (doc : document) (containerId : string)
    (data : list Charts.bar) (price : Number) :
  Charts.currentData c = Some data ->
  data <> [] ->
  exists data',
    Charts.currentData (fst (Charts.updateLastBar c doc containerId nan)) = Some data' /\
    In nan (map Charts.close data') /\
    TradingApp.mean (TradingApp.recalculate (map Charts.close data') price) = nan /\
    TradingApp.std (TradingApp.recalculate (map Charts.close data') price) = nan /\
    TradingApp.min (TradingApp.recalculate (map Charts.close data') price) = nan /\
    TradingApp.max (TradingApp.recalculate (map Charts.close data') price) = nan /\
    TradingApp.percentChange (TradingApp.recalculate (map Charts.close data') price) = nan /\
    TradingApp.zScore (TradingApp.recalculate (map Charts.close data') price) = nan /\
    TradingApp.distanceMean (TradingApp.recalculate (map Charts.close data') price) = nan.
Proof.
  intros Hd Hne.
  destruct (lookup_lastIndex data Hne) as [lastCandle Hl].
  rewrite (updateLastBar_data _ _ _ _ _ _ Hd Hl).
  eexists. split; [reflexivity|].
  assert (Hin : In nan (map Charts.close
             (<[(List.length data - 1)%nat := Charts.update_candle nan lastCandle]> data))).
  { apply in_map_iff. exists (Charts.update_candle nan lastCandle). split.
    - rewrite update_candle_fields. reflexivity.
    - apply list_elem_of_In. eapply list_elem_of_lookup_2.
      apply list_lookup_insert_eq. eapply lookup_lt_Some; eassumption. }
  split; [exact Hin|]. apply recalculate_In_nan, Hin.
Qed.

Lemma nan_tick_turns_every_statistic_into_nan_witness :
  exists data',
    Charts.currentData (fst (Charts.updateLastBar example_chart ∅ "ohlcvChart" nan))
      = Some data' /\
    In nan (map Charts.close data') /\
    TradingApp.mean (TradingApp.recalculate (map Charts.close data') 105%float) = nan /\
    TradingApp.std (TradingApp.recalculate (map Charts.close data') 105%float) = nan /\
    TradingApp.min (TradingApp.recalculate (map Charts.close data') 105%float) = nan /\
    TradingApp.max (TradingApp.recalculate (map Charts.close data') 105%float) = nan /\
    TradingApp.percentChange (TradingApp.recalculate (map Charts.close data') 105%float) = nan /\
    TradingApp.zScore (TradingApp.recalculate (map Charts.close data') 105%float) = nan /\
    TradingApp.distanceMean (TradingApp.recalculate (map Charts.close data') 105%float) = nan.
Proof.
  apply (nan_tick_turns_every_statistic_into_nan example_chart ∅ "ohlcvChart"
           [example_bar] 105%float).
  - reflexivity.
  - discriminate.
Defined.

Section StatsFrame.
Import TradingApp.

Lemma same_page_refl doc : same_page_but_stats doc doc.
Proof. intros id. destruct (doc !! id); auto. Qed.

Lemma same_page_trans doc1 doc2 doc3 :
  same_page_but_stats doc1 doc2 -> same_page_but_stats doc2 doc3 ->
  same_page_but_stats doc1 doc3.
Proof.
  intros H12 H23 id. specialize (H12 id). specialize (H23 id).
  destruct (doc1 !! id), (doc2 !! id), (doc3 !! id); try tauto.
  destruct H12 as [Hp Hq], H23 as [Hp' Hq']. split; [congruence|].
  intros Hid. rewrite Hq', Hq; auto.
Qed.

Lemma with_element_same_page doc doc' id body :
  In id stat_ids ->
  (forall el el', body el = Some el' -> plotly_data el' = plotly_data el) ->
  with_element doc id body = Some doc' ->
  same_page_but_stats doc doc'.
Proof.
  intros Hid Hbody. unfold with_element.
  destruct (doc !! id) as [el|] eqn:Hel.
  - destruct (body el) as [el'|] eqn:Hb; simpl; [|discriminate].
    intros [= <-]. intros id'.
    destruct (decide (id' = id)) as [->|Hne].
    + rewrite lookup_insert_eq, Hel. split; [eauto | tauto].
    + rewrite lookup_insert_ne by congruence. destruct (doc !! id'); auto.
  - intros [= <-]. apply same_page_refl.
Qed.

Ltac writer_keeps_data :=
  let el := fresh "el" in let el' := fresh "el'" in
  intros el el';
  unfold write_mean, write_std, write_min, write_max, write_percentChange,
    write_zScore, write_distanceMean;
  match goal with
  | |- context [JS.toFixed ?x ?f] => destruct (JS.toFixed x f); simpl
  end;
  [intros [= <-]; reflexivity | discriminate].

Lemma display_stats_same_page s doc doc' :
  display_stats s doc = Some doc' -> same_page_but_stats doc doc'.
Proof.
  unfold display_stats. intros H.
  repeat match type of H with
  | (?m ≫= _) = Some _ =>
      let d := fresh "doc" in let E := fresh "E" in
      destruct m as [d|] eqn:E; simpl in H; [|discriminate H]
  end.
  repeat match goal with
  | E : with_element _ ?id _ = Some _ |- _ =>
      apply with_element_same_page in E;
        [| unfold stat_ids; simpl; tauto | writer_keeps_data]
  end.
  repeat (eapply same_page_trans; [eassumption|]).
  apply same_page_refl.
Qed.

End StatsFrame.

(** X9: [updateLiveStatPrice] creates and removes no element; it leaves every
    element other than the eight of the statistics block as it is, and of
    those eight it can change the text and the colour only. *)
Theorem updateLiveStatPrice_writes_only_the_statistics_block
    (charts : Charts.t) (doc doc' : document) (symbol : string) (price : Number) :
  TradingApp.updateLiveStatPrice charts doc symbol price = Some doc' ->
  same_page_but_stats doc doc'.
Proof.
  unfold TradingApp.updateLiveStatPrice. intros H.
  destruct (with_element doc "liveStatPrice" _) as [doc1|] eqn:E1;
    simpl in H; [|discriminate H].
  apply with_element_same_page in E1;
    [| unfold stat_ids; simpl; tauto
     | intros el el'; destruct (JS.toFixed price 2); simpl;
       [intros [= <-]; reflexivity | discriminate] ].
  eapply same_page_trans; [exact E1|].
  destruct (Charts.currentData charts) as [[|b data]|].
  - injection H as <-. apply same_page_refl.
  - eapply display_stats_same_page, H.
  - injection H as <-. apply same_page_refl.
Qed.

Lemma updateLiveStatPrice_writes_only_the_statistics_block_witness :
  same_page_but_stats full_page
    (default ∅ (TradingApp.updateLiveStatPrice (chart_closing_at [90; 110]%float)
                  full_page "btcusdt" 125%float)).
Proof.
  apply (updateLiveStatPrice_writes_only_the_statistics_block
           (chart_closing_at [90; 110]%float) full_page _ "btcusdt" 125%float).
  vm_compute. reflexivity.
Defined.

(* ================================================================== *)
(** ** The tick cards                                                  *)
(* ================================================================== *)

Section TickCards.
Import TradingApp.

Lemma getPriceChange_records lastPrices symbol price :
  fst (getPriceChange lastPrices symbol price) =
  Some (JS.set (default ∅ lastPrices) symbol price).
Proof. destruct lastPrices; reflexivity. Qed.

Lemma tick_cards_fst lastPrices symbol price rest :
  fst (tick_cards lastPrices ((symbol, price) :: rest)) =
  fst (tick_cards (fst (getPriceChange lastPrices symbol price)) rest).
Proof.
  change (tick_cards lastPrices ((symbol, price) :: rest))
    with (let (lp, change) := getPriceChange lastPrices symbol price in
          let (lp', cards) := tick_cards lp rest in
          (lp', (symbol, changeClass change) :: cards)).
  destruct (getPriceChange lastPrices symbol price) as [lp change].
  cbn [fst snd]. destruct (tick_cards lp rest). reflexivity.
Qed.

Lemma tick_cards_snd lastPrices symbol price rest :
  snd (tick_cards lastPrices ((symbol, price) :: rest)) =
  (symbol, changeClass (snd (getPriceChange lastPrices symbol price))) ::
  snd (tick_cards (fst (getPriceChange lastPrices symbol price)) rest).
Proof.
  change (tick_cards lastPrices ((symbol, price) :: rest))
    with (let (lp, change) := getPriceChange lastPrices symbol price in
          let (lp', cards) := tick_cards lp rest in
          (lp', (symbol, changeClass change) :: cards)).
  destruct (getPriceChange lastPrices symbol price) as [lp change].
  cbn [fst snd]. destruct (tick_cards lp rest). reflexivity.
Qed.

(** [x - x] is [+0] or [NaN]. *)
Lemma sub_diag_any x : PrimFloat.sub x x = zero \/ PrimFloat.sub x x = nan.
Proof.
  destruct (is_finite x) eqn:Hfin; [left; apply sub_diag, Hfin|].
  right. apply nan_spec. rewrite sub_spec.
  unfold is_finite, is_infinity in Hfin.
  apply negb_false_iff, orb_true_iff in Hfin. destruct Hfin as [Hnan | Hinf].
  - apply is_nan_true in Hnan. subst x. reflexivity.
  - rewrite FloatAxioms.eqb_spec, abs_spec in Hinf.
    change (Prim2SF infinity) with (S754_infinity false) in Hinf.
    destruct (Prim2SF x) as [s|[]| |s m e]; try discriminate; reflexivity.
Qed.

End TickCards.

(** X10: after the loop over the ticks of a message, the price recorded for
    a symbol is the price of its last entry, and for a symbol without an
    entry it is what was recorded before; [lastPrices] being an object
    literal, this holds for every name but [__proto__], under which nothing
    is recorded whatever the entries are; and there is one card for each
    entry, in order. *)
Theorem tick_cards_record_the_latest_prices
    (lastPrices : TradingApp.lastPrices_t) (entries : list (string * Number))
    (symbol : string) :
  (symbol <> "__proto__"%string ->
   default ∅ (fst (TradingApp.tick_cards lastPrices entries)) !! symbol =
     match latest_price symbol entries with
     | Some price => Some price
     | None => default ∅ lastPrices !! symbol
     end) /\
  (default ∅ lastPrices !! "__proto__"%string = None ->
   default ∅ (fst (TradingApp.tick_cards lastPrices entries)) !! "__proto__"%string
     = None) /\
  map fst (snd (TradingApp.tick_cards lastPrices entries)) = map fst entries.
Proof.
  revert lastPrices.
  induction entries as [|[s p] entries IH]; intros lastPrices.
  - repeat split; intros; try reflexivity; assumption.
  - rewrite tick_cards_fst, tick_cards_snd, getPriceChange_records.
    destruct (IH (Some (JS.set (default ∅ lastPrices) s p)))
      as [IH1 [IH2 IH3]].
    cbn [default from_option id] in IH1, IH2.
    split; [|split].
    + intros Hsymbol. rewrite (IH1 Hsymbol). unfold latest_price. simpl.
      destruct (String.eqb s symbol) eqn:Heq.
      * apply String.eqb_eq in Heq. subst s.
        rewrite (set_insert _ _ _ Hsymbol).
        destruct (List.filter _ entries) as [|e es] eqn:Hf; simpl.
        -- apply lookup_insert_eq.
        -- rewrite last_cons. destruct (last es); reflexivity.
      * apply String.eqb_neq in Heq.
        destruct (last (List.filter _ entries)); simpl; [reflexivity|].
        apply lookup_set_ne. exact Heq.
    + intros Hnone. apply IH2.
      destruct (String.eqb s "__proto__") eqn:Heq.
      * apply String.eqb_eq in Heq. subst s.
        rewrite (set___proto__ _ _ Hnone). exact Hnone.
      * apply String.eqb_neq in Heq. rewrite (lookup_set_ne _ _ _ _ Heq).
        exact Hnone.
    + simpl. f_equal. exact IH3.
Qed.

Lemma tick_cards_record_the_latest_prices_witness :
  default ∅ (fst (TradingApp.tick_cards (Some {[ "ETHUSDT"%string := 3000%float ]})
                    [("BTCUSDT"%string, 50000%float); ("__proto__"%string, 1%float);
                     ("BTCUSDT"%string, 50001%float)])) !! "BTCUSDT"%string
    = Some 50001%float /\
  default ∅ (fst (TradingApp.tick_cards (Some {[ "ETHUSDT"%string := 3000%float ]})
                    [("BTCUSDT"%string, 50000%float); ("__proto__"%string, 1%float);
                     ("BTCUSDT"%string, 50001%float)])) !! "__proto__"%string
    = None.
Proof.
  split.
  - apply (proj1 (tick_cards_record_the_latest_prices
                    (Some {[ "ETHUSDT"%string := 3000%float ]})
                    [("BTCUSDT"%string, 50000%float); ("__proto__"%string, 1%float);
                     ("BTCUSDT"%string, 50001%float)] "BTCUSDT")).
    discriminate.
  - apply (proj1 (proj2 (tick_cards_record_the_latest_prices
                    (Some {[ "ETHUSDT"%string := 3000%float ]})
                    [("BTCUSDT"%string, 50000%float); ("__proto__"%string, 1%float);
                     ("BTCUSDT"%string, 50001%float)] "BTCUSDT"))).
    reflexivity.
Defined.

(** X11: the card of a symbol shows no arrow when the symbol has no recorded
    price or when the price is the one recorded, whatever the price is. *)
Theorem tick_card_shows_no_arrow_without_a_move
    (lastPrices : TradingApp.lastPrices_t) (symbol : string) (price : Number) :
  default ∅ lastPrices !! symbol = None \/
  default ∅ lastPrices !! symbol = Some price ->
  TradingApp.changeClass (snd (TradingApp.getPriceChange lastPrices symbol price))
    = EmptyString.
Proof.
  intros H.
  assert (Hchange : snd (TradingApp.getPriceChange lastPrices symbol price)
                    = PrimFloat.sub price price \/
                    snd (TradingApp.getPriceChange lastPrices symbol price) = nan).
  { unfold TradingApp.getPriceChange.
    replace (match lastPrices with Some m => m | None => ∅ end)
      with (default (∅ : gmap string Number) lastPrices)
      by (destruct lastPrices; reflexivity).
    cbn [snd]. unfold JS.get, JS.or. destruct H as [-> | ->].
    - destruct (JS.inherits symbol); cbn [JS.ToBoolean JS.ToNumber];
        [right; apply sub_nan_r | left; reflexivity].
    - cbn [JS.ToBoolean]. destruct (JS.truthy price); left; reflexivity. }
  destruct Hchange as [-> | ->]; [|reflexivity].
  destruct (sub_diag_any price) as [-> | ->]; reflexivity.
Qed.

Lemma tick_card_shows_no_arrow_without_a_move_witness :
  TradingApp.changeClass
    (snd (TradingApp.getPriceChange (Some {[ "ETHUSDT"%string := 3000.25%float ]})
            "ETHUSDT" 3000.25%float)) = EmptyString.
Proof.
  apply (tick_card_shows_no_arrow_without_a_move
           (Some {[ "ETHUSDT"%string := 3000.25%float ]}) "ETHUSDT" 3000.25%float).
  right. reflexivity.
Defined.

(* ================================================================== *)
(** ** Stream management when the backend fails or answers oddly       *)
(* ================================================================== *)

Section StreamRequests.
Import TradingApp.

(** The start requests of [restart]: at most the one for [allSymbols]. *)
Lemma restart_start_requests b status allSymbols l :
  In (StartStream l) (requests (fst (restart b status allSymbols))) ->
  l = allSymbols.
Proof.
  unfold restart, api.stopStream, api.startStream.
  destruct (running status); [destruct (on_stopStream b) as [[]|e]|];
    destruct (on_startStream b allSymbols) as [[]|e'];
    simpl; intros H;
    repeat match goal with
           | H : _ \/ _ |- _ => destruct H as [H | H]
           | H : False |- _ => destruct H
           | H : StartStream _ = StartStream _ |- _ => injection H as <-
           | H : _ = StartStream _ |- _ => discriminate H
           end; reflexivity.
Qed.

Lemma requests_bind_restart {A} b status allSymbols (k : unit -> Async A) l :
  (forall u, ~ In (StartStream l) (requests (fst (k u)))) ->
  In (StartStream l)
     (requests (fst (bind (restart b status allSymbols) k))) ->
  l = allSymbols.
Proof.
  intros Hk. unfold bind.
  destruct (restart b status allSymbols) as [tr [u|e]] eqn:Hr.
  - destruct (k u) as [tr' r'] eqn:Hku. simpl.
    rewrite requests_app, in_app_iff. intros [H | H].
    + eapply restart_start_requests. rewrite Hr. exact H.
    + exfalso. apply (Hk u). rewrite Hku. exact H.
  - simpl. intros H. eapply restart_start_requests. rewrite Hr. exact H.
Qed.

Lemma requests_try_catch_show_error (m : Async unit) :
  requests (fst (try_catch m show_error)) = requests (fst m).
Proof.
  destruct m as [tr [u|e]]; simpl; [reflexivity|].
  rewrite requests_app. simpl. apply app_nil_r.
Qed.

Lemma try_catch_show_error_resolves (m : Async unit) :
  snd (try_catch m show_error) = Resolved tt.
Proof. destruct m as [tr [[]|e]]; reflexivity. Qed.

(** A start request of [removeSymbol] carries the reported symbols without
    the removed one, and more than one symbol was reported. *)
Lemma removeSymbol_start_request b symbol l :
  In (StartStream l) (requests (fst (removeSymbol b symbol))) ->
  exists status,
    on_getStreamStatus b = Resolved status /\
    (1 < List.length (symbols status))%nat /\
    l = JS.filter_ne (symbols status) symbol.
Proof.
  unfold removeSymbol. rewrite requests_try_catch_show_error.
  unfold api.getStreamStatus.
  destruct (on_getStreamStatus b) as [status|e] eqn:Hs;
    [|simpl; intros [H|[]]; discriminate H].
  unfold bind at 1.
  destruct (List.length (symbols status) <=? 1)%nat eqn:Hle.
  - simpl. intros [H|[]]. discriminate H.
  - apply Nat.leb_gt in Hle.
    match goal with
    | |- context [bind (restart ?b ?s ?all) ?k] =>
        destruct (bind (restart b s all) k) as [tr r] eqn:Hb
    end.
    simpl. intros [H | H]; [discriminate H|].
    exists status. split; [reflexivity|]. split; [exact Hle|].
    eapply (requests_bind_restart b status _ _ l); [|rewrite Hb; exact H].
    intros u. simpl. tauto.
Qed.

(** A start request of [addSymbol] carries the reported symbols followed by
    the entered one, which passed the three checks. *)
Lemma addSymbol_start_request b input l :
  In (StartStream l) (requests (fst (addSymbol b input))) ->
  exists status,
    on_getStreamStatus b = Resolved status /\
    JS.toLowerCase (JS.trim input) <> EmptyString /\
    JS.endsWith (JS.toLowerCase (JS.trim input)) "usdt" = true /\
    ~ In (JS.toLowerCase (JS.trim input)) (symbols status) /\
    l = (symbols status ++ [JS.toLowerCase (JS.trim input)])%list.
Proof.
  unfold addSymbol.
  destruct (String.eqb _ EmptyString) eqn:Hempty; [simpl; tauto|].
  destruct (JS.endsWith _ _) eqn:Hsuffix; [|simpl; tauto]. simpl negb. cbv iota.
  rewrite requests_try_catch_show_error.
  unfold api.getStreamStatus.
  destruct (on_getStreamStatus b) as [status|e] eqn:Hs;
    [|simpl; intros [H|[]]; discriminate H].
  unfold bind at 1.
  destruct (JS.includes (symbols status) _) eqn:Hinc.
  - simpl. intros [H|[]]. discriminate H.
  - match goal with
    | |- context [bind (restart ?b ?s ?all) ?k] =>
        destruct (bind (restart b s all) k) as [tr r] eqn:Hb
    end.
    simpl. intros [H | H]; [discriminate H|].
    exists status. split; [reflexivity|].
    split; [apply String.eqb_neq, Hempty|]. split; [reflexivity|].
    split; [apply includes_not_In, Hinc|].
    eapply (requests_bind_restart b status _ _ l); [|rewrite Hb; exact H].
    intros u. simpl. tauto.
Qed.

Lemma filter_ne_NoDup arr x : List.NoDup arr -> List.NoDup (JS.filter_ne arr x).
Proof. apply List.NoDup_filter. Qed.

Lemma filter_ne_nonempty arr x :
  List.NoDup arr -> (1 < List.length arr)%nat -> JS.filter_ne arr x <> [].
Proof.
  intros Hnd Hlen. destruct arr as [|a [|a' arr]]; simpl in Hlen; try lia.
  apply List.NoDup_cons_iff in Hnd. destruct Hnd as [Hna _].
  assert (Hneq : a <> a') by (intros ->; apply Hna; left; reflexivity).
  unfold JS.filter_ne. simpl.
  destruct (String.eqb a x) eqn:Ha; simpl; [|discriminate].
  destruct (String.eqb a' x) eqn:Ha'; simpl; [|discriminate].
  apply String.eqb_eq in Ha, Ha'. congruence.
Qed.

Lemma filter_ne_not_In arr x : ~ In x arr -> JS.filter_ne arr x = arr.
Proof.
  induction arr as [|a arr IH]; intros Hx; [reflexivity|].
  unfold JS.filter_ne in *. simpl.
  destruct (String.eqb a x) eqn:Ha.
  - apply String.eqb_eq in Ha. exfalso. apply Hx. left. exact Ha.
  - simpl. f_equal. apply IH. intros H. apply Hx. right. exact H.
Qed.

Lemma filter_ne_app_last arr x : ~ In x arr -> JS.filter_ne (arr ++ [x]) x = arr.
Proof.
  intros Hx. unfold JS.filter_ne. rewrite List.filter_app. simpl.
  rewrite String.eqb_refl. simpl. rewrite app_nil_r.
  apply filter_ne_not_In, Hx.
Qed.

End StreamRequests.

(** X12: [addSymbol], [removeSymbol] and [autoStartStream] settle without an
    exception whatever the backend answers: every rejected request is caught
    (the toasts themselves are taken to succeed). *)
Theorem stream_methods_always_resolve
    (b : backend) (input symbol : string) :
  snd (TradingApp.addSymbol b input) = Resolved tt /\
  snd (TradingApp.removeSymbol b symbol) = Resolved tt /\
  exists populated, snd (TradingApp.autoStartStream b) = Resolved populated.
Proof.
  split; [|split].
  - unfold TradingApp.addSymbol.
    destruct (String.eqb _ EmptyString); [reflexivity|].
    destruct (negb _); [reflexivity|].
    apply try_catch_show_error_resolves.
  - apply try_catch_show_error_resolves.
  - unfold TradingApp.autoStartStream.
    match goal with
    | |- context [try_catch ?m ?h] => destruct m as [tr [r|e]]
    end; simpl; eauto.
Qed.

(** X13: [addSymbol] is not undone when the restart fails half way: if the
    stream runs, the stop request succeeds and the start request is rejected,
    the stream has been stopped and is not started again; the error is shown,
    the symbol is not announced as added and the input is not cleared. *)
Theorem addSymbol_leaves_stream_stopped_when_start_fails
    (b : backend) (status : stream_status) (input message : string) :
  on_getStreamStatus b = Resolved status ->
  running status = true ->
  on_stopStream b = Resolved tt ->
  JS.toLowerCase (JS.trim input) <> EmptyString ->
  JS.endsWith (JS.toLowerCase (JS.trim input)) "usdt" = true ->
  ~ In (JS.toLowerCase (JS.trim input)) (symbols status) ->
  on_startStream b (symbols status ++ [JS.toLowerCase (JS.trim input)])
    = Rejected message ->
  fst (TradingApp.addSymbol b input) =
    [Call GetStreamStatus; Call StopStream; Sleep 500;
     Call (StartStream (symbols status ++ [JS.toLowerCase (JS.trim input)]));
     ShowToast (Failed message)].
Proof.
  intros Hstatus Hrun Hstop Hne Hsuffix Hnew Hstart.
  unfold TradingApp.addSymbol.
  apply String.eqb_neq in Hne. rewrite Hne, Hsuffix. simpl.
  apply includes_not_In in Hnew.
  unfold api.getStreamStatus. rewrite Hstatus. simpl. rewrite Hnew.
  unfold TradingApp.restart, api.stopStream, api.startStream.
  rewrite Hrun, Hstop, Hstart. reflexivity.
Qed.

Lemma addSymbol_leaves_stream_stopped_when_start_fails_witness :
  fst (TradingApp.addSymbol
         {| on_getStreamStatus := on_getStreamStatus example_backend;
            on_stopStream := Resolved tt;
            on_startStream := fun _ => Rejected "Stream already running" |}
         "solusdt") =
    [Call GetStreamStatus; Call StopStream; Sleep 500;
     Call (StartStream (["btcusdt"; "ethusdt"] ++ [JS.toLowerCase (JS.trim "solusdt")]));
     ShowToast (Failed "Stream already running")].
Proof.
  apply (addSymbol_leaves_stream_stopped_when_start_fails
           {| on_getStreamStatus := on_getStreamStatus example_backend;
              on_stopStream := Resolved tt;
              on_startStream := fun _ => Rejected "Stream already running" |}
           {| running := true; symbols := ["btcusdt"; "ethusdt"]%string;
              tick_count := 1200; buffer_size := 40 |}
           "solusdt" "Stream already running");
    try reflexivity.
  - discriminate.
  - vm_compute. intros [H|[H|[]]]; discriminate H.
Defined.

(** X14: removing the symbol that was added last restores the list: when the
    backend reports the symbols [S] followed by [s], with [s] not in [S] and
    [S] not empty, [removeSymbol(s)] restarts the stream with exactly [S]. *)
Theorem removeSymbol_undoes_addSymbol
    (b : backend) (status : stream_status) (S : list string) (s : string) :
  on_getStreamStatus b = Resolved status ->
  (running status = true -> on_stopStream b = Resolved tt) ->
  symbols status = (S ++ [s])%list ->
  ~ In s S ->
  S <> [] ->
  requests (fst (TradingApp.removeSymbol b s)) =
    (GetStreamStatus :: (if running status then [StopStream] else []) ++
     [StartStream S])%list.
Proof.
  intros Hstatus Hstop Hsym Hnew Hne.
  unfold TradingApp.removeSymbol.
  rewrite requests_try_catch_show_error.
  unfold api.getStreamStatus. rewrite Hstatus. simpl.
  destruct (List.length (symbols status) <=? 1)%nat eqn:Hle.
  { apply Nat.leb_le in Hle. rewrite Hsym, length_app in Hle.
    destruct S; [congruence | simpl in Hle; lia]. }
  rewrite Hsym, filter_ne_app_last by assumption.
  destruct (restart_requests b status S Hstop) as (tr & -> & Htr).
  destruct (on_startStream b S) as [[]|e]; simpl;
    rewrite ?requests_app, ?Htr, ?app_nil_r; simpl;
    rewrite ?app_nil_r; reflexivity.
Qed.

Lemma removeSymbol_undoes_addSymbol_witness :
  requests (fst (TradingApp.removeSymbol example_backend "ethusdt")) =
    (GetStreamStatus :: [StopStream] ++ [StartStream ["btcusdt"%string]])%list.
Proof.
  apply (removeSymbol_undoes_addSymbol example_backend
           {| running := true; symbols := ["btcusdt"; "ethusdt"]%string;
              tick_count := 1200; buffer_size := 40 |}
           ["btcusdt"%string] "ethusdt");
    try reflexivity.
  - intros [H|[]]. discriminate H.
  - discriminate.
Defined.

(** X15: whatever the backend answers, a start request of [removeSymbol]
    never carries the removed symbol; and when the reported symbols have no
    duplicate, the list it carries is not empty, has no duplicate and holds
    reported symbols only. *)
Theorem removeSymbol_never_starts_an_empty_stream
    (b : backend) (status : stream_status) (symbol : string) (l : list string) :
  on_getStreamStatus b = Resolved status ->
  List.NoDup (symbols status) ->
  In (StartStream l) (requests (fst (TradingApp.removeSymbol b symbol))) ->
  l <> [] /\ List.NoDup l /\ ~ In symbol l /\ incl l (symbols status).
Proof.
  intros Hstatus Hnd Hin.
  destruct (removeSymbol_start_request b symbol l Hin) as (status' & Hs' & Hlen & ->).
  assert (status' = status) by congruence. subst status'.
  split; [apply filter_ne_nonempty; assumption|].
  split; [apply filter_ne_NoDup; assumption|].
  split.
  - rewrite filter_ne_In. tauto.
  - intros x Hx. apply filter_ne_In in Hx. tauto.
Qed.

Lemma removeSymbol_never_starts_an_empty_stream_witness :
  ["ethusdt"%string] <> [] /\ List.NoDup ["ethusdt"%string] /\
  ~ In "btcusdt"%string ["ethusdt"%string] /\
  incl ["ethusdt"%string] ["btcusdt"; "ethusdt"]%string.
Proof.
  apply (removeSymbol_never_starts_an_empty_stream example_backend
           {| running := true; symbols := ["btcusdt"; "ethusdt"]%string;
              tick_count := 1200; buffer_size := 40 |} "btcusdt").
  - reflexivity.
  - repeat constructor; simpl; intuition discriminate.
  - vm_compute. right. right. left. reflexivity.
Defined.

(** X16: whatever the backend answers, a start request of [addSymbol] carries
    the reported symbols followed by the entered one, trimmed and in lower
    case, which is not empty and ends in "usdt"; when the reported symbols
    have no duplicate, neither has the list it carries. *)
Theorem addSymbol_starts_a_duplicate_free_list
    (b : backend) (status : stream_status) (input : string) (l : list string) :
  on_getStreamStatus b = Resolved status ->
  List.NoDup (symbols status) ->
  In (StartStream l) (requests (fst (TradingApp.addSymbol b input))) ->
  l = (symbols status ++ [JS.toLowerCase (JS.trim input)])%list /\
  JS.toLowerCase (JS.trim input) <> EmptyString /\
  JS.endsWith (JS.toLowerCase (JS.trim input)) "usdt" = true /\
  List.NoDup l.
Proof.
  intros Hstatus Hnd Hin.
  destruct (addSymbol_start_request b input l Hin)
    as (status' & Hs' & Hne & Hsuffix & Hnew & ->).
  assert (status' = status) by congruence. subst status'.
  repeat split; try assumption.
  apply List.NoDup_app; [assumption | repeat constructor; intros []|].
  intros x Hx [<- | []]. contradiction.
Qed.

Lemma addSymbol_starts_a_duplicate_free_list_witness :
  ["btcusdt"; "ethusdt"; "solusdt"]%string =
    (["btcusdt"; "ethusdt"] ++ [JS.toLowerCase (JS.trim " SolUSDT ")])%list /\
  JS.toLowerCase (JS.trim " SolUSDT ") <> EmptyString /\
  JS.endsWith (JS.toLowerCase (JS.trim " SolUSDT ")) "usdt" = true /\
  List.NoDup ["btcusdt"; "ethusdt"; "solusdt"]%string.
Proof.
  apply (addSymbol_starts_a_duplicate_free_list example_backend
           {| running := true; symbols := ["btcusdt"; "ethusdt"]%string;
              tick_count := 1200; buffer_size := 40 |} " SolUSDT ").
  - reflexivity.
  - repeat constructor; simpl; intuition discriminate.
  - vm_compute. right. right. left. reflexivity.
Defined.

(** X17: [removeSymbol] does not check that the symbol is tracked: for a
    symbol that is not among the (more than one) reported symbols and a
    backend that answers, it still restarts the stream, with the unchanged
    list, and announces the symbol as removed. *)
Theorem removeSymbol_of_untracked_symbol_restarts_anyway
    (b : backend) (status : stream_status) (symbol : string) :
  on_getStreamStatus b = Resolved status ->
  (running status = true -> on_stopStream b = Resolved tt) ->
  on_startStream b (symbols status) = Resolved tt ->
  (1 < List.length (symbols status))%nat ->
  ~ In symbol (symbols status) ->
  fst (TradingApp.removeSymbol b symbol) =
    (Call GetStreamStatus ::
     (if running status then [Call StopStream; Sleep 500] else []) ++
     [Call (StartStream (symbols status));
      ShowToast (Removed (JS.toUpperCase symbol))])%list.
Proof.
  intros Hstatus Hstop Hstart Hlen Hnot.
  unfold TradingApp.removeSymbol, api.getStreamStatus. rewrite Hstatus. simpl.
  destruct (List.length (symbols status) <=? 1)%nat eqn:Hle;
    [apply Nat.leb_le in Hle; lia|].
  rewrite filter_ne_not_In by assumption.
  unfold TradingApp.restart, api.stopStream, api.startStream. rewrite Hstart.
  destruct (running status); [rewrite Hstop by reflexivity|]; reflexivity.
Qed.

Lemma removeSymbol_of_untracked_symbol_restarts_anyway_witness :
  fst (TradingApp.removeSymbol example_backend "dogeusdt") =
    (Call GetStreamStatus :: [Call StopStream; Sleep 500] ++
     [Call (StartStream ["btcusdt"; "ethusdt"]%string);
      ShowToast (Removed (JS.toUpperCase "dogeusdt"))])%list.
Proof.
  apply (removeSymbol_of_untracked_symbol_restarts_anyway example_backend
           {| running := true; symbols := ["btcusdt"; "ethusdt"]%string;
              tick_count := 1200; buffer_size := 40 |} "dogeusdt");
    try reflexivity.
  - simpl. lia.
  - vm_compute. intros [H|[H|[]]]; discriminate H.
Defined.

(** X18: [autoStartStream] never starts the stream with anything but the
    seven default symbols, whatever the backend reports as tracked; it stops
    the stream first exactly when it is reported running; and it populates
    the dropdowns (with the defaults) only after a start request. *)
Theorem autoStartStream_starts_the_default_symbols_only (b : backend) :
  (forall l, In (StartStream l) (requests (fst (TradingApp.autoStartStream b))) ->
             l = TradingApp.defaultSymbols) /\
  (forall status,
     on_getStreamStatus b = Resolved status ->
     (In StopStream (requests (fst (TradingApp.autoStartStream b)))
      <-> running status = true)) /\
  (forall populated,
     snd (TradingApp.autoStartStream b) = Resolved (Some populated) ->
     populated = TradingApp.defaultSymbols /\
     In (StartStream TradingApp.defaultSymbols)
        (requests (fst (TradingApp.autoStartStream b)))).
Proof.
  unfold TradingApp.autoStartStream, api.getStreamStatus, api.stopStream,
    api.startStream.
  destruct (on_getStreamStatus b) as [status|e]; simpl;
    [destruct (running status) eqn:Hrun; simpl;
     [destruct (on_stopStream b) as [[]|e]; simpl|];
     try (destruct (on_startStream b TradingApp.defaultSymbols) as [[]|e'];
          simpl)|].
  all: split; [|split].
  all: try (intros l H;
            repeat match goal with
                   | H : _ \/ _ |- _ => destruct H as [H | H]
                   | H : False |- _ => destruct H
                   | H : StartStream _ = StartStream _ |- _ => injection H as <-
                   | H : _ = StartStream _ |- _ => discriminate H
                   end; reflexivity).
  all: try (intros st Hst;
            first
              [ discriminate Hst
              | injection Hst as <-; rewrite Hrun; split;
                [ intros H;
                  repeat match goal with
                         | H : _ \/ _ |- _ => destruct H as [H | H]
                         | H : False |- _ => destruct H
                         | H : _ = StopStream |- _ => discriminate H
                         end; reflexivity
                | intros H; try discriminate H; simpl; auto 10 ] ]).
  all: intros populated H;
    first [ discriminate H
          | injection H as <-; split; [reflexivity | simpl; auto 10] ].
Qed.

(* ================================================================== *)
(** ** The entered symbol                                              *)
(* ================================================================== *)

Section EnteredSymbol.

Lemma lower_char_white c : JS.is_white_space (JS.lower_char c) = JS.is_white_space c.
Proof. destruct c as [[] [] [] [] [] [] [] []]; reflexivity. Qed.

Lemma lower_char_idempotent c : JS.lower_char (JS.lower_char c) = JS.lower_char c.
Proof. destruct c as [[] [] [] [] [] [] [] []]; reflexivity. Qed.

Lemma toLowerCase_idempotent s : JS.toLowerCase (JS.toLowerCase s) = JS.toLowerCase s.
Proof.
  unfold JS.toLowerCase. induction s as [|c s IH]; simpl; [reflexivity|].
  rewrite lower_char_idempotent, IH. reflexivity.
Qed.

Lemma trimStart_toLowerCase s :
  JS.trimStart (JS.toLowerCase s) = JS.toLowerCase (JS.trimStart s).
Proof.
  unfold JS.toLowerCase. induction s as [|c s IH]; simpl; [reflexivity|].
  rewrite lower_char_white. destruct (JS.is_white_space c); [exact IH | reflexivity].
Qed.

Lemma trimEnd_toLowerCase s :
  JS.trimEnd (JS.toLowerCase s) = JS.toLowerCase (JS.trimEnd s).
Proof.
  unfold JS.toLowerCase. induction s as [|c s IH]; simpl; [reflexivity|].
  rewrite IH, lower_char_white.
  destruct (JS.trimEnd s) as [|c' s']; simpl;
    [destruct (JS.is_white_space c)|]; reflexivity.
Qed.

Lemma trim_toLowerCase s : JS.trim (JS.toLowerCase s) = JS.toLowerCase (JS.trim s).
Proof. unfold JS.trim. rewrite trimStart_toLowerCase. apply trimEnd_toLowerCase. Qed.

Lemma trimEnd_idempotent s : JS.trimEnd (JS.trimEnd s) = JS.trimEnd s.
Proof.
  induction s as [|c s IH]; simpl; [reflexivity|].
  destruct (JS.trimEnd s) as [|c' s'] eqn:Hs.
  - destruct (JS.is_white_space c) eqn:Hc; simpl; [reflexivity|].
    rewrite Hc. reflexivity.
  - change (JS.trimEnd (String c (String c' s')))
      with (match JS.trimEnd (String c' s') with
            | EmptyString =>
                if JS.is_white_space c then EmptyString else String c EmptyString
            | rest' => String c rest'
            end).
    rewrite IH. reflexivity.
Qed.

Lemma trimStart_starts_black s : starts_black (JS.trimStart s).
Proof.
  induction s as [|c s IH]; simpl; [exact I|].
  destruct (JS.is_white_space c) eqn:Hc; [exact IH | exact Hc].
Qed.

Lemma trimEnd_starts_black s : starts_black s -> starts_black (JS.trimEnd s).
Proof.
  destruct s as [|c s]; simpl; [auto|]. intros Hc.
  destruct (JS.trimEnd s); [rewrite Hc|]; exact Hc.
Qed.

Lemma trimStart_of_black s : starts_black s -> JS.trimStart s = s.
Proof. destruct s as [|c s]; simpl; [reflexivity|]. intros ->. reflexivity. Qed.

Lemma trim_idempotent s : JS.trim (JS.trim s) = JS.trim s.
Proof.
  unfold JS.trim.
  rewrite (trimStart_of_black (JS.trimEnd (JS.trimStart s))).
  - apply trimEnd_idempotent.
  - apply trimEnd_starts_black, trimStart_starts_black.
Qed.

Lemma entered_symbol_idempotent s :
  JS.toLowerCase (JS.trim (JS.toLowerCase (JS.trim s))) = JS.toLowerCase (JS.trim s).
Proof. rewrite trim_toLowerCase, toLowerCase_idempotent, trim_idempotent. reflexivity. Qed.

End EnteredSymbol.

(** X19: [addSymbol] reads the input only trimmed and in lower case: entering
    a symbol with white space around it or in upper case does exactly what
    entering it trimmed and in lower case does. *)
Theorem addSymbol_ignores_case_and_surrounding_space (b : backend) (input : string) :
  TradingApp.addSymbol b (JS.toLowerCase (JS.trim input)) = TradingApp.addSymbol b input.
Proof.
  unfold TradingApp.addSymbol. rewrite entered_symbol_idempotent. reflexivity.
Qed.

(* ================================================================== *)
(** ** The symbol dropdowns                                            *)
(* ================================================================== *)

(** X20: a second call of [updateSymbolDropdowns] with the same symbols
    changes nothing: neither the dropdowns nor the fields of the
    application. *)
Theorem updateSymbolDropdowns_twice_is_once
    (st : TradingApp.dropdowns) (dataSymbol alertSymbol : option TradingApp.select)
    (symbols : list string) :
  let '(st1, dataSymbol1, alertSymbol1) :=
    TradingApp.updateSymbolDropdowns st dataSymbol alertSymbol symbols in
  TradingApp.updateSymbolDropdowns st1 dataSymbol1 alertSymbol1 symbols
    = (st1, dataSymbol1, alertSymbol1).
Proof.
  unfold TradingApp.updateSymbolDropdowns.
  destruct (bool_decide (TradingApp.availableSymbols st = symbols)) eqn:Heq;
    destruct (TradingApp.dropdownsInitialized st) eqn:Hinit; simpl;
    rewrite ?Heq, ?Hinit; simpl;
    rewrite ?bool_decide_eq_true_2 by reflexivity; reflexivity.
Qed.

(** X21: [updateSymbolDropdowns] keeps the value of a dropdown among its
    options; when it rebuilds the dropdown, the options are the placeholder
    followed by the symbols, a value that is among the symbols is kept, and
    any other value falls back to the placeholder. *)
Theorem updateSymbolDropdowns_keeps_the_value_listed
    (st : TradingApp.dropdowns) (alertSymbol : option TradingApp.select)
    (sel : TradingApp.select) (symbols : list string) :
  In (TradingApp.value sel) (TradingApp.options sel) ->
  exists sel',
    snd (fst (TradingApp.updateSymbolDropdowns st (Some sel) alertSymbol symbols))
      = Some sel' /\
    In (TradingApp.value sel') (TradingApp.options sel') /\
    (sel' = sel \/
     (TradingApp.options sel' = EmptyString :: symbols /\
      (In (TradingApp.value sel) symbols ->
       TradingApp.value sel' = TradingApp.value sel) /\
      (~ In (TradingApp.value sel) symbols ->
       TradingApp.value sel' = EmptyString))).
Proof.
  intros Hin. unfold TradingApp.updateSymbolDropdowns.
  destruct (negb (negb _) && _).
  - exists sel. simpl. auto.
  - exists (TradingApp.rebuild_options symbols sel). simpl.
    split; [reflexivity|].
    destruct (JS.includes symbols (TradingApp.value sel)) eqn:Hinc.
    + apply includes_In in Hinc. split; [right; exact Hinc|].
      right. split; [reflexivity|]. split; [reflexivity | contradiction].
    + apply includes_not_In in Hinc. split; [left; reflexivity|].
      right. split; [reflexivity|]. split; [contradiction | reflexivity].
Qed.

Lemma updateSymbolDropdowns_keeps_the_value_listed_witness :
  exists sel',
    snd (fst (TradingApp.updateSymbolDropdowns
                {| TradingApp.availableSymbols := ["btcusdt"; "ethusdt"]%string;
                   TradingApp.dropdownsInitialized := true |}
                (Some {| TradingApp.options := [""; "btcusdt"; "ethusdt"]%string;
                         TradingApp.value := "ethusdt" |})
                None ["btcusdt"; "solusdt"]%string))
      = Some sel' /\
    In (TradingApp.value sel') (TradingApp.options sel') /\
    (sel' = {| TradingApp.options := [""; "btcusdt"; "ethusdt"]%string;
               TradingApp.value := "ethusdt" |} \/
     (TradingApp.options sel' = EmptyString :: ["btcusdt"; "solusdt"]%string /\
      (In "ethusdt"%string ["btcusdt"; "solusdt"]%string ->
       TradingApp.value sel' = "ethusdt"%string) /\
      (~ In "ethusdt"%string ["btcusdt"; "solusdt"]%string ->
       TradingApp.value sel' = EmptyString))).
Proof.
  apply (updateSymbolDropdowns_keeps_the_value_listed
           {| TradingApp.availableSymbols := ["btcusdt"; "ethusdt"]%string;
              TradingApp.dropdownsInitialized := true |}
           None
           {| TradingApp.options := [""; "btcusdt"; "ethusdt"]%string;
              TradingApp.value := "ethusdt" |}
           ["btcusdt"; "solusdt"]%string).
  simpl. auto.
Defined.

(* ================================================================== *)
(** ** Reconnecting, and the handlers of the client                    *)
(* ================================================================== *)

Section ReconnectMore.
Import WebSocketClient.

Lemma run_constructor_failures n :
  fst (run constructor (repeat Fails n)) =
  firstn n [1000; 2000; 4000; 8000; 16000; 30000; 30000; 30000; 30000; 30000].
Proof. do 11 (destruct n as [|n]; [reflexivity|]). reflexivity. Qed.

Lemma run_delays_bounded outcomes : forall c,
  retry_inv c ->
  Forall (fun delay => 1000 <= delay <= 30000) (fst (run c outcomes)) /\
  (List.length (fst (run c outcomes)) <= List.length outcomes)%nat.
Proof.
  induction outcomes as [|o outcomes IH]; intros c Hc; simpl.
  - split; [constructor | lia].
  - set (c1 := match o with Opens => onopen c | Fails => c end).
    assert (Hc1 : retry_inv c1)
      by (destruct o; [apply retry_inv_onopen|]; assumption).
    destruct (reconnect c1) as [delay|] eqn:Hr; [|simpl; split; [constructor | lia]].
    destruct (IH (reconnect_timer c1) (retry_inv_timer _ _ Hc1 Hr)) as [IH1 IH2].
    destruct (run (reconnect_timer c1) outcomes) as [delays c']. simpl in *.
    split; [|lia]. constructor; [|assumption].
    unfold reconnect in Hr. destruct (_ <? 10); [|discriminate].
    injection Hr as <-. destruct Hc1 as (_ & _ & Hd). exact Hd.
Qed.

End ReconnectMore.

(** X22: whatever the outcomes of the connections, the number of reconnect
    attempts in a row stays between 0 and 10, the delay between 1000 and
    30000 ms, the cap at 30000 ms, and every timer that was set had a delay
    between 1000 and 30000 ms; no more timers are set than connections were
    made. *)
Theorem reconnect_fields_stay_in_range (history : list WebSocketClient.outcome) :
  retry_inv (snd (WebSocketClient.run WebSocketClient.constructor history)) /\
  Forall (fun delay => 1000 <= delay <= 30000)
    (fst (WebSocketClient.run WebSocketClient.constructor history)) /\
  (List.length (fst (WebSocketClient.run WebSocketClient.constructor history))
   <= List.length history)%nat.
Proof.
  split; [apply retry_inv_run, retry_inv_constructor|].
  apply run_delays_bounded, retry_inv_constructor.
Qed.

(** X23: a connection that opens gives the retries their full budget back:
    whatever happened before, if the socket opens and then the connections
    fail [n] times in a row, the timers are set with the delays of a fresh
    client, 1000, 2000, 4000, 8000, 16000 and 30000 ms. *)
Theorem open_connection_resets_the_backoff
    (history : list WebSocketClient.outcome) (n : nat) :
  fst (WebSocketClient.run
         (snd (WebSocketClient.run WebSocketClient.constructor history))
         (WebSocketClient.Opens :: repeat WebSocketClient.Fails n))
  = firstn (S n) [1000; 2000; 4000; 8000; 16000; 30000; 30000; 30000; 30000; 30000].
Proof.
  pose proof (retry_inv_run history _ retry_inv_constructor) as (Hm & _ & _).
  rewrite <- run_constructor_failures.
  change (repeat WebSocketClient.Fails (S n))
    with (WebSocketClient.Fails :: repeat WebSocketClient.Fails n).
  cbn [WebSocketClient.run].
  unfold WebSocketClient.onopen. rewrite Hm. reflexivity.
Qed.

(** X24: [off] removes every registration of the handler for the event and
    keeps the other handlers of the event in their order and those of the
    other events as they are; after [on] of a handler that was not
    registered, [off] restores the handlers. *)
Theorem off_removes_the_handler
    (hs : WebSocketClient.handlers_t) (event : WebSocketClient.channel)
    (handler : nat) :
  ~ In (event, handler)
       (WebSocketClient.triggerHandlers
          (WebSocketClient.off hs event handler) event) /\
  WebSocketClient.get_handlers (WebSocketClient.off hs event handler) event
    = List.filter (fun h => negb (Nat.eqb h handler))
        (WebSocketClient.get_handlers hs event) /\
  (forall other, other <> event ->
     WebSocketClient.get_handlers (WebSocketClient.off hs event handler) other
       = WebSocketClient.get_handlers hs other) /\
  (~ In handler (WebSocketClient.get_handlers hs event) ->
   WebSocketClient.off (WebSocketClient.on hs event handler) event handler = hs).
Proof.
  assert (Hget : forall hs' l,
            WebSocketClient.get_handlers (WebSocketClient.set_handlers hs' event l) event = l)
    by (intros hs' l; destruct event; reflexivity).
  split; [|split; [|split]].
  - unfold WebSocketClient.triggerHandlers, WebSocketClient.off. rewrite Hget.
    rewrite in_map_iff. intros (h & [= ->] & Hin).
    apply filter_In in Hin. destruct Hin as [_ Hneq].
    rewrite Nat.eqb_refl in Hneq. discriminate.
  - unfold WebSocketClient.off. apply Hget.
  - intros other Hother. destruct event, other; try congruence; reflexivity.
  - intros Hnot. unfold WebSocketClient.off, WebSocketClient.on. rewrite Hget.
    rewrite List.filter_app. simpl. rewrite Nat.eqb_refl. simpl. rewrite app_nil_r.
    assert (Hf : List.filter (fun h => negb (Nat.eqb h handler))
                   (WebSocketClient.get_handlers hs event)
                 = WebSocketClient.get_handlers hs event).
    { induction (WebSocketClient.get_handlers hs event) as [|h l IH];
        [reflexivity|]. simpl.
      destruct (Nat.eqb h handler) eqn:Hh.
      - apply Nat.eqb_eq in Hh. exfalso. apply Hnot. left. exact Hh.
      - simpl. f_equal. apply IH. intros H. apply Hnot. right. exact H. }
    rewrite Hf. destruct hs, event; reflexivity.
Qed.

(* ================================================================== *)
(** ** Loading the chart                                               *)
(* ================================================================== *)

Section LoadChart.
Import TradingApp.

Lemma with_element_lookup doc id body doc' id' :
  with_element doc id body = Some doc' ->
  doc' !! id' = if decide (id' = id) then doc !! id ≫= body else doc !! id'.
Proof.
  unfold with_element. destruct (doc !! id) as [el|] eqn:Hel.
  - simpl. destruct (body el) as [el'|]; simpl; [|discriminate]. intros [= <-].
    destruct (decide (id' = id)) as [->|Hne].
    + apply lookup_insert_eq.
    + apply lookup_insert_ne. congruence.
  - intros [= <-]. destruct (decide (id' = id)) as [->|Hne]; [exact Hel | reflexivity].
Qed.

(** The elements of the page after the writes of the statistics block. *)
Ltac look_through E :=
  match type of E with
  | with_element _ ?id _ = Some ?d =>
      match goal with
      | |- context [d !! ?t] =>
          rewrite (with_element_lookup _ _ _ _ t E);
          destruct (decide (t = id)) as [?Heq|?Hne];
          [try discriminate | try (exfalso; congruence)]
      end
  end.

(** The elements of the page after the writes of the statistics block. *)
Lemma display_stats_lookup s doc doc' :
  display_stats s doc = Some doc' ->
  doc' !! "liveMeanPrice"%string = doc !! "liveMeanPrice"%string ≫= write_mean s /\
  doc' !! "liveStdDev"%string = doc !! "liveStdDev"%string ≫= write_std s /\
  doc' !! "liveMinPrice"%string = doc !! "liveMinPrice"%string ≫= write_min s /\
  doc' !! "liveMaxPrice"%string = doc !! "liveMaxPrice"%string ≫= write_max s.
Proof.
  unfold display_stats. intros E7.
  destruct (with_element doc _ _) as [doc1|] eqn:E1; simpl in E7; [|discriminate E7].
  destruct (with_element doc1 _ _) as [doc2|] eqn:E2; simpl in E7; [|discriminate E7].
  destruct (with_element doc2 _ _) as [doc3|] eqn:E3; simpl in E7; [|discriminate E7].
  destruct (with_element doc3 _ _) as [doc4|] eqn:E4; simpl in E7; [|discriminate E7].
  destruct (with_element doc4 _ _) as [doc5|] eqn:E5; simpl in E7; [|discriminate E7].
  destruct (with_element doc5 _ _) as [doc6|] eqn:E6; simpl in E7; [|discriminate E7].
  repeat split;
    look_through E7; look_through E6; look_through E5; look_through E4;
    try look_through E3; try look_through E2; try look_through E1;
    reflexivity.
Qed.

End LoadChart.

(** X25: when both requests are answered, the chart data is not empty and
    the statistics block is on the page, the mean, standard deviation, min
    and max shown once [loadChartData] is done are those recomputed from the
    close prices of the chart data, and not the numbers of the summary the
    backend sent. *)
Theorem loadChartData_shows_the_statistics_of_the_chart
    (charts charts' : Charts.t) (doc doc' : document)
    (latestTicksData : option (gmap string Number)) (symbol : string)
    (ohlcvData : list Charts.bar) (lastBar : Charts.bar) (summaryData : TradingApp.summary)
    (events : list TradingApp.load_event) :
  symbol <> EmptyString ->
  last ohlcvData = Some lastBar ->
  is_Some (doc !! "statsGrid"%string) ->
  is_Some (doc !! "summarySection"%string) ->
  TradingApp.loadChartData charts doc latestTicksData symbol
    (Resolved ohlcvData) (Resolved summaryData) = Some (charts', doc', events) ->
  exists mean std min max,
    let livePrice :=
      default (Charts.close lastBar) (latestTicksData ≫= (.!! symbol)) in
    let s := TradingApp.recalculate (map Charts.close ohlcvData) livePrice in
    JS.toFixed (TradingApp.mean s) 2 = Some mean /\
    JS.toFixed (TradingApp.std s) 2 = Some std /\
    JS.toFixed (TradingApp.min s) 2 = Some min /\
    JS.toFixed (TradingApp.max s) 2 = Some max /\
    text_of "liveMeanPrice" (Some doc') = Some ("$" ++ mean)%string /\
    text_of "liveStdDev" (Some doc') = Some std /\
    text_of "liveMinPrice" (Some doc') = Some ("$" ++ min)%string /\
    text_of "liveMaxPrice" (Some doc') = Some ("$" ++ max)%string.
Proof.
  intros Hsym Hlast [grid Hgrid] [section Hsection].
  unfold TradingApp.loadChartData.
  apply String.eqb_neq in Hsym. rewrite Hsym, Hlast.
  set (livePrice := match latestTicksData ≫= (.!! symbol) with
                    | Some price => price
                    | None => Charts.close lastBar
                    end).
  replace (default (Charts.close lastBar) (latestTicksData ≫= (.!! symbol)))
    with livePrice
    by (unfold livePrice; destruct (latestTicksData ≫= (.!! symbol)); reflexivity).
  destruct ohlcvData as [|bar0 bars]; [discriminate Hlast|].
  cbn [Charts.renderOHLCV].
  unfold TradingApp.displaySummary. rewrite Hgrid.
  destruct (JS.toFixed (TradingApp.summary_mean summaryData) 2) as [m0|]; [|discriminate].
  destruct (JS.toFixed (TradingApp.summary_std summaryData) 2) as [s0|]; [|discriminate].
  destruct (JS.toFixed (TradingApp.summary_min summaryData) 2) as [lo0|]; [|discriminate].
  destruct (JS.toFixed (TradingApp.summary_max summaryData) 2) as [hi0|]; [|discriminate].
  cbn [mbind option_bind].
  rewrite !lookup_insert_ne by discriminate. rewrite Hsection.
  cbn [mbind option_bind].
  unfold TradingApp.updateLiveStatPrice.
  match goal with
  | |- context [with_element ?d "liveStatPrice" ?f] =>
      destruct (with_element d "liveStatPrice" f) as [doc1|] eqn:E1
  end; cbn [mbind option_bind]; [|discriminate].
  cbn [Charts.currentData Charts.set_currentPrice Charts.set_currentData
         Charts.set_currentSymbol].
  destruct (TradingApp.display_stats _ doc1) as [doc2|] eqn:E2;
    cbn [mbind option_bind]; [|discriminate].
  intros [= _ <- _].
  destruct (display_stats_lookup _ _ _ E2) as (Lmean & Lstd & Lmin & Lmax).
  rewrite (with_element_lookup _ _ _ _ "liveMeanPrice"%string E1) in Lmean.
  rewrite (with_element_lookup _ _ _ _ "liveStdDev"%string E1) in Lstd.
  rewrite (with_element_lookup _ _ _ _ "liveMinPrice"%string E1) in Lmin.
  rewrite (with_element_lookup _ _ _ _ "liveMaxPrice"%string E1) in Lmax.
  destruct (decide (_ = _)) as [Heq|_] in Lmean; [discriminate Heq|].
  destruct (decide (_ = _)) as [Heq|_] in Lstd; [discriminate Heq|].
  destruct (decide (_ = _)) as [Heq|_] in Lmin; [discriminate Heq|].
  destruct (decide (_ = _)) as [Heq|_] in Lmax; [discriminate Heq|].
  rewrite lookup_insert_ne, lookup_insert_ne, lookup_insert_ne, lookup_insert_eq
    in Lmean by discriminate.
  rewrite lookup_insert_ne, lookup_insert_ne, lookup_insert_eq
    in Lstd by discriminate.
  rewrite lookup_insert_ne, lookup_insert_eq in Lmin by discriminate.
  rewrite lookup_insert_eq in Lmax.
  unfold text_of. cbn [mbind option_bind].
  rewrite Lmean, Lstd, Lmin, Lmax.
  unfold TradingApp.write_mean, TradingApp.write_std, TradingApp.write_min,
    TradingApp.write_max.
  pose proof (display_stats_same_page _ _ _ E2) as Hsame.
  assert (Hdef : forall id, is_Some (doc1 !! id) -> is_Some (doc2 !! id)).
  { intros id [el Hel]. specialize (Hsame id). rewrite Hel in Hsame.
    destruct (doc2 !! id); [eauto | contradiction]. }
  assert (Hm : is_Some (doc2 !! "liveMeanPrice"%string)).
  { apply Hdef. rewrite (with_element_lookup _ _ _ _ _ E1).
    destruct (decide (_ = _)) as [Heq|_]; [discriminate Heq|].
    rewrite lookup_insert_ne, lookup_insert_ne, lookup_insert_ne, lookup_insert_eq
      by discriminate. eauto. }
  assert (Hs : is_Some (doc2 !! "liveStdDev"%string)).
  { apply Hdef. rewrite (with_element_lookup _ _ _ _ _ E1).
    destruct (decide (_ = _)) as [Heq|_]; [discriminate Heq|].
    rewrite lookup_insert_ne, lookup_insert_ne, lookup_insert_eq by discriminate.
    eauto. }
  assert (Hlo : is_Some (doc2 !! "liveMinPrice"%string)).
  { apply Hdef. rewrite (with_element_lookup _ _ _ _ _ E1).
    destruct (decide (_ = _)) as [Heq|_]; [discriminate Heq|].
    rewrite lookup_insert_ne, lookup_insert_eq by discriminate. eauto. }
  assert (Hhi : is_Some (doc2 !! "liveMaxPrice"%string)).
  { apply Hdef. rewrite (with_element_lookup _ _ _ _ _ E1).
    destruct (decide (_ = _)) as [Heq|_]; [discriminate Heq|].
    rewrite lookup_insert_eq. eauto. }
  rewrite Lmean in Hm. rewrite Lstd in Hs. rewrite Lmin in Hlo. rewrite Lmax in Hhi.
  unfold TradingApp.write_mean in Hm. unfold TradingApp.write_std in Hs.
  unfold TradingApp.write_min in Hlo. unfold TradingApp.write_max in Hhi.
  cbn [mbind option_bind] in *.
  destruct (JS.toFixed (TradingApp.mean _) 2) as [m1|]; [|destruct Hm; discriminate].
  destruct (JS.toFixed (TradingApp.std _) 2) as [s1|]; [|destruct Hs; discriminate].
  destruct (JS.toFixed (TradingApp.min _) 2) as [lo1|]; [|destruct Hlo; discriminate].
  destruct (JS.toFixed (TradingApp.max _) 2) as [hi1|]; [|destruct Hhi; discriminate].
  exists m1, s1, lo1, hi1. cbn. repeat split; reflexivity.
Qed.

Lemma loadChartData_shows_the_statistics_of_the_chart_witness :
  exists mean std min max,
    let livePrice :=
      default 110%float
        ((None : option (gmap string Number)) ≫= (.!! "btcusdt"%string)) in
    let s := TradingApp.recalculate (map Charts.close load_bars) livePrice in
    JS.toFixed (TradingApp.mean s) 2 = Some mean /\
    JS.toFixed (TradingApp.std s) 2 = Some std /\
    JS.toFixed (TradingApp.min s) 2 = Some min /\
    JS.toFixed (TradingApp.max s) 2 = Some max /\
    text_of "liveMeanPrice" (Some (snd (fst load_result))) = Some ("$" ++ mean)%string /\
    text_of "liveStdDev" (Some (snd (fst load_result))) = Some std /\
    text_of "liveMinPrice" (Some (snd (fst load_result))) = Some ("$" ++ min)%string /\
    text_of "liveMaxPrice" (Some (snd (fst load_result))) = Some ("$" ++ max)%string.
Proof.
  apply (loadChartData_shows_the_statistics_of_the_chart
           Charts.init (fst (fst load_result)) load_page (snd (fst load_result))
           None "btcusdt" load_bars
           {| Charts.timestamp := "2025-01-01T00:01:00"; Charts.open := 90%float;
              Charts.high := 111%float; Charts.low := 90%float;
              Charts.close := 110%float; Charts.volume := 3%float |}
           load_summary (snd load_result)).
  - discriminate.
  - reflexivity.
  - eexists. reflexivity.
  - eexists. reflexivity.
  - vm_compute. reflexivity.
Defined.

(* ================================================================== *)
(** ** Saving an alert                                                 *)
(* ================================================================== *)

Section Alerts.
Import TradingApp.

Lemma getAlerts_sent_emit e st :
  getAlerts_sent (emit_alert e st) =
  (getAlerts_sent st + match e with CallGetAlerts => 1 | _ => 0 end)%nat.
Proof.
  unfold getAlerts_sent, emit_alert. simpl.
  rewrite List.filter_app, length_app. destruct e; reflexivity.
Qed.

Lemma createAlert_sent_emit e st :
  createAlert_sent (emit_alert e st) =
  (createAlert_sent st + match e with CallCreateAlert _ _ _ _ _ => 1 | _ => 0 end)%nat.
Proof.
  unfold createAlert_sent, emit_alert. simpl.
  rewrite List.filter_app, length_app. destruct e; reflexivity.
Qed.

Lemma loadAlerts_counts b st :
  getAlerts_sent (loadAlerts b st) = (getAlerts_sent st + 1)%nat /\
  createAlert_sent (loadAlerts b st) = createAlert_sent st /\
  form (loadAlerts b st) = form st.
Proof.
  unfold loadAlerts. destruct (on_getAlerts b _) as [l|e].
  - rewrite getAlerts_sent_emit, createAlert_sent_emit.
    change (getAlerts_sent (set_alerts l (emit_alert CallGetAlerts st)))
      with (getAlerts_sent (emit_alert CallGetAlerts st)).
    change (createAlert_sent (set_alerts l (emit_alert CallGetAlerts st)))
      with (createAlert_sent (emit_alert CallGetAlerts st)).
    rewrite getAlerts_sent_emit, createAlert_sent_emit. simpl. repeat split; lia.
  - rewrite getAlerts_sent_emit, createAlert_sent_emit. simpl. repeat split; lia.
Qed.

End Alerts.

(** X26: [saveAlert] closes the dialog, clears the name and the threshold of
    the form and asks for the list of alerts again whatever happened: when
    the form is incomplete no alert is created and what was typed is lost all
    the same; the request to create the alert is sent exactly when the form
    is complete; the symbol is cleared, and the list asked for twice, exactly
    when the alert was created. *)
Theorem saveAlert_clears_the_form_whatever_happens
    (parseFloat : string -> Number) (b : TradingApp.alerts_backend)
    (st : TradingApp.alerts_state) :
  let complete := form_complete parseFloat (TradingApp.form st) in
  let created :=
    complete && match TradingApp.on_createAlert b with
                | Resolved _ => true
                | Rejected _ => false
                end in
  let st' := TradingApp.saveAlert parseFloat b st in
  TradingApp.alertName (TradingApp.form st') = EmptyString /\
  TradingApp.alertThreshold (TradingApp.form st') = EmptyString /\
  TradingApp.alertSymbol (TradingApp.form st') =
    (if created then EmptyString else TradingApp.alertSymbol (TradingApp.form st)) /\
  createAlert_sent st' = (createAlert_sent st + if complete then 1 else 0)%nat /\
  TradingApp.getAlerts_sent st' =
    (TradingApp.getAlerts_sent st + if created then 2 else 1)%nat.
Proof.
  cbv zeta. unfold TradingApp.saveAlert.
  match goal with
  | |- context [TradingApp.loadAlerts b ?s] =>
      destruct (loadAlerts_counts b s) as (Hg & Hc & Hf)
  end.
  rewrite Hg, Hc, Hf. clear Hg Hc Hf.
  unfold TradingApp.closeCreateAlertDialog. cbn [TradingApp.form TradingApp.set_form
    TradingApp.alertName TradingApp.alertThreshold TradingApp.alertSymbol].
  change (createAlert_sent (TradingApp.set_form ?f ?s)) with (createAlert_sent s).
  change (TradingApp.getAlerts_sent (TradingApp.set_form ?f ?s))
    with (TradingApp.getAlerts_sent s).
  rewrite getAlerts_sent_emit, createAlert_sent_emit.
  cbn [TradingApp.form TradingApp.emit_alert].
  unfold TradingApp.createAlert, form_complete.
  destruct (String.eqb _ EmptyString || String.eqb _ EmptyString || is_nan _); simpl negb;
    cbv iota.
  - rewrite getAlerts_sent_emit, createAlert_sent_emit. simpl. repeat split; lia.
  - destruct (TradingApp.on_createAlert b) as [[]|message]; simpl andb; cbv iota.
    + match goal with
      | |- context [TradingApp.loadAlerts b ?s] =>
          destruct (loadAlerts_counts b s) as (Hg & Hc & Hf)
      end.
      cbn [TradingApp.form TradingApp.set_form TradingApp.alertSymbol].
      change (createAlert_sent (TradingApp.set_form ?f ?s)) with (createAlert_sent s).
      change (TradingApp.getAlerts_sent (TradingApp.set_form ?f ?s))
        with (TradingApp.getAlerts_sent s).
      rewrite Hg, Hc.
      rewrite !getAlerts_sent_emit, !createAlert_sent_emit. simpl.
      repeat split; lia.
    + rewrite !getAlerts_sent_emit, !createAlert_sent_emit. simpl.
      repeat split; lia.
Qed.
